(** * MassiveDataCollector: a shallow embedding of
      [src/services/massive_data_collector.py]

    The collector is a Python class that queries search providers, social
    platforms and a deep navigator, extracts the text of the URLs found,
    consolidates everything into one dictionary (the "JSON gigante"), saves it
    and validates it.

    Conventions of the embedding.
    - A Python [str] is the list of its code points ([pystr]); literals are
      written [py "..."].
    - Values that cross the boundary with a collaborator, and the dictionaries
      the collector builds from them, are JSON-like Python values ([pyval]).
      Dictionaries keep insertion order, as Python's do.
    - A Python [float] is the rational it denotes ([PyFloat q]).  True
      division ([a / b]) and the product of floats are rounded to the nearest
      binary64 value, ties to even, as CPython does ([round_binary64]); an
      integer quotient too large for a float raises [OverflowError].  The
      quality score is a float that only ever holds a small integer, so it is
      computed in [Z], and sums of such scores are exact.
    - Code that can raise returns an [outcome]; methods of the class run in
      the monad [M], which threads [self.collection_stats] and keeps the
      mutations made before an exception.
    - Collaborators (search clients, extractor, file system, clocks, the
      auto-save manager) are fields of a [World]. *)

From Stdlib Require Import String Ascii DecimalString ZArith QArith Qround Qabs Lqa Bool Lia
  List.
Import ListNotations.
Open Scope Z_scope.

Set Implicit Arguments.

(** ** Python strings *)

Definition pystr := list N.

Definition py (s : string) : pystr := map N_of_ascii (list_ascii_of_string s).

Definition pystr_eqb (a b : pystr) : bool :=
  if list_eq_dec N.eq_dec a b then true else false.

Lemma pystr_eqb_eq a b : pystr_eqb a b = true <-> a = b.
Proof.
  unfold pystr_eqb. destruct (list_eq_dec N.eq_dec a b); split; congruence.
Qed.

Lemma pystr_eqb_refl a : pystr_eqb a a = true.
Proof. now apply pystr_eqb_eq. Qed.

(** [s.startswith(p)] and [p in s] for strings. *)
Fixpoint startswith (p s : pystr) : bool :=
  match p, s with
  | [], _ => true
  | _ :: _, [] => false
  | a :: p', b :: s' => N.eqb a b && startswith p' s'
  end.

Fixpoint str_contains (p s : pystr) : bool :=
  startswith p s ||
  match s with
  | [] => false
  | _ :: s' => str_contains p s'
  end.

(** [str(z)] for an [int]. *)
Definition str_int (z : Z) : pystr := py (NilZero.string_of_int (Z.to_int z)).

(** ** Python values *)

#[warnings="-register-all"]
Inductive pyval : Type :=
| PyNone
| PyBool (b : bool)
| PyInt (z : Z)
| PyFloat (q : Q)
| PyStr (s : pystr)
| PyList (l : list pyval)
| PyDict (d : list (pystr * pyval)).

Definition pydict := list (pystr * pyval).

(** Truth value of an object, as tested by [if x:]. *)
Definition truthy (v : pyval) : bool :=
  match v with
  | PyNone => false
  | PyBool b => b
  | PyInt z => negb (z =? 0)
  | PyFloat q => negb (Qeq_bool q 0)
  | PyStr s => match s with [] => false | _ => true end
  | PyList l => match l with [] => false | _ => true end
  | PyDict d => match d with [] => false | _ => true end
  end.

(** [v == 'literal'] *)
Definition eq_str (v : pyval) (s : pystr) : bool :=
  match v with
  | PyStr t => pystr_eqb t s
  | _ => false
  end.

(** Dictionaries: lookup, [d[k] = v] (in place, the position of an existing
    key is kept), values in insertion order. *)
Fixpoint dict_lookup (d : pydict) (k : pystr) : option pyval :=
  match d with
  | [] => None
  | (k', v) :: d' => if pystr_eqb k' k then Some v else dict_lookup d' k
  end.

Fixpoint dict_set (d : pydict) (k : pystr) (v : pyval) : pydict :=
  match d with
  | [] => [(k, v)]
  | (k', v') :: d' =>
      if pystr_eqb k' k then (k', v) :: d' else (k', v') :: dict_set d' k v
  end.

Definition dict_values (d : pydict) : list pyval := map snd d.

(** ** Exceptions and outcomes *)

Record exn : Type := mkExn { exn_class : pystr; exn_args : list pystr }.

Inductive outcome (A : Type) : Type :=
| Returned (a : A)
| Raised (e : exn).
Arguments Returned {A} a.
Arguments Raised {A} e.

Definition TypeError (msg : string) : exn := mkExn (py "TypeError") [py msg].
Definition AttributeError (msg : string) : exn := mkExn (py "AttributeError") [py msg].
Definition KeyError (k : pystr) : exn := mkExn (py "KeyError") [k].
Definition ZeroDivisionError : exn := mkExn (py "ZeroDivisionError") [py "division by zero"].
Definition OverflowError : exn :=
  mkExn (py "OverflowError") [py "integer division result too large for a float"].
Definition TimeoutError : exn := mkExn (py "TimeoutError") [].

(** An exception carries a piece of text when one of its arguments contains it. *)
Definition carries (e : exn) (s : pystr) : bool :=
  existsb (str_contains s) (exn_args e).

(** ** Builtins on values; each raises where CPython does *)

(** [v.get(k, default)] : only dictionaries have [get]. *)
Definition py_get (v : pyval) (k : pystr) (default : pyval) : outcome pyval :=
  match v with
  | PyDict d => Returned (match dict_lookup d k with Some x => x | None => default end)
  | _ => Raised (AttributeError "object has no attribute 'get'")
  end.

(** [v[k]] with a string key. *)
Definition py_getitem (v : pyval) (k : pystr) : outcome pyval :=
  match v with
  | PyDict d => match dict_lookup d k with
                | Some x => Returned x
                | None => Raised (KeyError k)
                end
  | _ => Raised (TypeError "indices must be integers or slices, not str")
  end.

(** [len(v)] *)
Definition py_len (v : pyval) : outcome Z :=
  match v with
  | PyStr s => Returned (Z.of_nat (length s))
  | PyList l => Returned (Z.of_nat (length l))
  | PyDict d => Returned (Z.of_nat (length d))
  | _ => Raised (TypeError "object has no len()")
  end.

(** [for x in v] : the items iterated over. *)
Definition py_iter (v : pyval) : outcome (list pyval) :=
  match v with
  | PyList l => Returned l
  | PyDict d => Returned (map (fun kv => PyStr (fst kv)) d)
  | PyStr s => Returned (map (fun c => PyStr [c]) s)
  | _ => Raised (TypeError "object is not iterable")
  end.

(** [v[:n]] *)
Definition py_slice_to (v : pyval) (n : nat) : outcome pyval :=
  match v with
  | PyStr s => Returned (PyStr (firstn n s))
  | PyList l => Returned (PyList (firstn n l))
  | _ => Raised (TypeError "object is not subscriptable")
  end.

(** ['k' in v] *)
Definition py_contains (v : pyval) (k : pystr) : outcome bool :=
  match v with
  | PyDict d => Returned (match dict_lookup d k with Some _ => true | None => false end)
  | PyList l => Returned (existsb (fun x => eq_str x k) l)
  | PyStr s => Returned (str_contains k s)
  | _ => Raised (TypeError "argument is not iterable")
  end.

(** Numbers: [bool], [int] and [float] compare and add as numbers. *)
Definition as_number (v : pyval) : option Q :=
  match v with
  | PyBool b => Some (if b then 1 else 0)%Q
  | PyInt z => Some (inject_Z z)
  | PyFloat q => Some q
  | _ => None
  end.

(** [v >= n] for an integer literal [n]. *)
Definition py_ge (v : pyval) (n : Z) : outcome bool :=
  match as_number v with
  | Some q => Returned (Qle_bool (inject_Z n) q)
  | None => Raised (TypeError "'>=' not supported between these instances")
  end.

(** [a + b] on numbers; an [int] result stays an [int]. *)
Definition py_add (a b : pyval) : outcome pyval :=
  match a, b with
  | PyInt x, PyInt y => Returned (PyInt (x + y))
  | PyStr x, PyStr y => Returned (PyStr (x ++ y))
  | PyList x, PyList y => Returned (PyList (x ++ y))
  | _, _ =>
      match as_number a, as_number b with
      | Some x, Some y =>
          match a, b with
          | PyFloat _, _ | _, PyFloat _ => Returned (PyFloat (x + y))
          | _, _ => Returned (PyInt (Qfloor (x + y)))
          end
      | _, _ => Raised (TypeError "unsupported operand type(s) for +")
      end
  end.

(** ** Floats

    A float is a binary64 number, written as the rational it denotes.
    [round_binary64 x] is the float nearest to the rational [x], the one with
    the even significand when two are as near: 53 significant bits, and a
    last place that is never below [2^-1074].  It knows no largest float: the
    operations say what happens beyond it. *)

(** [floor (log2 (a / d))] *)
Definition floor_log2 (a d : positive) : Z :=
  let k := Z.log2 (Zpos a) - Z.log2 (Zpos d) in
  if Zpos d * 2 ^ Z.max k 0 <=? Zpos a * 2 ^ Z.max (- k) 0 then k else k - 1.

(** The integer nearest to [num / den], the even one of two. *)
Definition round_half_even (num den : Z) : Z :=
  let q := num / den in
  let r := num mod den in
  if 2 * r <? den then q
  else if den <? 2 * r then q + 1
  else if Z.even q then q else q + 1.

(** The float nearest to [a / d]: a multiple of [2^e], where [e] is the
    exponent of the last place: 52 below that of the first, at least -1074. *)
Definition round_positive (a d : positive) : Q :=
  let e := Z.max (floor_log2 a d - 52) (- 1074) in
  let up := 2 ^ Z.max e 0 in
  let down := 2 ^ Z.max (- e) 0 in
  let m := round_half_even (Zpos a * down) (Zpos d * up) in
  Qred (Qmake (m * up) (Z.to_pos down)).

Definition round_binary64 (x : Q) : Q :=
  match Qnum x with
  | Z0 => 0%Q
  | Zpos a => round_positive a (Qden x)
  | Zneg a => Qopp (round_positive a (Qden x))
  end.

(** [x * y] on floats.  The product is rounded; the model has no infinity,
    and the one product of the collector, a quotient of two lengths by 100,
    is far below the largest float. *)
Definition py_float_mul (x y : Q) : Q := round_binary64 (Qmult x y).

(** The float nearest to a quotient is beyond the largest float,
    [2^1024 - 2^971], when the quotient is at least this. *)
Definition binary64_limit : Z := 2 ^ 1024 - 2 ^ 970.

(** [a / b] on integers: the float nearest to the quotient. *)
Definition py_truediv (a b : Z) : outcome Q :=
  if b =? 0 then Raised ZeroDivisionError
  else if binary64_limit * Z.abs b <=? Z.abs a then Raised OverflowError
  else Returned (round_binary64 (Qmake (a * Z.sgn b) (Z.to_pos (Z.abs b)))).

(** ** Keys that are not strings

    The dictionaries of the model are keyed by strings.  A dictionary whose
    keys come from data ([categories[source]] in [_categorize_sources]) can
    receive any hashable value as a key.  Such a key is stored under
    [key_text]: a [str] under itself; [None] and the numbers under a text that
    starts with a code point above U+10FFFF, which no [str] contains.  Numbers
    that are equal ([True], [1] and [1.0]) are one key, as in Python: the text
    of a number is its value in lowest terms.  A list or a dictionary is not
    hashable and has no key. *)
Definition number_key (q : Q) : pystr :=
  1114113%N :: str_int (Qnum (Qred q)) ++ py "/" ++ str_int (Zpos (Qden (Qred q))).

Definition key_text (v : pyval) : option pystr :=
  match v with
  | PyStr s => Some s
  | PyNone => Some [1114112%N]
  | PyBool b => Some (number_key (if b then 1 else 0))
  | PyInt z => Some (number_key (inject_Z z))
  | PyFloat q => Some (number_key q)
  | PyList _ | PyDict _ => None
  end.

(** ** The interpreter

    [str.split()] and the regular expression classes [\d] and [\s] consult the
    interpreter's Unicode tables ([Py_UNICODE_ISSPACE], [Py_UNICODE_ISDECIMAL]);
    [format(v, spec)] of a float or of a container is the interpreter's too.
    They are parameters of the development. *)

Class Runtime : Type := {
  isdecimal : N -> bool;
  isspace : N -> bool;
  format_other : pystr -> pyval -> pystr
}.

(** The tables restricted to ASCII, on which every Unicode version agrees:
    digits [0-9]; white space TAB, LF, VT, FF, CR, FS, GS, RS, US and SPACE.
    The examples run on it format no float and no container, and its
    [format_other] is a placeholder they never reach. *)
Definition ascii_runtime : Runtime := {|
  isdecimal c := ((48 <=? c) && (c <=? 57))%N;
  isspace c := (((9 <=? c) && (c <=? 13)) || ((28 <=? c) && (c <=? 32)))%N;
  format_other _ _ := []
|}.

Section Text.
Context {R : Runtime}.

(** Longest prefix of [s] whose characters satisfy [p], and the rest. *)
Fixpoint span (p : N -> bool) (s : pystr) : pystr * pystr :=
  match s with
  | [] => ([], [])
  | c :: r => if p c then let (a, b) := span p r in (c :: a, b) else ([], s)
  end.

(** [s.split()] : maximal runs of characters that are not white space. *)
Fixpoint split_from (cur : pystr) (s : pystr) : list pystr :=
  match s with
  | [] => match cur with [] => [] | _ => [rev cur] end
  | c :: r =>
      if isspace c
      then match cur with [] => split_from [] r | _ => rev cur :: split_from [] r end
      else split_from (c :: cur) r
  end.

Definition str_split (s : pystr) : list pystr := split_from [] s.

(** A pattern tried at the head of the text: the matched text and what follows. *)
Definition matcher := pystr -> option (pystr * pystr).

(** [\d+(?:\.\d+)?%?] anchored at the head of [s].  Every part after [\d+] is
    optional and greedy, so the first attempt of the engine is the match. *)
Definition match_number : matcher := fun s =>
  match span isdecimal s with
  | ([], _) => None
  | (ds, r1) =>
      let '(frac, r2) :=
        match r1 with
        | c :: r' =>
            if (c =? 46)%N
            then match span isdecimal r' with
                 | ([], _) => ([], r1)
                 | (fs, r'') => (c :: fs, r'')
                 end
            else ([], r1)
        | [] => ([], r1)
        end in
      let '(pct, r3) :=
        match r2 with
        | c :: r' => if (c =? 37)%N then ([c], r') else ([], r2)
        | [] => ([], r2)
        end in
      Some (ds ++ frac ++ pct, r3)
  end.

(** [[\d,\.]+] anchored at the head of [s]. *)
Definition in_money_class (c : N) : bool :=
  isdecimal c || (c =? 44)%N || (c =? 46)%N.

Definition match_money_digits : matcher := fun s =>
  match span in_money_class s with
  | ([], _) => None
  | (m, r) => Some (m, r)
  end.

(** [\s*[\d,\.]+] : the greedy star takes a white-space character first and
    gives it back when the rest then fails. *)
Fixpoint match_money_tail (s : pystr) : option (pystr * pystr) :=
  match s with
  | c :: r =>
      if isspace c
      then match match_money_tail r with
           | Some (m, rest) => Some (c :: m, rest)
           | None => match_money_digits s
           end
      else match_money_digits s
  | [] => None
  end.

(** [R\$\s*[\d,\.]+] anchored at the head of [s]. *)
Definition match_money : matcher := fun s =>
  match s with
  | 82%N :: 36%N :: r =>
      match match_money_tail r with
      | Some (m, rest) => Some (82%N :: 36%N :: m, rest)
      | None => None
      end
  | _ => None
  end.

(** [re.findall(pattern, s)] for a pattern that never matches the empty
    string: scan left to right, and after a match resume behind it.  [skip]
    counts the characters still covered by the last match. *)
Fixpoint findall_from (m : matcher) (skip : nat) (s : pystr) : list pystr :=
  match s with
  | [] => []
  | _ :: r =>
      match skip with
      | S k => findall_from m k r
      | O =>
          match m s with
          | Some (found, _) => found :: findall_from m (length found - 1) r
          | None => findall_from m 0 r
          end
      end
  end.

Definition findall (m : matcher) (s : pystr) : list pystr := findall_from m 0 s.

(** [content.split()] : only strings have [split]. *)
Definition py_split (v : pyval) : outcome (list pystr) :=
  match v with
  | PyStr s => Returned (str_split s)
  | _ => Raised (AttributeError "object has no attribute 'split'")
  end.

(** [re.findall(pattern, v)] with a [str] pattern. *)
Definition re_findall (m : matcher) (v : pyval) : outcome (list pystr) :=
  match v with
  | PyStr s => Returned (findall m s)
  | _ => Raised (TypeError "expected string or bytes-like object")
  end.

End Text.

Example split_ex :
  @str_split ascii_runtime (py "  mercado  cresce 12.5% ") = [py "mercado"; py "cresce"; py "12.5%"].
Proof. reflexivity. Qed.

Example findall_numbers_ex :
  findall (@match_number ascii_runtime) (py "em 2024: 12.5% de 300. R$ 1.200,50")
  = [py "2024"; py "12.5%"; py "300"; py "1.200"; py "50"].
Proof. reflexivity. Qed.

Example findall_money_ex :
  findall (@match_money ascii_runtime) (py "custa R$ 1.200,50 ou R$99 (R$ x)")
  = [py "R$ 1.200,50"; py "R$99"].
Proof. reflexivity. Qed.

(** ** The collector's state and the monad of its methods *)

(** [self.collection_stats], the dictionary created by [__init__].
    [quality_scores] holds floats with integer values. *)
Record collection_stats : Type := mkStats {
  web_sources : Z;
  social_sources : Z;
  youtube_sources : Z;
  total_content_chars : Z;
  extraction_time : Z;
  sources_by_provider : list (pystr * Z);
  quality_scores : list Z
}.

Definition M (A : Type) : Type := collection_stats -> outcome A * collection_stats.

Definition ret {A} (a : A) : M A := fun st => (Returned a, st).

Definition bind {A B} (m : M A) (k : A -> M B) : M B :=
  fun st =>
    match m st with
    | (Returned a, st') => k a st'
    | (Raised e, st') => (Raised e, st')
    end.

Definition raise {A} (e : exn) : M A := fun st => (Raised e, st).

(** A pure computation that can raise. *)
Definition lift {A} (o : outcome A) : M A := fun st => (o, st).

(** A call to a collaborator that returns nothing. *)
Definition call (o : option exn) : M unit :=
  match o with
  | None => ret tt
  | Some e => raise e
  end.

(** [try: m except Exception as e: h e] *)
Definition try_except {A} (m : M A) (h : exn -> M A) : M A :=
  fun st =>
    match m st with
    | (Returned a, st') => (Returned a, st')
    | (Raised e, st') => h e st'
    end.

Definition get_stats : M collection_stats := fun st => (Returned st, st).
Definition modify (f : collection_stats -> collection_stats) : M unit :=
  fun st => (Returned tt, f st).

Declare Scope monad_scope.
Delimit Scope monad_scope with monad.
Notation "x <- m ;; k" := (bind m (fun x => k))
  (at level 61, m at next level, right associativity) : monad_scope.
Notation "m ;;; k" := (bind m (fun _ => k))
  (at level 61, right associativity) : monad_scope.
Open Scope monad_scope.

(** [[f(x) for x in l]] and [for x in l: acc = body(acc, x)] *)
Fixpoint mapM {A B} (f : A -> M B) (l : list A) : M (list B) :=
  match l with
  | [] => ret []
  | x :: r => y <- f x ;; ys <- mapM f r ;; ret (y :: ys)
  end.

Fixpoint foldM {A B} (body : B -> A -> M B) (acc : B) (l : list A) : M B :=
  match l with
  | [] => ret acc
  | x :: r => acc' <- body acc x ;; foldM body acc' r
  end.

(** [enumerate(l)] *)
Fixpoint enumerate_from {A} (i : nat) (l : list A) : list (nat * A) :=
  match l with
  | [] => []
  | x :: r => (i, x) :: enumerate_from (S i) r
  end.

(** Field updates of [self.collection_stats]. *)
Definition set_web_sources (n : Z) (st : collection_stats) : collection_stats :=
  mkStats n (social_sources st) (youtube_sources st) (total_content_chars st)
          (extraction_time st) (sources_by_provider st) (quality_scores st).

Definition add_social_sources (n : Z) (st : collection_stats) : collection_stats :=
  mkStats (web_sources st) (social_sources st + n) (youtube_sources st)
          (total_content_chars st) (extraction_time st) (sources_by_provider st)
          (quality_scores st).

Definition add_youtube_sources (n : Z) (st : collection_stats) : collection_stats :=
  mkStats (web_sources st) (social_sources st) (youtube_sources st + n)
          (total_content_chars st) (extraction_time st) (sources_by_provider st)
          (quality_scores st).

Definition add_total_content_chars (n : Z) (st : collection_stats) : collection_stats :=
  mkStats (web_sources st) (social_sources st) (youtube_sources st)
          (total_content_chars st + n) (extraction_time st) (sources_by_provider st)
          (quality_scores st).

Fixpoint assoc_set (d : list (pystr * Z)) (k : pystr) (v : Z) : list (pystr * Z) :=
  match d with
  | [] => [(k, v)]
  | (k', v') :: d' =>
      if pystr_eqb k' k then (k', v) :: d' else (k', v') :: assoc_set d' k v
  end.

Definition set_source_by_provider (k : pystr) (n : Z) (st : collection_stats)
  : collection_stats :=
  mkStats (web_sources st) (social_sources st) (youtube_sources st)
          (total_content_chars st) (extraction_time st)
          (assoc_set (sources_by_provider st) k n) (quality_scores st).

Definition append_quality_score (q : Z) (st : collection_stats) : collection_stats :=
  mkStats (web_sources st) (social_sources st) (youtube_sources st)
          (total_content_chars st) (extraction_time st) (sources_by_provider st)
          (quality_scores st ++ [q]).

(** ** Collaborators

    Each field is the behaviour of one external call during one run of the
    pipeline: the value returned or the exception raised.

    [late_*] tell whether the wait on a pool task ([future.result(timeout=..)])
    expires.  A task blocks only inside its call to a collaborator, so the
    tasks that call none (DuckDuckGo, TikTok, Facebook) are never late.  The
    pool is left ([with ThreadPoolExecutor]) only when every task has ended:
    what a late task writes to [collection_stats] is in place by then, and the
    model applies it at the wait. *)
Record World : Type := {
  salvar_etapa : pystr -> option exn;
  salvar_erro : pystr -> exn -> pyval -> option exn;
  exa_is_available : outcome pyval;
  exa_search : pystr -> outcome pyval;
  search_google : pystr -> Z -> outcome pyval;
  search_serper : pystr -> Z -> outcome pyval;
  search_bing : pystr -> Z -> outcome pyval;
  supadata_search : pystr -> pystr -> Z -> outcome pyval;
  navigate_and_research_deep : pystr -> pyval -> Z -> Z -> pystr -> outcome pyval;
  extract_content : pyval -> outcome pyval;
  late_web : pystr -> bool;
  late_social : pystr -> bool;
  late_extraction : nat -> bool;
  os_makedirs : pystr -> option exn;
  json_dump_to : pystr -> pyval -> option exn;
  os_getsize : pystr -> outcome Z;
  now_isoformat : pystr;
  now_strftime : pystr;
  elapsed_seconds : Q
}.

(** [future.result(timeout=..)] on a submitted task. *)
Definition future_result {A} (timed_out : bool) (task : M A) : M A :=
  fun st =>
    let (r, st') := task st in
    if timed_out then (Raised TimeoutError, st') else (r, st').

(** ** The methods of [MassiveDataCollector] *)

Section Collector.
Context {R : Runtime}.
Variable W : World.

(** [__init__] *)
Definition __init__ : collection_stats :=
  mkStats 0 0 0 0 0 [] [].

(** One entry of the list comprehension in [_search_exa_massive]. *)
Definition exa_hit (item : pyval) : M pyval :=
  title <- lift (py_get item (py "title") (PyStr [])) ;;
  url <- lift (py_get item (py "url") (PyStr [])) ;;
  text <- lift (py_get item (py "text") (PyStr [])) ;;
  snippet <- lift (py_slice_to text 300) ;;
  score <- lift (py_get item (py "score") (PyInt 0)) ;;
  published_date <- lift (py_get item (py "publishedDate") (PyStr [])) ;;
  exa_id <- lift (py_get item (py "id") (PyStr [])) ;;
  ret (PyDict [(py "title", title); (py "url", url); (py "snippet", snippet);
               (py "source", PyStr (py "exa")); (py "score", score);
               (py "published_date", published_date); (py "exa_id", exa_id)]).

Definition _search_exa_massive (query : pystr) : M pyval :=
  try_except
    (let enhanced_query :=
       query ++ py " Brasil 2024 mercado tend" ++ [234%N] ++ py "ncias oportunidades" in
     exa_response <- lift (exa_search W enhanced_query) ;;
     has_results <- (if truthy exa_response
                     then lift (py_contains exa_response (py "results"))
                     else ret false) ;;
     if has_results
     then results <- lift (py_getitem exa_response (py "results")) ;;
          items <- lift (py_iter results) ;;
          hits <- mapM exa_hit items ;;
          ret (PyList hits)
     else ret (PyList []))
    (fun _ => ret (PyList [])).

Definition _search_google_massive (query : pystr) : M pyval :=
  try_except (lift (search_google W (query ++ py " Brasil 2024") 30))
             (fun _ => ret (PyList [])).

Definition _search_serper_massive (query : pystr) : M pyval :=
  try_except (lift (search_serper W (query ++ py " Brasil 2024") 30))
             (fun _ => ret (PyList [])).

Definition _search_bing_massive (query : pystr) : M pyval :=
  try_except (lift (search_bing W (query ++ py " Brasil 2024") 30))
             (fun _ => ret (PyList [])).

Definition _search_duckduckgo_massive (query : pystr) : M pyval :=
  try_except (ret (PyList [])) (fun _ => ret (PyList [])).

(** [_simulate_platform_data] *)
Definition _simulate_platform_data (platform query : pystr) : M pyval :=
  ret (PyDict
    [(py "success", PyBool true);
     (py "platform", PyStr platform);
     (py "results", PyList
        [PyDict
           [(py "title", PyStr (py "Conte" ++ [250%N] ++ py "do " ++ platform
                                 ++ py " sobre " ++ query));
            (py "url", PyStr (py "https://" ++ platform ++ py ".com/example"));
            (py "text", PyStr (py "Conte" ++ [250%N] ++ py "do simulado sobre " ++ query
                                ++ py " na plataforma " ++ platform));
            (py "platform", PyStr platform);
            (py "simulated", PyBool true)]]);
     (py "total_found", PyInt 1);
     (py "query", PyStr query)]).

(** [_search_social_platform_massive] *)
Definition _search_social_platform_massive (platform query : pystr) : M pyval :=
  try_except
    (if pystr_eqb platform (py "youtube")
     then lift (supadata_search W (py "youtube") query 25)
     else if pystr_eqb platform (py "twitter")
     then lift (supadata_search W (py "twitter") query 25)
     else if pystr_eqb platform (py "linkedin")
     then lift (supadata_search W (py "linkedin") query 20)
     else if pystr_eqb platform (py "instagram")
     then lift (supadata_search W (py "instagram") query 20)
     else _simulate_platform_data platform query)
    (fun _ => ret (PyDict [])).

(** [_calculate_content_quality].  The score is the float [0.0] plus integer
    increments, returned as [min(score, 100.0)]. *)
Definition _calculate_content_quality (content url_data : pyval) : M Z :=
  let score := 0 in
  n <- lift (py_len content) ;;
  let score := score + (if 2000 <=? n then 25 else if 1000 <=? n then 15 else 5) in
  words <- lift (py_split content) ;;
  let nwords := Z.of_nat (length words) in
  let score := score + (if 300 <=? nwords then 25 else if 150 <=? nwords then 15 else 5) in
  numbers <- lift (re_findall match_number content) ;;
  money_values <- lift (re_findall match_money content) ;;
  let score := score + Z.min (Z.of_nat (length numbers) * 2) 20 in
  let score := score + Z.min (Z.of_nat (length money_values) * 3) 15 in
  source <- lift (py_get url_data (py "source") (PyStr [])) ;;
  let score :=
    score + (if eq_str source (py "exa") then 10
             else if eq_str source (py "websailor") then 8
             else if eq_str source (py "google") || eq_str source (py "serper") then 6
             else 0) in
  ret (Z.min score 100).

(** [_extract_single_content] *)
Definition _extract_single_content (url_data : pyval) (index : nat) : M pyval :=
  try_except
    (url <- lift (py_getitem url_data (py "url")) ;;
     content <- lift (extract_content W url) ;;
     long_enough <- (if truthy content
                     then n <- lift (py_len content) ;; ret (200 <? n)
                     else ret false) ;;
     if long_enough
     then quality_score <- _calculate_content_quality content url_data ;;
          modify (append_quality_score quality_score) ;;;
          title <- lift (py_get url_data (py "title") (PyStr [])) ;;
          source <- lift (py_get url_data (py "source") (PyStr (py "unknown"))) ;;
          snippet <- lift (py_get url_data (py "snippet") (PyStr [])) ;;
          content_length <- lift (py_len content) ;;
          words <- lift (py_split content) ;;
          ret (PyDict
            [(py "success", PyBool true);
             (py "url", url);
             (py "title", title);
             (py "source", source);
             (py "snippet", snippet);
             (py "content", content);
             (py "content_length", PyInt content_length);
             (py "word_count", PyInt (Z.of_nat (length words)));
             (py "quality_score", PyFloat (inject_Z quality_score));
             (py "extraction_index", PyInt (Z.of_nat index));
             (py "extracted_at", PyStr (now_isoformat W))])
     else ret PyNone)
    (fun _ => ret PyNone).

(** [_categorize_sources] : the key is the source tag, whatever hashable
    value it is ([key_text]); a tag that is a list or a dictionary raises
    [TypeError: unhashable type]. *)
Definition _categorize_sources (extracted_content : list pyval) : M pyval :=
  categories <-
    foldM (fun (categories : pydict) (content : pyval) =>
             source <- lift (py_get content (py "source") (PyStr (py "unknown"))) ;;
             match key_text source with
             | Some key =>
                 let old := match dict_lookup categories key with
                            | Some v => v
                            | None => PyInt 0
                            end in
                 count <- lift (py_add old (PyInt 1)) ;;
                 ret (dict_set categories key count)
             | None => raise (TypeError "unhashable type")
             end)
          [] extracted_content ;;
  ret (PyDict categories).

(** [d.values()] *)
Definition py_values (v : pyval) : M (list pyval) :=
  match v with
  | PyDict d => ret (dict_values d)
  | _ => raise (AttributeError "object has no attribute 'values'")
  end.

(** [_collect_massive_web_data].  The loop state is the local dictionary
    [web_results] and its entry [total_web_sources]. *)
Definition web_futures (query : pystr) (exa_available : bool)
  : list (pystr * (bool * M pyval)) :=
  (if exa_available
   then [(py "exa", (late_web W (py "exa"), _search_exa_massive query))]
   else []) ++
  [(py "google", (late_web W (py "google"), _search_google_massive query));
   (py "serper", (late_web W (py "serper"), _search_serper_massive query));
   (py "bing", (late_web W (py "bing"), _search_bing_massive query));
   (py "duckduckgo", (false, _search_duckduckgo_massive query))].

Definition _collect_massive_web_data (query : pystr) (context : pyval)
  (session_id : pystr) : M pyval :=
  let web_results : pydict :=
    [(py "exa_results", PyList []);
     (py "google_results", PyList []);
     (py "serper_results", PyList []);
     (py "bing_results", PyList []);
     (py "duckduckgo_results", PyList []);
     (py "total_web_sources", PyInt 0)] in
  available <- lift (exa_is_available W) ;;
  r <- foldM
    (fun (acc : pydict * Z) (pf : pystr * (bool * M pyval)) =>
       let '(web_results, total) := acc in
       let '(provider, (late, task)) := pf in
       try_except
         (results <- future_result late task ;;
          n <- lift (py_len results) ;;
          modify (set_source_by_provider provider n) ;;;
          ret (dict_set (dict_set web_results (provider ++ py "_results") results)
                        (py "total_web_sources") (PyInt (total + n)),
               total + n))
         (fun _ =>
            modify (set_source_by_provider provider 0) ;;;
            ret (dict_set web_results (provider ++ py "_results") (PyList []), total)))
    (web_results, 0) (web_futures query (truthy available)) ;;
  let '(web_results, total) := r in
  modify (set_web_sources total) ;;;
  call (salvar_etapa W (py "web_data_massive")) ;;;
  ret (PyDict web_results).

(** [_collect_massive_social_data] *)
Definition platforms : list pystr :=
  [py "youtube"; py "twitter"; py "linkedin"; py "instagram"; py "tiktok"; py "facebook"].

Definition calls_adapter (platform : pystr) : bool :=
  pystr_eqb platform (py "youtube") || pystr_eqb platform (py "twitter") ||
  pystr_eqb platform (py "linkedin") || pystr_eqb platform (py "instagram").

(** The body of the collecting loop: [social_results] and its entry
    [total_social_sources] before and after one platform. *)
Definition collect_platform (query : pystr) (acc : pydict * Z) (platform : pystr)
  : M (pydict * Z) :=
  let '(social_results, total) := acc in
  let late := calls_adapter platform && late_social W platform in
  try_except
    (results <- future_result late (_search_social_platform_massive platform query) ;;
     let social_results := dict_set social_results (platform ++ py "_data") results in
     found <- lift (py_get results (py "results") PyNone) ;;
     if truthy found
     then items <- lift (py_getitem results (py "results")) ;;
          count <- lift (py_len items) ;;
          (if pystr_eqb platform (py "youtube")
           then modify (add_youtube_sources count)
           else modify (add_social_sources count)) ;;;
          ret (dict_set social_results (py "total_social_sources")
                        (PyInt (total + count)),
               total + count)
     else ret (social_results, total))
    (fun _ => ret (dict_set social_results (platform ++ py "_data") (PyDict []), total)).

Definition empty_social_results : pydict :=
  [(py "youtube_data", PyDict []);
   (py "twitter_data", PyDict []);
   (py "linkedin_data", PyDict []);
   (py "instagram_data", PyDict []);
   (py "tiktok_data", PyDict []);
   (py "facebook_data", PyDict []);
   (py "total_social_sources", PyInt 0)].

Definition _collect_massive_social_data (query : pystr) (context : pyval)
  (session_id : pystr) : M pyval :=
  let social_results := empty_social_results in
  r <- foldM (collect_platform query) (social_results, 0) platforms ;;
  let '(social_results, _) := r in
  call (salvar_etapa W (py "social_data_massive")) ;;;
  ret (PyDict social_results).

(** [_collect_websailor_deep_data] *)
Definition _collect_websailor_deep_data (query : pystr) (context : pyval)
  (session_id : pystr) : M pyval :=
  try_except
    (websailor_results <- lift (navigate_and_research_deep W query context 50 3 session_id) ;;
     call (salvar_etapa W (py "websailor_data_massive")) ;;;
     ret websailor_results)
    (fun _ => ret (PyDict [])).

(** The three harvesting loops of [_extract_massive_content]: the entries
    appended to [all_urls]. *)
Definition harvest_web (web_data : pyval) : M (list pyval) :=
  values <- py_values web_data ;;
  foldM (fun (all_urls : list pyval) (provider_results : pyval) =>
           match provider_results with
           | PyList l =>
               foldM (fun (all_urls : list pyval) (result : pyval) =>
                        u <- lift (py_get result (py "url") PyNone) ;;
                        if truthy u
                        then url <- lift (py_getitem result (py "url")) ;;
                             title <- lift (py_get result (py "title") (PyStr [])) ;;
                             source <- lift (py_get result (py "source") (PyStr (py "web"))) ;;
                             snippet <- lift (py_get result (py "snippet") (PyStr [])) ;;
                             ret (all_urls ++
                                  [PyDict [(py "url", url); (py "title", title);
                                           (py "source", source); (py "snippet", snippet)]])
                        else ret all_urls)
                     all_urls l
           | _ => ret all_urls
           end)
        [] values.

Definition harvest_social (social_data : pyval) (all_urls : list pyval) : M (list pyval) :=
  values <- py_values social_data ;;
  foldM (fun (all_urls : list pyval) (platform_data : pyval) =>
           match platform_data with
           | PyDict _ =>
               found <- lift (py_get platform_data (py "results") PyNone) ;;
               if truthy found
               then items <- lift (py_getitem platform_data (py "results")) ;;
                    results <- lift (py_iter items) ;;
                    foldM (fun (all_urls : list pyval) (result : pyval) =>
                             u <- lift (py_get result (py "url") PyNone) ;;
                             if truthy u
                             then url <- lift (py_getitem result (py "url")) ;;
                                  title <- lift (py_get result (py "title") (PyStr [])) ;;
                                  source <- lift (py_get result (py "platform")
                                                         (PyStr (py "social"))) ;;
                                  caption <- lift (py_get result (py "caption") (PyStr [])) ;;
                                  text <- lift (py_get result (py "text") caption) ;;
                                  snippet <- lift (py_slice_to text 200) ;;
                                  ret (all_urls ++
                                       [PyDict [(py "url", url); (py "title", title);
                                                (py "source", source);
                                                (py "snippet", snippet)]])
                             else ret all_urls)
                          all_urls results
               else ret all_urls
           | _ => ret all_urls
           end)
        all_urls values.

Definition harvest_websailor (websailor_data : pyval) (all_urls : list pyval)
  : M (list pyval) :=
  consolidado <- lift (py_get websailor_data (py "conteudo_consolidado") (PyDict [])) ;;
  fontes <- lift (py_get consolidado (py "fontes_detalhadas") PyNone) ;;
  if truthy fontes
  then consolidado <- lift (py_getitem websailor_data (py "conteudo_consolidado")) ;;
       fontes <- lift (py_getitem consolidado (py "fontes_detalhadas")) ;;
       items <- lift (py_iter fontes) ;;
       foldM (fun (all_urls : list pyval) (fonte : pyval) =>
                url <- lift (py_getitem fonte (py "url")) ;;
                title <- lift (py_getitem fonte (py "title")) ;;
                ret (all_urls ++
                     [PyDict [(py "url", url); (py "title", title);
                              (py "source", PyStr (py "websailor"));
                              (py "snippet", PyStr [])]]))
             all_urls items
  else ret all_urls.

(** The two quotients of the statistics (lines 340 and 344). *)
Definition extraction_success_rate (all_urls extracted_content : list pyval)
  : outcome pyval :=
  match all_urls with
  | [] => Returned (PyInt 0)
  | _ =>
      match py_truediv (Z.of_nat (length extracted_content))
                       (Z.of_nat (length all_urls)) with
      | Returned q => Returned (PyFloat (py_float_mul q 100))
      | Raised e => Raised e
      end
  end.

Definition avg_content_length (total_chars : Z) (extracted_content : list pyval)
  : outcome pyval :=
  match extracted_content with
  | [] => Returned (PyInt 0)
  | _ =>
      match py_truediv total_chars (Z.of_nat (length extracted_content)) with
      | Returned q => Returned (PyFloat q)
      | Raised e => Raised e
      end
  end.

(** [_extract_massive_content].  In the collecting loop the document is
    appended before the statements that can still raise ([len], the
    auto-save), and the handler only continues: the document stays in the
    list when they raise. *)
Definition _extract_massive_content (web_data social_data websailor_data : pyval)
  (session_id : pystr) : M pyval :=
  all_urls <- harvest_web web_data ;;
  all_urls <- harvest_social social_data all_urls ;;
  all_urls <- harvest_websailor websailor_data all_urls ;;
  extracted_content <-
    foldM (fun (extracted_content : list pyval) (task : nat * pyval) =>
             let '(i, url_data) := task in
             kept <- try_except
                       (content_data <- future_result (late_extraction W i)
                                          (_extract_single_content url_data i) ;;
                        if truthy content_data
                        then success <- lift (py_get content_data (py "success") PyNone) ;;
                             ret (if truthy success then Some content_data else None)
                        else ret None)
                       (fun _ => ret None) ;;
             match kept with
             | Some content_data =>
                 try_except
                   (content <- lift (py_get content_data (py "content") (PyStr [])) ;;
                    n <- lift (py_len content) ;;
                    modify (add_total_content_chars n) ;;;
                    call (salvar_etapa W (py "extracao_" ++ str_int (Z.of_nat i))))
                   (fun _ => ret tt) ;;;
                 ret (extracted_content ++ [content_data])
             | None => ret extracted_content
             end)
          [] (enumerate_from 0 (firstn 100 all_urls)) ;;
  rate <- lift (extraction_success_rate all_urls extracted_content) ;;
  st <- get_stats ;;
  avg <- lift (avg_content_length (total_content_chars st) extracted_content) ;;
  sources_by_type <- _categorize_sources extracted_content ;;
  let extraction_result :=
    PyDict
      [(py "total_urls_found", PyInt (Z.of_nat (length all_urls)));
       (py "total_content_extracted", PyInt (Z.of_nat (length extracted_content)));
       (py "extraction_success_rate", rate);
       (py "extracted_content", PyList extracted_content);
       (py "extraction_stats",
        PyDict [(py "total_chars", PyInt (total_content_chars st));
                (py "avg_content_length", avg);
                (py "sources_by_type", sources_by_type)])] in
  call (salvar_etapa W (py "extracao_massiva_completa")) ;;;
  ret extraction_result.

(** [f"{v}"] and [f"{v:spec}"].  [int], [str], [bool] and [None] are formatted
    here (the only spec used on an [int] is the thousands separator [,]);
    the rest is the interpreter's. *)
Fixpoint group3 (rev_digits : pystr) : pystr :=
  match rev_digits with
  | a :: b :: c :: ((_ :: _) as r) => a :: b :: c :: 44%N :: group3 r
  | _ => rev_digits
  end.

Definition str_int_commas (z : Z) : pystr :=
  (if z <? 0 then [45%N] else []) ++ rev (group3 (rev (str_int (Z.abs z)))).

Definition format_value (spec : pystr) (v : pyval) : pystr :=
  match v with
  | PyInt z => if pystr_eqb spec (py ",") then str_int_commas z else str_int z
  | PyStr s => s
  | PyBool b => if b then py "True" else py "False"
  | PyNone => py "None"
  | _ => format_other spec v
  end.

(** [sum(l) / len(l) if l else 0] on the list of quality scores. *)
Definition mean_quality (scores : list Z) : pyval :=
  match scores with
  | [] => PyInt 0
  | _ => PyFloat (round_binary64 (fold_right Z.add 0 scores # Pos.of_nat (length scores)))
  end.

(** [max(d.items(), key=lambda x: x[1])] : the first entry with the largest
    count. *)
Fixpoint best_entry (best : pystr * Z) (d : list (pystr * Z)) : pystr * Z :=
  match d with
  | [] => best
  | kv :: d' => best_entry (if snd best <? snd kv then kv else best) d'
  end.

(** [_generate_automatic_insights] *)
Definition _generate_automatic_insights
  (web_data social_data websailor_data extracted_content : pyval) : M pyval :=
  web_total <- lift (py_get web_data (py "total_web_sources") (PyInt 0)) ;;
  social_total <- lift (py_get social_data (py "total_social_sources") (PyInt 0)) ;;
  total_sources <- lift (py_add web_total social_total) ;;
  st <- get_stats ;;
  let insights :=
    [PyStr (py "Coletados dados de " ++ format_value [] total_sources
            ++ py " fontes " ++ [250%N] ++ py "nicas")] in
  let insights :=
    match quality_scores st with
    | [] => insights
    | _ => insights ++
           [PyStr (py "Qualidade m" ++ [233%N] ++ py "dia do conte" ++ [250%N] ++ py "do: "
                   ++ format_value (py ".1f") (mean_quality (quality_scores st))
                   ++ py "/100")]
    end in
  let total_chars := total_content_chars st in
  let insights :=
    if 0 <? total_chars
    then insights ++
         [PyStr (py "Total de " ++ format_value (py ",") (PyInt total_chars)
                 ++ py " caracteres de conte" ++ [250%N] ++ py "do extra" ++ [237%N] ++ py "do");
          PyStr (py "Equivalente a aproximadamente "
                 ++ format_value [] (PyInt (total_chars / 2000))
                 ++ py " p" ++ [225%N] ++ py "ginas A4")]
    else insights in
  let insights :=
    match sources_by_provider st with
    | [] => insights
    | first :: others =>
        let best_provider := best_entry first others in
        insights ++
        [PyStr (py "Melhor provedor: " ++ fst best_provider ++ py " com "
                ++ format_value [] (PyInt (snd best_provider)) ++ py " resultados")]
    end in
  ret (PyList insights).

(** [sum(f(item) for item in l)] over numbers. *)
Definition sum_numbers (f : pyval -> outcome pyval) (l : list pyval) : M Q :=
  foldM (fun (acc : Q) (item : pyval) =>
           v <- lift (f item) ;;
           match as_number v with
           | Some q => ret (acc + q)%Q
           | None => raise (TypeError "unsupported operand type(s) for +")
           end)
        0%Q l.

(** [_assess_data_quality_for_analysis] *)
Definition _assess_data_quality_for_analysis (extracted_content : pyval) : M bool :=
  content_list <- lift (py_get extracted_content (py "extracted_content") (PyList [])) ;;
  n <- lift (py_len content_list) ;;
  if n <? 10 then ret false
  else
    items <- lift (py_iter content_list) ;;
    total_chars <- sum_numbers
                     (fun item =>
                        match py_get item (py "content") (PyStr []) with
                        | Returned c => match py_len c with
                                        | Returned k => Returned (PyInt k)
                                        | Raised e => Raised e
                                        end
                        | Raised e => Raised e
                        end) items ;;
    if Qle_bool 30000 total_chars
    then total_quality <- sum_numbers
                            (fun item => py_get item (py "quality_score") (PyInt 0)) items ;;
         ret (Qle_bool 60 (round_binary64 (total_quality / inject_Z n)))
    else ret false.

(** The readiness map stamped by [_consolidate_massive_json]. *)
Definition preparacao_para_analises (qualidade_suficiente : bool) : pyval :=
  PyDict
    [(py "dados_prontos_para_avatar", PyBool true);
     (py "dados_prontos_para_drivers", PyBool true);
     (py "dados_prontos_para_provas_visuais", PyBool true);
     (py "dados_prontos_para_anti_objecao", PyBool true);
     (py "dados_prontos_para_pre_pitch", PyBool true);
     (py "dados_prontos_para_predicoes", PyBool true);
     (py "dados_prontos_para_concorrencia", PyBool true);
     (py "dados_prontos_para_posicionamento", PyBool true);
     (py "qualidade_suficiente_para_analises", PyBool qualidade_suficiente)].

(** [_consolidate_massive_json] *)
Definition _consolidate_massive_json
  (web_data social_data websailor_data extracted_content : pyval)
  (query : pystr) (context : pyval) (session_id : pystr) : M pyval :=
  let metadata :=
    PyDict
      [(py "session_id", PyStr session_id);
       (py "query_original", PyStr query);
       (py "context_original", context);
       (py "timestamp_coleta", PyStr (now_isoformat W));
       (py "versao_sistema", PyStr (py "ARQV30 Enhanced v3.0"));
       (py "tipo_coleta", PyStr (py "MASSIVA_COMPLETA"));
       (py "garantia_dados_reais", PyBool true);
       (py "zero_simulacao", PyBool true)] in
  st <- get_stats ;;
  taxa <- lift (py_get extracted_content (py "extraction_success_rate") (PyInt 0)) ;;
  let estatisticas :=
    PyDict
      [(py "total_fontes_web", PyInt (web_sources st));
       (py "total_fontes_sociais", PyInt (social_sources st));
       (py "total_fontes_youtube", PyInt (youtube_sources st));
       (py "total_caracteres_extraidos", PyInt (total_content_chars st));
       (py "tempo_coleta_segundos", PyInt (extraction_time st));
       (py "fontes_por_provedor",
        PyDict (map (fun kv => (fst kv, PyInt (snd kv))) (sources_by_provider st)));
       (py "taxa_sucesso_extracao", taxa);
       (py "qualidade_media_conteudo", mean_quality (quality_scores st))] in
  exa <- lift (py_get web_data (py "exa_results") (PyList [])) ;;
  google <- lift (py_get web_data (py "google_results") (PyList [])) ;;
  serper <- lift (py_get web_data (py "serper_results") (PyList [])) ;;
  bing <- lift (py_get web_data (py "bing_results") (PyList [])) ;;
  duckduckgo <- lift (py_get web_data (py "duckduckgo_results") (PyList [])) ;;
  total_web <- lift (py_get web_data (py "total_web_sources") (PyInt 0)) ;;
  youtube <- lift (py_get social_data (py "youtube_data") (PyDict [])) ;;
  twitter <- lift (py_get social_data (py "twitter_data") (PyDict [])) ;;
  linkedin <- lift (py_get social_data (py "linkedin_data") (PyDict [])) ;;
  instagram <- lift (py_get social_data (py "instagram_data") (PyDict [])) ;;
  tiktok <- lift (py_get social_data (py "tiktok_data") (PyDict [])) ;;
  facebook <- lift (py_get social_data (py "facebook_data") (PyDict [])) ;;
  total_social <- lift (py_get social_data (py "total_social_sources") (PyInt 0)) ;;
  navegacao <- lift (py_get websailor_data (py "navegacao_profunda") (PyDict [])) ;;
  consolidado <- lift (py_get websailor_data (py "conteudo_consolidado") (PyDict [])) ;;
  insights_principais <- lift (py_get consolidado (py "insights_principais") (PyList [])) ;;
  tendencias <- lift (py_get consolidado (py "tendencias_identificadas") (PyList [])) ;;
  oportunidades <- lift (py_get consolidado (py "oportunidades_descobertas") (PyList [])) ;;
  total_paginas <- lift (py_get extracted_content (py "total_content_extracted") (PyInt 0)) ;;
  conteudo_completo <- lift (py_get extracted_content (py "extracted_content") (PyList [])) ;;
  estatisticas_extracao <- lift (py_get extracted_content (py "extraction_stats") (PyDict [])) ;;
  taxa_sucesso <- lift (py_get extracted_content (py "extraction_success_rate") (PyInt 0)) ;;
  insights <- _generate_automatic_insights web_data social_data websailor_data
                                           extracted_content ;;
  qualidade_suficiente <- _assess_data_quality_for_analysis extracted_content ;;
  ret (PyDict
    [(py "metadata_coleta_massiva", metadata);
     (py "estatisticas_coleta", estatisticas);
     (py "dados_web_completos",
      PyDict [(py "busca_exa_neural", exa);
              (py "busca_google_custom", google);
              (py "busca_serper_api", serper);
              (py "busca_bing_scraping", bing);
              (py "busca_duckduckgo_scraping", duckduckgo);
              (py "total_resultados_web", total_web)]);
     (py "dados_sociais_completos",
      PyDict [(py "youtube_completo", youtube);
              (py "twitter_completo", twitter);
              (py "linkedin_completo", linkedin);
              (py "instagram_completo", instagram);
              (py "tiktok_completo", tiktok);
              (py "facebook_completo", facebook);
              (py "total_posts_sociais", total_social)]);
     (py "dados_websailor_profundos",
      PyDict [(py "navegacao_profunda", navegacao);
              (py "conteudo_consolidado", consolidado);
              (py "insights_principais", insights_principais);
              (py "tendencias_identificadas", tendencias);
              (py "oportunidades_descobertas", oportunidades)]);
     (py "conteudo_extraido_massivo",
      PyDict [(py "total_paginas_extraidas", total_paginas);
              (py "conteudo_completo", conteudo_completo);
              (py "estatisticas_extracao", estatisticas_extracao);
              (py "taxa_sucesso", taxa_sucesso)]);
     (py "insights_consolidados_automaticos", insights);
     (py "preparacao_para_analises", preparacao_para_analises qualidade_suficiente)]).

(** [_save_massive_json] *)
Definition _save_massive_json (massive_json : pyval) (session_id : pystr) : M pystr :=
  try_except
    (let json_dir := py "analyses_data/massive_data" in
     call (os_makedirs W json_dir) ;;;
     let timestamp := now_strftime W in
     let filename := py "massive_data_" ++ firstn 8 session_id ++ py "_" ++ timestamp
                       ++ py ".json" in
     let file_path := json_dir ++ py "/" ++ filename in
     call (json_dump_to W file_path massive_json) ;;;
     file_size <- lift (os_getsize W file_path) ;;
     ret file_path)
    (fun e => raise e).

(** [s.split(sep)[0]] for a one-character separator. *)
Fixpoint first_segment (sep : N) (s : pystr) : pystr :=
  match s with
  | [] => []
  | c :: r => if (c =? sep)%N then [] else c :: first_segment sep r
  end.

(** The dictionary returned by [_validate_massive_data]. *)
Record validation : Type := mkValidation {
  dados_suficientes_para_analise : bool;
  qualidade_aprovada : bool;
  modulos_viabilizados : list pystr;
  problemas_identificados : list pystr;
  recomendacoes : list pystr
}.

Definition modulos_possiveis : list pystr :=
  [py "avatar_ultra_detalhado";
   py "drivers_mentais_customizados";
   py "provas_visuais_arsenal";
   py "sistema_anti_objecao";
   py "pre_pitch_invisivel";
   py "predicoes_futuro";
   py "analise_concorrencia";
   py "posicionamento_estrategico"].

(** The key looked up for a module: [f'dados_prontos_para_{modulo.split("_")[0]}']. *)
Definition chave_do_modulo (modulo : pystr) : pystr :=
  py "dados_prontos_para_" ++ first_segment 95 modulo.

Definition volume_insuficiente (total_content : pyval) : pystr :=
  py "Volume insuficiente: " ++ format_value [] total_content ++ py " < 50000 caracteres".

Definition qualidade_baixa (avg_quality : pyval) : pystr :=
  py "Qualidade baixa: " ++ format_value [] avg_quality ++ py " < 60".

(** [_validate_massive_data] *)
Definition _validate_massive_data (massive_json : pyval) : M validation :=
  estatisticas <- lift (py_get massive_json (py "estatisticas_coleta") (PyDict [])) ;;
  total_content <- lift (py_get estatisticas (py "total_caracteres_extraidos") (PyInt 0)) ;;
  dados_suficientes <- lift (py_ge total_content 50000) ;;
  let problemas :=
    if dados_suficientes then [] else [volume_insuficiente total_content] in
  estatisticas <- lift (py_get massive_json (py "estatisticas_coleta") (PyDict [])) ;;
  avg_quality <- lift (py_get estatisticas (py "qualidade_media_conteudo") (PyInt 0)) ;;
  qualidade <- lift (py_ge avg_quality 60) ;;
  let problemas :=
    if qualidade then problemas else problemas ++ [qualidade_baixa avg_quality] in
  preparacao <- lift (py_get massive_json (py "preparacao_para_analises") (PyDict [])) ;;
  modulos <- foldM (fun (modulos : list pystr) (modulo : pystr) =>
                      pronto <- lift (py_get preparacao (chave_do_modulo modulo)
                                             (PyBool false)) ;;
                      ret (if truthy pronto then modulos ++ [modulo] else modulos))
                   [] modulos_possiveis ;;
  let recomendacoes :=
    (if dados_suficientes then []
     else [py "Execute nova coleta com mais APIs configuradas"]) ++
    (if qualidade then []
     else [py "Configure APIs premium para melhor qualidade"]) ++
    (if Z.of_nat (length modulos) <? 6
     then [py "Dados insuficientes para alguns m" ++ [243%N]
           ++ py "dulos - configure mais fontes"]
     else []) in
  ret (mkValidation dados_suficientes qualidade modulos problemas recomendacoes).

(** The dictionary returned by [collect_massive_data]. *)
Record collection_result : Type := mkResult {
  success : bool;
  result_session_id : pystr;
  result_query : pystr;
  result_context : pyval;
  massive_json_path : pystr;
  massive_data : pyval;
  result_collection_stats : collection_stats;
  collection_time : Q;
  collection_time_formatted : pystr;
  validation_results : validation;
  timestamp : pystr
}.

(** [if progress_callback: progress_callback(step, message)] : the message is
    fixed by the step. *)
Definition progress (progress_callback : option (Z -> option exn)) (step : Z) : M unit :=
  match progress_callback with
  | Some callback => call (callback step)
  | None => ret tt
  end.

(** [collect_massive_data] *)
Definition collect_massive_data (query : pystr) (context : pyval) (session_id : pystr)
  (progress_callback : option (Z -> option exn)) : M collection_result :=
  try_except
    (call (salvar_etapa W (py "coleta_massiva_iniciada")) ;;;
     progress progress_callback 1 ;;;
     progress progress_callback 2 ;;;
     web_data <- _collect_massive_web_data query context session_id ;;
     progress progress_callback 4 ;;;
     social_data <- _collect_massive_social_data query context session_id ;;
     progress progress_callback 6 ;;;
     websailor_data <- _collect_websailor_deep_data query context session_id ;;
     progress progress_callback 8 ;;;
     extracted_content <- _extract_massive_content web_data social_data websailor_data
                                                   session_id ;;
     progress progress_callback 10 ;;;
     massive_json <- _consolidate_massive_json web_data social_data websailor_data
                       extracted_content query context session_id ;;
     progress progress_callback 11 ;;;
     json_file_path <- _save_massive_json massive_json session_id ;;
     progress progress_callback 12 ;;;
     validation_results <- _validate_massive_data massive_json ;;
     let collection_time := elapsed_seconds W in
     st <- get_stats ;;
     let minutes := Qfloor (collection_time / 60) in
     let seconds := Qfloor (collection_time - inject_Z (60 * minutes)) in
     let collection_result :=
       mkResult true session_id query context json_file_path massive_json st
                collection_time
                (str_int minutes ++ py "m " ++ str_int seconds ++ py "s")
                validation_results (now_isoformat W) in
     call (salvar_etapa W (py "coleta_massiva_completa")) ;;;
     ret collection_result)
    (fun e =>
       call (salvar_erro W (py "coleta_massiva_erro") e
                         (PyDict [(py "query", PyStr query)])) ;;;
       raise e).

End Collector.

(** The module-level instance [massive_data_collector = MassiveDataCollector()]:
    one [collection_stats], created when the module is imported, threaded
    through every call made on the instance. *)
Definition massive_data_collector : collection_stats := __init__.

(** * Properties *)

(** ** The monad *)



Lemma bind_inv {A B} (m : M A) (k : A -> M B) st b st2 :
  bind m k st = (Returned b, st2) ->
  exists a st1, m st = (Returned a, st1) /\ k a st1 = (Returned b, st2).
Proof.
  unfold bind. destruct (m st) as [[a | e] st1]; intros H.
  - now exists a, st1.
  - discriminate.
Qed.

(** ** The quality score *)

(** The score as the specification words it. *)
Definition size_component (chars : Z) : Z :=
  if 2000 <=? chars then 25 else if 1000 <=? chars then 15 else 5.

Definition density_component (words : Z) : Z :=
  if 300 <=? words then 25 else if 150 <=? words then 15 else 5.

Definition evidence_component (numeric_tokens currency_tokens : Z) : Z :=
  Z.min (2 * numeric_tokens) 20 + Z.min (3 * currency_tokens) 15.

Definition trust_component (tag : pyval) : Z :=
  if eq_str tag (py "exa") then 10
  else if eq_str tag (py "websailor") then 8
  else if eq_str tag (py "google") || eq_str tag (py "serper") then 6
  else 0.

Definition clamp (lo hi x : Z) : Z := Z.max lo (Z.min hi x).

Section Quality.
Context {R : Runtime}.

Definition numeric_tokens (text : pystr) : Z :=
  Z.of_nat (length (findall match_number text)).

Definition currency_tokens (text : pystr) : Z :=
  Z.of_nat (length (findall match_money text)).

Definition word_count (text : pystr) : Z := Z.of_nat (length (str_split text)).

Definition spec_quality_score (text : pystr) (tag : pyval) : Z :=
  clamp 0 100
    (size_component (Z.of_nat (length text))
     + density_component (word_count text)
     + evidence_component (numeric_tokens text) (currency_tokens text)
     + trust_component tag).

(** The source tag of a task: [url_data.get('source', '')]. *)
Definition source_tag (url_data : pydict) : pyval :=
  match dict_lookup url_data (py "source") with
  | Some tag => tag
  | None => PyStr []
  end.

Lemma size_component_bounds n : 5 <= size_component n <= 25.
Proof. unfold size_component. destruct (2000 <=? n), (1000 <=? n); lia. Qed.

Lemma density_component_bounds n : 5 <= density_component n <= 25.
Proof. unfold density_component. destruct (300 <=? n), (150 <=? n); lia. Qed.

Lemma evidence_component_bounds n m :
  0 <= n -> 0 <= m -> 0 <= evidence_component n m <= 35.
Proof. unfold evidence_component. lia. Qed.

Lemma trust_component_bounds tag : 0 <= trust_component tag <= 10.
Proof.
  unfold trust_component.
  destruct (eq_str tag (py "exa")), (eq_str tag (py "websailor")),
    (eq_str tag (py "google") || eq_str tag (py "serper")); lia.
Qed.

(** What the method computes on a text and a task dictionary, in every state. *)
Lemma calculate_content_quality_eq (text : pystr) (url_data : pydict) st :
  _calculate_content_quality (PyStr text) (PyDict url_data) st
  = (Returned (Z.min (size_component (Z.of_nat (length text))
                      + density_component (word_count text)
                      + evidence_component (numeric_tokens text) (currency_tokens text)
                      + trust_component (source_tag url_data)) 100), st).
Proof.
  unfold _calculate_content_quality, bind, lift, ret; cbn [py_len py_split re_findall py_get].
  unfold size_component, density_component, evidence_component, trust_component,
    word_count, numeric_tokens, currency_tokens, source_tag.
  do 2 f_equal. f_equal. lia.
Qed.

(** The sum never leaves [10, 95]: capping it at 100 is clamping it to
    [0, 100]. *)
Lemma capped_sum_is_spec (text : pystr) (tag : pyval) :
  Z.min (size_component (Z.of_nat (length text))
         + density_component (word_count text)
         + evidence_component (numeric_tokens text) (currency_tokens text)
         + trust_component tag) 100
  = spec_quality_score text tag.
Proof.
  pose proof (size_component_bounds (Z.of_nat (length text))).
  pose proof (density_component_bounds (word_count text)).
  pose proof (trust_component_bounds tag).
  assert (0 <= numeric_tokens text) as Hn by (unfold numeric_tokens; lia).
  assert (0 <= currency_tokens text) as Hm by (unfold currency_tokens; lia).
  pose proof (evidence_component_bounds Hn Hm).
  unfold spec_quality_score, clamp. lia.
Qed.

(** C2: the quality score is a pure function of the text and the source tag:
    it is the same in every state of the collector and leaves the state as it
    is; it equals the size, density, data-evidence and source-trust components
    added up and clamped to [0, 100]; and it lies in [0, 100]. *)
Theorem quality_score_deterministic_sum_bounded
  (text : pystr) (url_data : pydict) (st st' : collection_stats) :
  let run := _calculate_content_quality (PyStr text) (PyDict url_data) in
  run st = (Returned (spec_quality_score text (source_tag url_data)), st)
  /\ fst (run st) = fst (run st')
  /\ 0 <= spec_quality_score text (source_tag url_data) <= 100.
Proof.
  pose proof (size_component_bounds (Z.of_nat (length text))) as Hs.
  pose proof (density_component_bounds (word_count text)) as Hd.
  pose proof (trust_component_bounds (source_tag url_data)) as Ht.
  assert (0 <= numeric_tokens text) as Hn by (unfold numeric_tokens; lia).
  assert (0 <= currency_tokens text) as Hm by (unfold currency_tokens; lia).
  pose proof (evidence_component_bounds Hn Hm) as He.
  cbv zeta. rewrite !calculate_content_quality_eq. cbn [fst].
  unfold spec_quality_score, clamp. repeat split; try lia.
  do 2 f_equal. lia.
Qed.

(** C9 (amended): a text of at least 2,000 characters and 300 words whose
    source tag is [exa] scores 60 plus its data-evidence points: at least 60,
    and at least 75 exactly when the evidence is worth 15 points or more. *)
Theorem quality_score_long_dense_exa
  (text : pystr) (url_data : pydict) (st : collection_stats) :
  2000 <= Z.of_nat (length text) ->
  300 <= word_count text ->
  dict_lookup url_data (py "source") = Some (PyStr (py "exa")) ->
  let evidence := evidence_component (numeric_tokens text) (currency_tokens text) in
  _calculate_content_quality (PyStr text) (PyDict url_data) st
  = (Returned (60 + evidence), st)
  /\ 60 <= 60 + evidence
  /\ (75 <= 60 + evidence <-> 15 <= evidence).
Proof.
  intros Hlen Hwords Hsrc evidence.
  assert (0 <= evidence <= 35) as He.
  { apply evidence_component_bounds; unfold numeric_tokens, currency_tokens; lia. }
  rewrite calculate_content_quality_eq.
  unfold source_tag. rewrite Hsrc.
  unfold size_component, density_component.
  apply Z.leb_le in Hlen, Hwords. rewrite Hlen, Hwords.
  change (trust_component (PyStr (py "exa"))) with 10.
  fold evidence. repeat split; try lia.
  do 2 f_equal. lia.
Qed.

End Quality.

(** Two extraction tasks tagged [exa] and two fetched texts: 1,000 times
    ["a "] (2,000 characters, 1,000 words, no figure), and 400 times
    ["R$ 10 "] (2,400 characters, 800 words, 400 figures and 400 amounts). *)
Definition exa_task : pydict :=
  [(py "url", PyStr (py "https://example.org/a"));
   (py "title", PyStr (py "A"));
   (py "source", PyStr (py "exa"));
   (py "snippet", PyStr [])].

Definition text_without_figures : pystr := concat (repeat (py "a ") 1000).

Definition text_with_figures : pystr := concat (repeat (py "R$ 10 ") 400).

Lemma quality_score_long_dense_exa_witness :
  2000 <= Z.of_nat (length text_with_figures)
  /\ 300 <= @word_count ascii_runtime text_with_figures
  /\ dict_lookup exa_task (py "source") = Some (PyStr (py "exa"))
  /\ let evidence := evidence_component (@numeric_tokens ascii_runtime text_with_figures)
                                        (@currency_tokens ascii_runtime text_with_figures) in
     @_calculate_content_quality ascii_runtime (PyStr text_with_figures) (PyDict exa_task)
                                 __init__
     = (Returned (60 + evidence), __init__)
     /\ 60 <= 60 + evidence
     /\ (75 <= 60 + evidence <-> 15 <= evidence).
Proof.
  assert (2000 <= Z.of_nat (length text_with_figures)) as H1
    by (vm_compute; discriminate).
  assert (300 <= @word_count ascii_runtime text_with_figures) as H2
    by (vm_compute; discriminate).
  assert (dict_lookup exa_task (py "source") = Some (PyStr (py "exa"))) as H3
    by reflexivity.
  repeat split; try assumption;
    apply (@quality_score_long_dense_exa ascii_runtime text_with_figures exa_task
             __init__ H1 H2 H3).
Defined.

(** C9 as stated fails: 2,000 characters, 1,000 words, tag [exa], and the
    score is 60. *)
Lemma quality_score_75_counterexample :
  2000 <= Z.of_nat (length text_without_figures)
  /\ 300 <= @word_count ascii_runtime text_without_figures
  /\ dict_lookup exa_task (py "source") = Some (PyStr (py "exa"))
  /\ @_calculate_content_quality ascii_runtime (PyStr text_without_figures)
                                 (PyDict exa_task) __init__
     = (Returned 60, __init__)
  /\ ~ 75 <= 60.
Proof.
  split; [vm_compute; discriminate |].
  split; [vm_compute; discriminate |].
  split; [reflexivity |].
  split; [vm_compute; reflexivity | lia].
Qed.

(** ** Worlds used in examples *)

(** Nothing is configured and nothing fails: every search returns an empty
    result, the extractor finds no content, the disk accepts every write. *)
Definition quiet_world : World := {|
  salvar_etapa _ := None;
  salvar_erro _ _ _ := None;
  exa_is_available := Returned (PyBool false);
  exa_search _ := Returned PyNone;
  search_google _ _ := Returned (PyList []);
  search_serper _ _ := Returned (PyList []);
  search_bing _ _ := Returned (PyList []);
  supadata_search _ _ _ := Returned (PyDict []);
  navigate_and_research_deep _ _ _ _ _ := Returned (PyDict []);
  extract_content _ := Returned PyNone;
  late_web _ := false;
  late_social _ := false;
  late_extraction _ := false;
  os_makedirs _ := None;
  json_dump_to _ _ := None;
  os_getsize _ := Returned 0;
  now_isoformat := py "2024-05-01T10:00:00";
  now_strftime := py "20240501_100000";
  elapsed_seconds := 0
|}.

(** [quiet_world] with an extractor that fetches [page] from every URL. *)
Definition world_fetching (page : outcome pyval) : World := {|
  salvar_etapa := salvar_etapa quiet_world;
  salvar_erro := salvar_erro quiet_world;
  exa_is_available := exa_is_available quiet_world;
  exa_search := exa_search quiet_world;
  search_google := search_google quiet_world;
  search_serper := search_serper quiet_world;
  search_bing := search_bing quiet_world;
  supadata_search := supadata_search quiet_world;
  navigate_and_research_deep := navigate_and_research_deep quiet_world;
  extract_content _ := page;
  late_web := late_web quiet_world;
  late_social := late_social quiet_world;
  late_extraction := late_extraction quiet_world;
  os_makedirs := os_makedirs quiet_world;
  json_dump_to := json_dump_to quiet_world;
  os_getsize := os_getsize quiet_world;
  now_isoformat := now_isoformat quiet_world;
  now_strftime := now_strftime quiet_world;
  elapsed_seconds := elapsed_seconds quiet_world
|}.

(** [quiet_world] with a disk on which [os.makedirs] fails with [e]. *)
Definition world_with_failing_disk (e : exn) : World := {|
  salvar_etapa := salvar_etapa quiet_world;
  salvar_erro := salvar_erro quiet_world;
  exa_is_available := exa_is_available quiet_world;
  exa_search := exa_search quiet_world;
  search_google := search_google quiet_world;
  search_serper := search_serper quiet_world;
  search_bing := search_bing quiet_world;
  supadata_search := supadata_search quiet_world;
  navigate_and_research_deep := navigate_and_research_deep quiet_world;
  extract_content := extract_content quiet_world;
  late_web := late_web quiet_world;
  late_social := late_social quiet_world;
  late_extraction := late_extraction quiet_world;
  os_makedirs _ := Some e;
  json_dump_to := json_dump_to quiet_world;
  os_getsize := os_getsize quiet_world;
  now_isoformat := now_isoformat quiet_world;
  now_strftime := now_strftime quiet_world;
  elapsed_seconds := elapsed_seconds quiet_world
|}.

(** ** Extraction of one URL *)

Section SingleExtraction.
Context {R : Runtime}.
Variable W : World.

Lemma truthy_long_text (text : pystr) :
  200 < Z.of_nat (length text) -> truthy (PyStr text) = true.
Proof. destruct text; cbn; [lia | reflexivity]. Qed.

(** C6 (amended): the task never raises.  When the extractor returns a text
    of more than 200 characters a document holding that text and its quality
    score is produced, and the score is appended to the statistics; when the
    text has 200 characters or fewer, when there is no content, and when the
    extractor raises, the task yields [None] and changes nothing. *)
Theorem extract_single_content_cases
  (url_data : pydict) (index : nat) (st : collection_stats) (url : pyval) :
  dict_lookup url_data (py "url") = Some url ->
  let run := _extract_single_content W (PyDict url_data) index st in
  (forall text,
     extract_content W url = Returned (PyStr text) ->
     200 < Z.of_nat (length text) ->
     exists document,
       run = (Returned (PyDict document),
              append_quality_score (spec_quality_score text (source_tag url_data)) st)
       /\ dict_lookup document (py "success") = Some (PyBool true)
       /\ dict_lookup document (py "content") = Some (PyStr text))
  /\ (forall text,
        extract_content W url = Returned (PyStr text) ->
        Z.of_nat (length text) <= 200 ->
        run = (Returned PyNone, st))
  /\ (extract_content W url = Returned PyNone -> run = (Returned PyNone, st))
  /\ (forall e, extract_content W url = Raised e -> run = (Returned PyNone, st)).
Proof.
  intros Hurl run. subst run.
  assert (forall fetched,
            extract_content W url = fetched ->
            _extract_single_content W (PyDict url_data) index st
            = try_except
                (content <- lift fetched ;;
                 long_enough <- (if truthy content
                                 then n <- lift (py_len content) ;; ret (200 <? n)
                                 else ret false) ;;
                 if long_enough
                 then quality_score <- _calculate_content_quality content (PyDict url_data) ;;
                      modify (append_quality_score quality_score) ;;;
                      title <- lift (py_get (PyDict url_data) (py "title") (PyStr [])) ;;
                      source <- lift (py_get (PyDict url_data) (py "source")
                                             (PyStr (py "unknown"))) ;;
                      snippet <- lift (py_get (PyDict url_data) (py "snippet") (PyStr [])) ;;
                      content_length <- lift (py_len content) ;;
                      words <- lift (py_split content) ;;
                      ret (PyDict
                        [(py "success", PyBool true);
                         (py "url", url);
                         (py "title", title);
                         (py "source", source);
                         (py "snippet", snippet);
                         (py "content", content);
                         (py "content_length", PyInt content_length);
                         (py "word_count", PyInt (Z.of_nat (length words)));
                         (py "quality_score", PyFloat (inject_Z quality_score));
                         (py "extraction_index", PyInt (Z.of_nat index));
                         (py "extracted_at", PyStr (now_isoformat W))])
                 else ret PyNone)
                (fun _ => ret PyNone) st) as Henter.
  { intros fetched <-. unfold _extract_single_content, try_except, bind at 1, lift at 1.
    cbn [py_getitem]. rewrite Hurl. reflexivity. }
  repeat split.
  - intros text Hfetch Hlong. rewrite (Henter _ Hfetch).
    unfold try_except, bind at 1, lift at 1.
    unfold bind at 1. rewrite truthy_long_text by exact Hlong.
    unfold bind at 1, lift at 1. cbn [py_len]. unfold ret at 1.
    apply Z.ltb_lt in Hlong. rewrite Hlong.
    unfold bind at 1. rewrite calculate_content_quality_eq, capped_sum_is_spec.
    eexists. split; [| split]; reflexivity.
  - intros text Hfetch Hshort. rewrite (Henter _ Hfetch).
    unfold try_except, bind at 1, lift at 1.
    unfold bind at 1. destruct (truthy (PyStr text)).
    + unfold bind at 1, lift at 1. cbn [py_len]. unfold ret at 1.
      apply Z.ltb_ge in Hshort. rewrite Hshort. reflexivity.
    + reflexivity.
  - intros Hfetch. rewrite (Henter _ Hfetch). reflexivity.
  - intros e Hfetch. rewrite (Henter _ Hfetch). reflexivity.
Qed.

End SingleExtraction.

(** A fetched text of exactly 200 characters. *)
Definition text_of_200_characters : pystr := repeat 97%N 200.

Lemma extract_single_content_cases_witness :
  dict_lookup exa_task (py "url") = Some (PyStr (py "https://example.org/a"))
  /\ exists document,
       @_extract_single_content ascii_runtime
         (world_fetching (Returned (PyStr text_with_figures))) (PyDict exa_task) 0 __init__
       = (Returned (PyDict document),
          append_quality_score
            (@spec_quality_score ascii_runtime text_with_figures (source_tag exa_task))
            __init__)
       /\ dict_lookup document (py "success") = Some (PyBool true)
       /\ dict_lookup document (py "content") = Some (PyStr text_with_figures).
Proof.
  split; [reflexivity |].
  apply (proj1 (@extract_single_content_cases ascii_runtime
                  (world_fetching (Returned (PyStr text_with_figures)))
                  exa_task 0 __init__ (PyStr (py "https://example.org/a")) eq_refl)).
  - reflexivity.
  - vm_compute; reflexivity.
Defined.

(** C6 as stated fails: the fetched content has 200 characters, which is not
    shorter than 200, and the task yields no document. *)
Lemma extract_200_characters_counterexample :
  200 <= Z.of_nat (length text_of_200_characters)
  /\ @_extract_single_content ascii_runtime
       (world_fetching (Returned (PyStr text_of_200_characters))) (PyDict exa_task) 0
       __init__
     = (Returned PyNone, __init__).
Proof.
  split; [vm_compute; discriminate | vm_compute; reflexivity].
Qed.

(** ** The validator *)

Section Validator.
Context {R : Runtime}.

(** What the validator reads in a snapshot [d]:
    [d.get(name, {})], [d.get('estatisticas_coleta', {}).get(key, 0)] and
    [d.get('preparacao_para_analises', {}).get(key, False)]. *)
Definition section_of (d : pydict) (name : pystr) : pyval :=
  match dict_lookup d name with
  | Some v => v
  | None => PyDict []
  end.

Definition figure_of (d : pydict) (key : pystr) : pyval :=
  match section_of d (py "estatisticas_coleta") with
  | PyDict estatisticas =>
      match dict_lookup estatisticas key with
      | Some v => v
      | None => PyInt 0
      end
  | _ => PyInt 0
  end.

Definition ready (d : pydict) (modulo : pystr) : bool :=
  match section_of d (py "preparacao_para_analises") with
  | PyDict preparacao =>
      truthy (match dict_lookup preparacao (chave_do_modulo modulo) with
              | Some v => v
              | None => PyBool false
              end)
  | _ => false
  end.

Definition is_dict (v : pyval) : bool :=
  match v with
  | PyDict _ => true
  | _ => false
  end.

Definition is_number (v : pyval) : bool :=
  match as_number v with
  | Some _ => true
  | None => false
  end.

Definition number_of (v : pyval) : Q :=
  match as_number v with
  | Some q => q
  | None => 0
  end.

(** The shape of a snapshot: the two sections the validator opens are
    dictionaries when present, and the two figures it compares are numbers
    when present.  Everything else is free: sections and entries may be
    missing, readiness flags may hold any value. *)
Definition well_shaped (d : pydict) : bool :=
  is_dict (section_of d (py "estatisticas_coleta"))
  && is_dict (section_of d (py "preparacao_para_analises"))
  && is_number (figure_of d (py "total_caracteres_extraidos"))
  && is_number (figure_of d (py "qualidade_media_conteudo")).

Definition total_caracteres (d : pydict) : Q :=
  number_of (figure_of d (py "total_caracteres_extraidos")).

Definition qualidade_media (d : pydict) : Q :=
  number_of (figure_of d (py "qualidade_media_conteudo")).

(** The report of a well-shaped snapshot, written out. *)
Definition report_of (d : pydict) : validation :=
  let total_content := figure_of d (py "total_caracteres_extraidos") in
  let avg_quality := figure_of d (py "qualidade_media_conteudo") in
  let dados_suficientes := Qle_bool 50000 (total_caracteres d) in
  let qualidade := Qle_bool 60 (qualidade_media d) in
  let modulos := filter (ready d) modulos_possiveis in
  let problemas := if dados_suficientes then [] else [volume_insuficiente total_content] in
  mkValidation dados_suficientes qualidade modulos
    (if qualidade then problemas else problemas ++ [qualidade_baixa avg_quality])
    ((if dados_suficientes then []
      else [py "Execute nova coleta com mais APIs configuradas"]) ++
     (if qualidade then []
      else [py "Configure APIs premium para melhor qualidade"]) ++
     (if Z.of_nat (length modulos) <? 6
      then [py "Dados insuficientes para alguns m" ++ [243%N]
            ++ py "dulos - configure mais fontes"]
      else [])).

(** The loop over the catalogue keeps, in order, the modules whose key is
    marked ready. *)
Lemma modulos_loop (preparacao : pydict) (l acc : list pystr) st :
  foldM (fun (modulos : list pystr) (modulo : pystr) =>
           pronto <- lift (py_get (PyDict preparacao) (chave_do_modulo modulo)
                                  (PyBool false)) ;;
           ret (if truthy pronto then modulos ++ [modulo] else modulos))
        acc l st
  = (Returned (acc ++ filter (fun modulo =>
                 truthy (match dict_lookup preparacao (chave_do_modulo modulo) with
                         | Some v => v
                         | None => PyBool false
                         end)) l), st).
Proof.
  revert acc. induction l as [| modulo l IH]; intros acc; cbn [foldM filter].
  - unfold ret. now rewrite app_nil_r.
  - unfold bind at 1, bind at 1, lift, ret at 1. cbn [py_get].
    rewrite IH.
    destruct (truthy _); [now rewrite <- app_assoc | reflexivity].
Qed.

Lemma validate_well_shaped (d : pydict) st :
  well_shaped d = true ->
  _validate_massive_data (PyDict d) st = (Returned (report_of d), st).
Proof.
  unfold well_shaped. rewrite !andb_true_iff. intros [[[He Hp] Ht] Ha].
  unfold report_of, total_caracteres, qualidade_media, ready.
  revert Ht Ha. unfold figure_of, is_number, number_of.
  unfold _validate_massive_data.
  unfold bind at 1, lift at 1. cbn [py_get]. fold (section_of d (py "estatisticas_coleta")).
  destruct (section_of d (py "estatisticas_coleta")) as [| | | | | | estatisticas];
    try discriminate He.
  intros Ht Ha.
  unfold bind at 1, lift at 1. cbn [py_get].
  unfold bind at 1, lift at 1, py_ge.
  destruct (as_number match dict_lookup estatisticas (py "total_caracteres_extraidos") with
                      | Some v => v | None => PyInt 0 end) as [total |]; [| discriminate Ht].
  unfold bind at 1, lift at 1. cbn [py_get].
  fold (section_of d (py "estatisticas_coleta")).
  unfold bind at 1, lift at 1. cbn [py_get].
  unfold bind at 1, lift at 1.
  destruct (as_number match dict_lookup estatisticas (py "qualidade_media_conteudo") with
                      | Some v => v | None => PyInt 0 end) as [avg |]; [| discriminate Ha].
  unfold bind at 1, lift at 1. cbn [py_get].
  fold (section_of d (py "preparacao_para_analises")).
  destruct (section_of d (py "preparacao_para_analises")) as [| | | | | | preparacao];
    try discriminate Hp.
  unfold bind at 1. rewrite modulos_loop. reflexivity.
Qed.

End Validator.

(** ** Text search *)

Lemma str_contains_eq (p s : pystr) :
  str_contains p s
  = startswith p s || match s with [] => false | _ :: s' => str_contains p s' end.
Proof. destruct s; reflexivity. Qed.

Lemma startswith_app (p s : pystr) : startswith p (p ++ s) = true.
Proof.
  induction p as [| c p IH]; cbn; [reflexivity |].
  now rewrite N.eqb_refl, IH.
Qed.

Lemma str_contains_app_r (p a s : pystr) :
  str_contains p s = true -> str_contains p (a ++ s) = true.
Proof.
  intros H. induction a as [| c a IH]; [exact H |].
  cbn [app str_contains]. rewrite IH. apply orb_true_r.
Qed.

Lemma str_contains_middle (p a b : pystr) : str_contains p (a ++ p ++ b) = true.
Proof.
  apply str_contains_app_r. rewrite str_contains_eq, startswith_app. reflexivity.
Qed.

Section ValidatorProperties.
Context {R : Runtime}.

Lemma volume_is_not_qualidade (a b : pyval) : volume_insuficiente a <> qualidade_baixa b.
Proof. unfold volume_insuficiente, qualidade_baixa. cbn. discriminate. Qed.

(** C5: on every snapshot the validator flags the volume as sufficient exactly
    when the total of extracted characters is at least 50,000, and otherwise
    records a problem that shows the actual figure and the required 50,000; it
    approves the quality exactly when the average score is at least 60, and
    otherwise records a low-quality problem. *)
Theorem validation_thresholds (d : pydict) (st : collection_stats) :
  well_shaped d = true ->
  let total_content := figure_of d (py "total_caracteres_extraidos") in
  let avg_quality := figure_of d (py "qualidade_media_conteudo") in
  exists report,
    _validate_massive_data (PyDict d) st = (Returned report, st)
    /\ (dados_suficientes_para_analise report = true <-> (50000 <= total_caracteres d)%Q)
    /\ (In (volume_insuficiente total_content) (problemas_identificados report)
        <-> ~ (50000 <= total_caracteres d)%Q)
    /\ str_contains (format_value [] total_content) (volume_insuficiente total_content) = true
    /\ str_contains (py "50000") (volume_insuficiente total_content) = true
    /\ (qualidade_aprovada report = true <-> (60 <= qualidade_media d)%Q)
    /\ (In (qualidade_baixa avg_quality) (problemas_identificados report)
        <-> ~ (60 <= qualidade_media d)%Q).
Proof.
  intros Hshape total_content avg_quality.
  exists (report_of d). split; [now apply validate_well_shaped |].
  unfold report_of. cbn [dados_suficientes_para_analise qualidade_aprovada
                          problemas_identificados].
  fold total_content avg_quality.
  pose proof (Qle_bool_iff 50000 (total_caracteres d)) as Ht.
  pose proof (Qle_bool_iff 60 (qualidade_media d)) as Ha.
  pose proof (@volume_is_not_qualidade total_content avg_quality) as Hneq.
  assert (str_contains (py "50000") (volume_insuficiente total_content) = true) as Hreq.
  { unfold volume_insuficiente. rewrite app_assoc.
    change (py " < 50000 caracteres") with (py " < " ++ py "50000" ++ py " caracteres").
    rewrite app_assoc. apply str_contains_middle. }
  assert (str_contains (format_value [] total_content) (volume_insuficiente total_content)
          = true) as Hact by apply str_contains_middle.
  destruct (Qle_bool 50000 (total_caracteres d)) eqn:Et;
    destruct (Qle_bool 60 (qualidade_media d)) eqn:Ea;
    cbn [In app];
    repeat split; try assumption; try tauto; try congruence;
    try (intros H; exfalso; intuition congruence);
    try (intros _; intuition congruence);
    try (intros H; intuition congruence).
Qed.

End ValidatorProperties.

(** ** Snapshots built by the Consolidator *)

Lemma lift_inv {A} (o : outcome A) st a st' :
  lift o st = (Returned a, st') -> o = Returned a /\ st' = st.
Proof. unfold lift. intros H. injection H as -> ->. now split. Qed.

Ltac bind_step H :=
  apply bind_inv in H;
  let v := fresh "v" in
  let s := fresh "s" in
  let E := fresh "E" in
  destruct H as (v & s & E & H).

Ltac lift_step H :=
  apply bind_inv in H;
  let v := fresh "v" in
  let s := fresh "s" in
  let E := fresh "E" in
  destruct H as (v & s & E & H);
  apply lift_inv in E; destruct E as [E ->].

Lemma as_number_mean_quality (scores : list Z) : is_number (mean_quality scores) = true.
Proof. destruct scores; reflexivity. Qed.

Section Consolidated.
Context {R : Runtime}.
Variable W : World.

(** A snapshot built by [_consolidate_massive_json] is a dictionary whose
    statistics hold the collector's character total and mean quality, and
    whose readiness map is the constant one. *)
Lemma consolidated_snapshot
  (web_data social_data websailor_data extracted_content : pyval)
  (query : pystr) (context : pyval) (session_id : pystr) st snapshot st' :
  _consolidate_massive_json W web_data social_data websailor_data extracted_content
                            query context session_id st
  = (Returned snapshot, st') ->
  exists d qualidade_suficiente metadata,
    snapshot = PyDict d
    /\ dict_lookup d (py "metadata_coleta_massiva") = Some (PyDict metadata)
    /\ dict_lookup metadata (py "garantia_dados_reais") = Some (PyBool true)
    /\ dict_lookup metadata (py "zero_simulacao") = Some (PyBool true)
    /\ is_dict (section_of d (py "estatisticas_coleta")) = true
    /\ figure_of d (py "total_caracteres_extraidos") = PyInt (total_content_chars st)
    /\ figure_of d (py "qualidade_media_conteudo") = mean_quality (quality_scores st)
    /\ section_of d (py "preparacao_para_analises")
       = preparacao_para_analises qualidade_suficiente.
Proof.
  unfold _consolidate_massive_json. intros H.
  bind_step H. cbv [get_stats] in E. injection E as <- <-.
  do 23 lift_step H.
  do 2 bind_step H.
  cbv [ret] in H. injection H as <- <-.
  do 3 eexists. repeat split; reflexivity.
Qed.

Lemma consolidated_snapshot_well_shaped
  (web_data social_data websailor_data extracted_content : pyval)
  (query : pystr) (context : pyval) (session_id : pystr) st snapshot st' :
  _consolidate_massive_json W web_data social_data websailor_data extracted_content
                            query context session_id st
  = (Returned snapshot, st') ->
  exists d, snapshot = PyDict d /\ well_shaped d = true.
Proof.
  intros H. apply consolidated_snapshot in H.
  destruct H as (d & b & metadata & -> & _ & _ & _ & He & Ht & Ha & Hp).
  exists d. split; [reflexivity |].
  unfold well_shaped. rewrite He, Ht, Ha, Hp, as_number_mean_quality.
  reflexivity.
Qed.

End Consolidated.

(** ** Totality of the validator and the feasible modules *)

(** Snapshots used in examples: the empty dictionary, and a snapshot that
    holds only its statistics, 49,999 characters of mean quality 62.5. *)
Definition empty_snapshot : pydict := [].

Definition thin_snapshot : pydict :=
  [(py "estatisticas_coleta",
    PyDict [(py "total_caracteres_extraidos", PyInt 49999);
            (py "qualidade_media_conteudo", PyFloat (125 # 2))])].

(** The consolidation of a run in which nothing was found. *)
Definition empty_web_data : pyval :=
  PyDict [(py "exa_results", PyList []); (py "google_results", PyList []);
          (py "serper_results", PyList []); (py "bing_results", PyList []);
          (py "duckduckgo_results", PyList []); (py "total_web_sources", PyInt 0)].

Definition empty_extraction : pyval :=
  PyDict [(py "total_urls_found", PyInt 0);
          (py "total_content_extracted", PyInt 0);
          (py "extraction_success_rate", PyInt 0);
          (py "extracted_content", PyList []);
          (py "extraction_stats",
           PyDict [(py "total_chars", PyInt 0); (py "avg_content_length", PyInt 0);
                   (py "sources_by_type", PyDict [])])].

Definition consolidation_of_nothing : M pyval :=
  @_consolidate_massive_json ascii_runtime quiet_world empty_web_data (PyDict [])
    (PyDict []) empty_extraction (py "mercado de cursos") (PyDict []) (py "sessao-0001").

Section ValidatorTotality.
Context {R : Runtime}.

(** C7 (amended): the validator is total on the snapshots of the shape
    described by [well_shaped]: on every such snapshot (the empty dictionary
    among them), and on every snapshot the Consolidator builds, it raises
    nothing and returns a report, which has the five fields of [validation],
    and it leaves the collector's state alone.  It is not total on every
    input: a snapshot whose statistics section is [None] makes it raise. *)
Theorem validator_total :
  (forall (d : pydict) (st : collection_stats),
     well_shaped d = true ->
     exists report, _validate_massive_data (PyDict d) st = (Returned report, st))
  /\ (forall (W : World) (web_data social_data websailor_data extracted_content : pyval)
        (query : pystr) (context : pyval) (session_id : pystr)
        (st st' st0 : collection_stats) (snapshot : pyval),
        _consolidate_massive_json W web_data social_data websailor_data extracted_content
                                  query context session_id st
        = (Returned snapshot, st') ->
        exists report, _validate_massive_data snapshot st0 = (Returned report, st0)).
Proof.
  split.
  - intros d st Hshape. exists (report_of d). now apply validate_well_shaped.
  - intros W web_data social_data websailor_data extracted_content query context
      session_id st st' st0 snapshot H.
    apply consolidated_snapshot_well_shaped in H. destruct H as (d & -> & Hshape).
    exists (report_of d). now apply validate_well_shaped.
Qed.

(** C1 (what the code does): on every snapshot the Consolidator builds, all
    eight readiness flags are true and the validator lists four modules: the
    ones whose name starts with the word its flag ends with. *)
Theorem consolidated_snapshot_feasible_modules
  (W : World) (web_data social_data websailor_data extracted_content : pyval)
  (query : pystr) (context : pyval) (session_id : pystr)
  (st st' st0 : collection_stats) (snapshot : pyval) :
  _consolidate_massive_json W web_data social_data websailor_data extracted_content
                            query context session_id st
  = (Returned snapshot, st') ->
  exists d report,
    snapshot = PyDict d
    /\ (forall flag,
          In flag [py "dados_prontos_para_avatar"; py "dados_prontos_para_drivers";
                   py "dados_prontos_para_provas_visuais";
                   py "dados_prontos_para_anti_objecao";
                   py "dados_prontos_para_pre_pitch"; py "dados_prontos_para_predicoes";
                   py "dados_prontos_para_concorrencia";
                   py "dados_prontos_para_posicionamento"] ->
          py_get (section_of d (py "preparacao_para_analises")) flag (PyBool false)
          = Returned (PyBool true))
    /\ _validate_massive_data snapshot st0 = (Returned report, st0)
    /\ modulos_viabilizados report
       = [py "avatar_ultra_detalhado"; py "drivers_mentais_customizados";
          py "predicoes_futuro"; py "posicionamento_estrategico"]
    /\ In (py "Dados insuficientes para alguns m" ++ [243%N]
           ++ py "dulos - configure mais fontes") (recomendacoes report).
Proof.
  intros H.
  pose proof H as Hs. apply consolidated_snapshot_well_shaped in Hs.
  apply consolidated_snapshot in H.
  destruct H as (d & b & metadata & -> & _ & _ & _ & _ & _ & _ & Hp).
  destruct Hs as (d' & Heq & Hshape). injection Heq as <-.
  exists d, (report_of d). split; [reflexivity |]. split.
  { intros flag Hin. rewrite Hp. cbn [In] in Hin.
    repeat (destruct Hin as [<- | Hin]; [reflexivity |]). destruct Hin. }
  split; [now apply validate_well_shaped |].
  assert (filter (ready d) modulos_possiveis
          = [py "avatar_ultra_detalhado"; py "drivers_mentais_customizados";
             py "predicoes_futuro"; py "posicionamento_estrategico"]) as Hm.
  { unfold ready. rewrite Hp. reflexivity. }
  unfold report_of. cbn [modulos_viabilizados recomendacoes]. rewrite Hm.
  split; [reflexivity |].
  apply in_or_app. right. apply in_or_app. right. left. reflexivity.
Qed.

End ValidatorTotality.

Lemma validation_thresholds_witness :
  well_shaped thin_snapshot = true
  /\ exists report,
       @_validate_massive_data ascii_runtime (PyDict thin_snapshot) __init__
       = (Returned report, __init__)
       /\ (dados_suficientes_para_analise report = true
           <-> (50000 <= total_caracteres thin_snapshot)%Q)
       /\ (In (@volume_insuficiente ascii_runtime
                 (figure_of thin_snapshot (py "total_caracteres_extraidos")))
              (problemas_identificados report)
           <-> ~ (50000 <= total_caracteres thin_snapshot)%Q)
       /\ (qualidade_aprovada report = true <-> (60 <= qualidade_media thin_snapshot)%Q).
Proof.
  split; [reflexivity |].
  destruct (@validation_thresholds ascii_runtime thin_snapshot __init__ eq_refl)
    as (report & Hrun & Hvol & Hprob & _ & _ & Hqual & _).
  exists report. repeat split; try assumption; try apply Hvol; try apply Hprob;
    try apply Hqual.
Defined.

Example thin_snapshot_report :
  @_validate_massive_data ascii_runtime (PyDict thin_snapshot) __init__
  = (Returned
       (mkValidation false true []
          [py "Volume insuficiente: 49999 < 50000 caracteres"]
          [py "Execute nova coleta com mais APIs configuradas";
           py "Dados insuficientes para alguns m" ++ [243%N]
           ++ py "dulos - configure mais fontes"]),
     __init__).
Proof. vm_compute. reflexivity. Qed.

Lemma validator_total_witness :
  well_shaped empty_snapshot = true
  /\ exists report,
       @_validate_massive_data ascii_runtime (PyDict empty_snapshot) __init__
       = (Returned report, __init__).
Proof.
  split; [reflexivity |].
  apply (proj1 (@validator_total ascii_runtime) empty_snapshot __init__ eq_refl).
Defined.

(** A degenerate snapshot on which the validator raises: its statistics
    section is present and is [None], so [.get] is looked up on [None]. *)
Definition snapshot_without_statistics : pydict :=
  [(py "estatisticas_coleta", PyNone)].

(** C7 as stated fails: on this snapshot the validator raises
    [AttributeError], so it does not return a report on every input. *)
Lemma validator_raises_on_degenerate_snapshot_counterexample :
  well_shaped snapshot_without_statistics = false
  /\ @_validate_massive_data ascii_runtime (PyDict snapshot_without_statistics) __init__
     = (Raised (AttributeError "object has no attribute 'get'"), __init__)
  /\ ~ (forall (d : pydict) (st : collection_stats),
          exists report,
            @_validate_massive_data ascii_runtime (PyDict d) st = (Returned report, st)).
Proof.
  split; [reflexivity |]. split; [vm_compute; reflexivity |].
  intros H. destruct (H snapshot_without_statistics __init__) as (report & Hreport).
  vm_compute in Hreport. discriminate Hreport.
Qed.

Lemma consolidated_snapshot_feasible_modules_witness :
  exists snapshot st',
    consolidation_of_nothing __init__ = (Returned snapshot, st')
    /\ exists report,
         @_validate_massive_data ascii_runtime snapshot __init__
         = (Returned report, __init__)
         /\ modulos_viabilizados report
            = [py "avatar_ultra_detalhado"; py "drivers_mentais_customizados";
               py "predicoes_futuro"; py "posicionamento_estrategico"].
Proof.
  destruct (consolidation_of_nothing __init__) as [[snapshot | e] st'] eqn:E.
  - exists snapshot, st'. split; [reflexivity |].
    destruct (@consolidated_snapshot_feasible_modules ascii_runtime _ _ _ _ _ _ _ _
                __init__ st' __init__ snapshot E)
      as (d & report & _ & _ & Hrun & Hmods & _).
    exists report. split; assumption.
  - vm_compute in E. discriminate E.
Defined.

(** ** Extraction statistics *)

Example nothing_found_nothing_divided :
  @_extract_massive_content ascii_runtime quiet_world empty_web_data (PyDict []) (PyDict [])
    (py "sessao-0001") __init__
  = (Returned empty_extraction, __init__).
Proof. vm_compute. reflexivity. Qed.

(** ** Dictionaries *)

Lemma dict_lookup_set_same (d : pydict) (k : pystr) (v : pyval) :
  dict_lookup (dict_set d k v) k = Some v.
Proof.
  induction d as [| [k' v'] d IH]; cbn [dict_set dict_lookup].
  - now rewrite pystr_eqb_refl.
  - destruct (pystr_eqb k' k) eqn:E; cbn [dict_lookup]; rewrite E; [reflexivity | exact IH].
Qed.

Lemma dict_lookup_set_other (d : pydict) (k k' : pystr) (v : pyval) :
  k' <> k -> dict_lookup (dict_set d k v) k' = dict_lookup d k'.
Proof.
  intros Hne. induction d as [| [k0 v0] d IH]; cbn [dict_set dict_lookup].
  - destruct (pystr_eqb k k') eqn:E; [apply pystr_eqb_eq in E; congruence | reflexivity].
  - destruct (pystr_eqb k0 k) eqn:E; cbn [dict_lookup].
    + apply pystr_eqb_eq in E. subst k0.
      destruct (pystr_eqb k k') eqn:E'; [apply pystr_eqb_eq in E'; congruence | reflexivity].
    + now rewrite IH.
Qed.

(** ** Social platforms *)

Section Social.
Variable W : World.

(** The search on a platform never raises and never touches the statistics. *)
Lemma search_social_platform_returns (platform query : pystr) st :
  exists results, _search_social_platform_massive W platform query st = (Returned results, st).
Proof.
  unfold _search_social_platform_massive, try_except, lift, _simulate_platform_data, ret.
  repeat match goal with
         | |- context [if ?b then _ else _] => destruct b
         | |- context [supadata_search W ?p ?q ?n] => destruct (supadata_search W p q n)
         end; eexists; reflexivity.
Qed.

Lemma not_adapter_simulated (platform query : pystr) st :
  calls_adapter platform = false ->
  _search_social_platform_massive W platform query st
  = _simulate_platform_data platform query st.
Proof.
  unfold calls_adapter. rewrite !orb_false_iff. intros [[[Hy Ht] Hl] Hi].
  unfold _search_social_platform_massive, try_except. rewrite Hy, Ht, Hl, Hi.
  reflexivity.
Qed.

Lemma not_adapter_not_youtube (platform : pystr) :
  calls_adapter platform = false -> pystr_eqb platform (py "youtube") = false.
Proof. unfold calls_adapter. rewrite !orb_false_iff. tauto. Qed.

(** One turn of the collecting loop returns; the count of social sources does
    not decrease; the entries of the other platforms are kept; and for a
    platform that has no adapter the entry is the simulated result, counted
    as one source. *)
Lemma collect_platform_step (query : pystr) (d : pydict) (t : Z) (platform : pystr) st :
  exists d' t' st',
    collect_platform W query (d, t) platform st = (Returned (d', t'), st')
    /\ social_sources st <= social_sources st'
    /\ (forall k, k <> platform ++ py "_data" -> k <> py "total_social_sources" ->
                  dict_lookup d' k = dict_lookup d k)
    /\ (calls_adapter platform = false ->
        platform ++ py "_data" <> py "total_social_sources" ->
        (exists simulated,
            _simulate_platform_data platform query st = (Returned simulated, st)
            /\ dict_lookup d' (platform ++ py "_data") = Some simulated)
        /\ social_sources st' = social_sources st + 1).
Proof.
  destruct (calls_adapter platform) eqn:Hadapter.
  - (* a platform served by an adapter *)
    unfold collect_platform, try_except, bind at 1, future_result.
    destruct (search_social_platform_returns platform query st) as (results & ->).
    rewrite Hadapter. cbn [andb].
    destruct (late_social W platform).
    { do 3 eexists. split; [reflexivity |]. split; [lia |]. split; [| discriminate].
      intros k Hk _. now apply dict_lookup_set_other. }
    unfold bind at 1, lift at 1.
    destruct (py_get results (py "results") PyNone) as [found | e].
    2:{ do 3 eexists. split; [reflexivity |]. split; [lia |]. split; [| discriminate].
        intros k Hk _. now apply dict_lookup_set_other. }
    destruct (truthy found).
    2:{ do 3 eexists. split; [reflexivity |]. split; [lia |]. split; [| discriminate].
        intros k Hk _. now apply dict_lookup_set_other. }
    unfold bind at 1, lift at 1.
    destruct (py_getitem results (py "results")) as [items | e].
    2:{ do 3 eexists. split; [reflexivity |]. split; [lia |]. split; [| discriminate].
        intros k Hk _. now apply dict_lookup_set_other. }
    unfold bind at 1, lift at 1.
    assert (forall count, py_len items = Returned count -> 0 <= count) as Hcount.
    { destruct items; cbn; intros count Hc; try discriminate; injection Hc as <-; lia. }
    destruct (py_len items) as [count | e].
    2:{ do 3 eexists. split; [reflexivity |]. split; [lia |]. split; [| discriminate].
        intros k Hk _. now apply dict_lookup_set_other. }
    specialize (Hcount count eq_refl).
    destruct (pystr_eqb platform (py "youtube"));
      (do 3 eexists; split; [reflexivity |]; split; [cbn; lia |]; split; [| discriminate];
       intros k Hk Hk'; rewrite !dict_lookup_set_other by assumption; reflexivity).
  - (* a platform without adapter *)
    unfold collect_platform, try_except, bind at 1, future_result.
    rewrite (not_adapter_simulated platform query st Hadapter).
    rewrite Hadapter, (not_adapter_not_youtube platform Hadapter). cbn [andb].
    do 3 eexists. split; [reflexivity |]. split; [cbn; lia |]. split.
    + intros k Hk Hk'. rewrite !dict_lookup_set_other by assumption. reflexivity.
    + intros _ Hne. split; [| reflexivity].
      eexists. split; [reflexivity |].
      rewrite dict_lookup_set_other by exact Hne. apply dict_lookup_set_same.
Qed.

End Social.

Section SocialCollection.
Variable W : World.

Ltac distinct_keys := let H := fresh in intros H; vm_compute in H; discriminate H.

(** After the collecting loop the entries of TikTok and Facebook are the
    simulated results, and each was counted as one social source. *)
Lemma social_collection_simulated (query : pystr) (context : pyval) (session_id : pystr) st :
  salvar_etapa W (py "social_data_massive") = None ->
  exists d st' tiktok facebook,
    _collect_massive_social_data W query context session_id st = (Returned (PyDict d), st')
    /\ _simulate_platform_data (py "tiktok") query st = (Returned tiktok, st)
    /\ _simulate_platform_data (py "facebook") query st = (Returned facebook, st)
    /\ dict_lookup d (py "tiktok_data") = Some tiktok
    /\ dict_lookup d (py "facebook_data") = Some facebook
    /\ social_sources st + 2 <= social_sources st'.
Proof.
  intros Hsave.
  unfold _collect_massive_social_data. unfold bind at 1. cbn [foldM platforms].
  destruct (collect_platform_step W query empty_social_results 0 (py "youtube") st)
    as (d1 & t1 & s1 & E1 & L1 & _ & _).
  unfold bind at 1. rewrite E1.
  destruct (collect_platform_step W query d1 t1 (py "twitter") s1)
    as (d2 & t2 & s2 & E2 & L2 & _ & _).
  unfold bind at 1. rewrite E2.
  destruct (collect_platform_step W query d2 t2 (py "linkedin") s2)
    as (d3 & t3 & s3 & E3 & L3 & _ & _).
  unfold bind at 1. rewrite E3.
  destruct (collect_platform_step W query d3 t3 (py "instagram") s3)
    as (d4 & t4 & s4 & E4 & L4 & _ & _).
  unfold bind at 1. rewrite E4.
  destruct (collect_platform_step W query d4 t4 (py "tiktok") s4)
    as (d5 & t5 & s5 & E5 & _ & _ & S5).
  unfold bind at 1. rewrite E5.
  destruct (collect_platform_step W query d5 t5 (py "facebook") s5)
    as (d6 & t6 & s6 & E6 & _ & K6 & S6).
  unfold bind at 1. rewrite E6.
  destruct (S5 eq_refl ltac:(distinct_keys)) as ((tiktok & Ht & Hlt) & C5).
  destruct (S6 eq_refl ltac:(distinct_keys)) as ((facebook & Hf & Hlf) & C6).
  unfold ret at 1. unfold bind at 1, call. rewrite Hsave. unfold ret.
  exists d6, s6, tiktok, facebook.
  split; [reflexivity |].
  split; [unfold _simulate_platform_data, ret in *; congruence |].
  split; [unfold _simulate_platform_data, ret in *; congruence |].
  split.
  { rewrite <- Hlt. apply K6; distinct_keys. }
  split; [exact Hlf | lia].
Qed.

End SocialCollection.

(** C10: the searches on [tiktok] and [facebook] consult no adapter: in every
    world and state they return the same fabricated result, whose single item
    is flagged [simulated] and points to [https://<platform>.com/example];
    whenever the social collection completes, both results are in its data
    and the count of social sources has grown by at least two; and every
    consolidated snapshot records [zero_simulacao] and [garantia_dados_reais]
    as true. *)
Theorem simulated_platforms_counted_as_real
  {R : Runtime} (W : World) (platform query : pystr) (context : pyval)
  (session_id : pystr) (st : collection_stats) :
  platform = py "tiktok" \/ platform = py "facebook" ->
  exists simulated item,
    (forall (W' : World) (st' : collection_stats),
       _search_social_platform_massive W' platform query st' = (Returned simulated, st'))
    /\ py_get simulated (py "results") PyNone = Returned (PyList [item])
    /\ py_get item (py "simulated") PyNone = Returned (PyBool true)
    /\ py_get item (py "url") PyNone
       = Returned (PyStr (py "https://" ++ platform ++ py ".com/example"))
    /\ (salvar_etapa W (py "social_data_massive") = None ->
        exists d st',
          _collect_massive_social_data W query context session_id st
          = (Returned (PyDict d), st')
          /\ dict_lookup d (platform ++ py "_data") = Some simulated
          /\ social_sources st + 2 <= social_sources st')
    /\ (forall web_data social_data websailor_data extracted_content snapshot st0 st1,
          _consolidate_massive_json W web_data social_data websailor_data
                                    extracted_content query context session_id st0
          = (Returned snapshot, st1) ->
          exists d metadata,
            snapshot = PyDict d
            /\ dict_lookup d (py "metadata_coleta_massiva") = Some (PyDict metadata)
            /\ dict_lookup metadata (py "zero_simulacao") = Some (PyBool true)
            /\ dict_lookup metadata (py "garantia_dados_reais") = Some (PyBool true)).
Proof.
  intros Hplatform.
  assert (calls_adapter platform = false) as Hadapter
    by (destruct Hplatform as [-> | ->]; reflexivity).
  do 2 eexists. split.
  { intros W' st'. rewrite (not_adapter_simulated W' platform query st' Hadapter).
    reflexivity. }
  split; [reflexivity |]. split; [reflexivity |]. split; [reflexivity |]. split.
  - intros Hsave.
    destruct (social_collection_simulated W query context session_id st Hsave)
      as (d & st' & tiktok & facebook & Hrun & Ht & Hf & Hlt & Hlf & Hcount).
    exists d, st'. split; [exact Hrun |]. split; [| exact Hcount].
    unfold _simulate_platform_data, ret in Ht, Hf.
    injection Ht as <-. injection Hf as <-.
    destruct Hplatform as [-> | ->]; assumption.
  - intros web_data social_data websailor_data extracted_content snapshot st0 st1 H.
    apply consolidated_snapshot in H.
    destruct H as (d & b & metadata & -> & Hm & Hg & Hz & _).
    exists d, metadata. repeat split; assumption.
Qed.

Lemma simulated_platforms_counted_as_real_witness :
  (py "tiktok" = py "tiktok" \/ py "tiktok" = py "facebook")
  /\ salvar_etapa quiet_world (py "social_data_massive") = None
  /\ exists simulated d st',
       _search_social_platform_massive quiet_world (py "tiktok") (py "mercado de cursos")
                                       __init__
       = (Returned simulated, __init__)
       /\ _collect_massive_social_data quiet_world (py "mercado de cursos") (PyDict [])
                                       (py "sessao-0001") __init__
          = (Returned (PyDict d), st')
       /\ dict_lookup d (py "tiktok" ++ py "_data") = Some simulated
       /\ social_sources __init__ + 2 <= social_sources st'.
Proof.
  split; [left; reflexivity |]. split; [reflexivity |].
  destruct (@simulated_platforms_counted_as_real ascii_runtime quiet_world (py "tiktok")
              (py "mercado de cursos") (PyDict []) (py "sessao-0001") __init__
              (or_introl eq_refl))
    as (simulated & item & Hsearch & _ & _ & _ & Hcollect & _).
  destruct (Hcollect eq_refl) as (d & st' & Hrun & Hlookup & Hcount).
  exists simulated, d, st'. repeat split; try assumption. apply Hsearch.
Defined.

(** ** The pipeline *)

Section Pipeline.
Context {R : Runtime}.
Variable W : World.

(** [collect_massive_data] cut at the save: what runs before it, what runs
    after it, and the handler of the enclosing [try]. *)
Definition phases_before_save (query : pystr) (context : pyval) (session_id : pystr)
  (progress_callback : option (Z -> option exn)) : M pyval :=
  call (salvar_etapa W (py "coleta_massiva_iniciada")) ;;;
  progress progress_callback 1 ;;;
  progress progress_callback 2 ;;;
  web_data <- _collect_massive_web_data W query context session_id ;;
  progress progress_callback 4 ;;;
  social_data <- _collect_massive_social_data W query context session_id ;;
  progress progress_callback 6 ;;;
  websailor_data <- _collect_websailor_deep_data W query context session_id ;;
  progress progress_callback 8 ;;;
  extracted_content <- _extract_massive_content W web_data social_data websailor_data
                                                session_id ;;
  progress progress_callback 10 ;;;
  massive_json <- _consolidate_massive_json W web_data social_data websailor_data
                    extracted_content query context session_id ;;
  progress progress_callback 11 ;;;
  ret massive_json.

Definition phases_after_save (query : pystr) (context : pyval) (session_id : pystr)
  (progress_callback : option (Z -> option exn)) (massive_json : pyval)
  (json_file_path : pystr) : M collection_result :=
  progress progress_callback 12 ;;;
  validation_results <- _validate_massive_data massive_json ;;
  let collection_time := elapsed_seconds W in
  st <- get_stats ;;
  let minutes := Qfloor (collection_time / 60) in
  let seconds := Qfloor (collection_time - inject_Z (60 * minutes)) in
  let collection_result :=
    mkResult true session_id query context json_file_path massive_json st
             collection_time
             (str_int minutes ++ py "m " ++ str_int seconds ++ py "s")
             validation_results (now_isoformat W) in
  call (salvar_etapa W (py "coleta_massiva_completa")) ;;;
  ret collection_result.

Definition on_error (query : pystr) (e : exn) : M collection_result :=
  call (salvar_erro W (py "coleta_massiva_erro") e (PyDict [(py "query", PyStr query)])) ;;;
  raise e.

Ltac run_step :=
  match goal with
  | |- context [match ?f ?s with _ => _ end] =>
      is_var s; destruct (f s) as [[? | ?] ?]
  end.

Lemma collect_massive_data_phases (query : pystr) (context : pyval) (session_id : pystr)
  (progress_callback : option (Z -> option exn)) st :
  collect_massive_data W query context session_id progress_callback st
  = try_except
      (massive_json <- phases_before_save query context session_id progress_callback ;;
       json_file_path <- _save_massive_json W massive_json session_id ;;
       phases_after_save query context session_id progress_callback massive_json
                         json_file_path)
      (on_error query) st.
Proof.
  unfold collect_massive_data, phases_before_save, phases_after_save, on_error.
  unfold try_except at 1 2, bind, ret, get_stats, raise.
  repeat run_step; reflexivity.
Qed.

End Pipeline.

Section SaveFailure.
Context {R : Runtime}.
Variable W : World.

(** The save re-raises what the file system raised. *)
Lemma save_raises_what_makedirs_raises (massive_json : pyval) (session_id : pystr)
  (e : exn) st :
  os_makedirs W (py "analyses_data/massive_data") = Some e ->
  _save_massive_json W massive_json session_id st = (Raised e, st).
Proof.
  intros H. unfold _save_massive_json, try_except, bind at 1, call. rewrite H. reflexivity.
Qed.

(** C3 (amended): when the phases before the save complete and the save
    raises [e], [collect_massive_data] hands [e] and the query to the error
    recorder and raises [e] itself, unchanged (or what the recorder raises,
    if it raises); it returns no result. *)
Theorem save_failure_is_fatal
  (query : pystr) (context : pyval) (session_id : pystr)
  (progress_callback : option (Z -> option exn))
  (st st1 st2 : collection_stats) (massive_json : pyval) (e : exn) :
  phases_before_save W query context session_id progress_callback st
  = (Returned massive_json, st1) ->
  _save_massive_json W massive_json session_id st1 = (Raised e, st2) ->
  let recorded :=
    salvar_erro W (py "coleta_massiva_erro") e (PyDict [(py "query", PyStr query)]) in
  let run := collect_massive_data W query context session_id progress_callback st in
  run = (Raised (match recorded with None => e | Some e' => e' end), st2)
  /\ (forall result st', run <> (Returned result, st')).
Proof.
  intros Hbefore Hsave recorded run.
  assert (run = (Raised (match recorded with None => e | Some e' => e' end), st2)) as Hrun.
  { subst run. rewrite collect_massive_data_phases.
    unfold try_except, bind at 1. rewrite Hbefore.
    unfold bind at 1. rewrite Hsave.
    unfold on_error, bind, call. fold recorded. destruct recorded; reflexivity. }
  split; [exact Hrun |].
  intros result st'. rewrite Hrun. discriminate.
Qed.

End SaveFailure.

(** A disk on which the directory of the snapshots cannot be created. *)
Definition permission_denied : exn :=
  mkExn (py "PermissionError") [py "[Errno 13] Permission denied: 'analyses_data'"].

Lemma save_failure_is_fatal_witness :
  exists massive_json st1,
    @phases_before_save ascii_runtime (world_with_failing_disk permission_denied)
      (py "mercado de cursos") (PyDict []) (py "sessao-0001") None __init__
    = (Returned massive_json, st1)
    /\ _save_massive_json (world_with_failing_disk permission_denied) massive_json
                          (py "sessao-0001") st1
       = (Raised permission_denied, st1)
    /\ @collect_massive_data ascii_runtime (world_with_failing_disk permission_denied)
         (py "mercado de cursos") (PyDict []) (py "sessao-0001") None __init__
       = (Raised permission_denied, st1).
Proof.
  destruct (@phases_before_save ascii_runtime (world_with_failing_disk permission_denied)
              (py "mercado de cursos") (PyDict []) (py "sessao-0001") None __init__)
    as [[massive_json | e] st1] eqn:Hbefore.
  - exists massive_json, st1. split; [reflexivity |].
    pose proof (save_raises_what_makedirs_raises
                  (world_with_failing_disk permission_denied) massive_json
                  (py "sessao-0001") st1 (e := permission_denied) eq_refl) as Hsave.
    split; [exact Hsave |].
    exact (proj1 (@save_failure_is_fatal ascii_runtime
                    (world_with_failing_disk permission_denied) (py "mercado de cursos")
                    (PyDict []) (py "sessao-0001") None __init__ st1 st1 massive_json
                    permission_denied Hbefore Hsave)).
  - vm_compute in Hbefore. discriminate Hbefore.
Defined.

(** C3 as stated fails: the save raises, the pipeline raises the same
    exception, and that exception carries neither the run id nor the query. *)
Lemma fatal_error_without_run_id_counterexample :
  exists massive_json st1,
    @phases_before_save ascii_runtime (world_with_failing_disk permission_denied)
      (py "mercado de cursos") (PyDict []) (py "sessao-0001") None __init__
    = (Returned massive_json, st1)
    /\ _save_massive_json (world_with_failing_disk permission_denied) massive_json
                          (py "sessao-0001") st1
       = (Raised permission_denied, st1)
    /\ @collect_massive_data ascii_runtime (world_with_failing_disk permission_denied)
         (py "mercado de cursos") (PyDict []) (py "sessao-0001") None __init__
       = (Raised permission_denied, st1)
    /\ carries permission_denied (py "sessao-0001") = false
    /\ carries permission_denied (py "mercado de cursos") = false.
Proof.
  do 2 eexists.
  split; [vm_compute; reflexivity |].
  split; [vm_compute; reflexivity |].
  split; [vm_compute; reflexivity |].
  split; vm_compute; reflexivity.
Qed.

(** ** Two runs on the module-level instance *)

(** A world in which Google finds one page and every URL yields the text
    [text_with_figures]. *)
Definition one_google_hit : pyval :=
  PyList [PyDict [(py "title", PyStr (py "Cursos online"));
                  (py "url", PyStr (py "https://example.org/cursos"));
                  (py "snippet", PyStr (py "O mercado cresce"));
                  (py "source", PyStr (py "google"))]].

Definition busy_world : World := {|
  salvar_etapa := salvar_etapa quiet_world;
  salvar_erro := salvar_erro quiet_world;
  exa_is_available := exa_is_available quiet_world;
  exa_search := exa_search quiet_world;
  search_google _ _ := Returned one_google_hit;
  search_serper := search_serper quiet_world;
  search_bing := search_bing quiet_world;
  supadata_search := supadata_search quiet_world;
  navigate_and_research_deep := navigate_and_research_deep quiet_world;
  extract_content _ := Returned (PyStr text_with_figures);
  late_web := late_web quiet_world;
  late_social := late_social quiet_world;
  late_extraction := late_extraction quiet_world;
  os_makedirs := os_makedirs quiet_world;
  json_dump_to := json_dump_to quiet_world;
  os_getsize := os_getsize quiet_world;
  now_isoformat := now_isoformat quiet_world;
  now_strftime := now_strftime quiet_world;
  elapsed_seconds := elapsed_seconds quiet_world
|}.

Definition busy_run : M collection_result :=
  @collect_massive_data ascii_runtime busy_world (py "mercado de cursos") (PyDict [])
    (py "sessao-0001") None.

(** The counters of a [collection_stats]: web, social, YouTube, characters,
    and the quality scores. *)
Definition counters (st : collection_stats) : Z * Z * Z * Z * list Z :=
  (web_sources st, social_sources st, youtube_sources st, total_content_chars st,
   quality_scores st).

(** What a snapshot reports in [section][key]. *)
Definition reported (snapshot : pyval) (section key : pystr) : pyval :=
  match snapshot with
  | PyDict d =>
      match section_of d section with
      | PyDict entries =>
          match dict_lookup entries key with
          | Some v => v
          | None => PyNone
          end
      | _ => PyNone
      end
  | _ => PyNone
  end.

(** C4 (what the code does): two runs of the same search on the module-level
    instance.  Each run finds one web page and two social items and extracts
    three texts of 2,400 characters.  The first run reports that; the second
    starts from the statistics the first one left and reports four social
    sources, 14,400 characters and six quality scores, next to its own one web
    source, two social posts and three extracted pages. *)
Theorem statistics_carry_over_between_runs :
  exists first st1 second st2,
    busy_run massive_data_collector = (Returned first, st1)
    /\ busy_run st1 = (Returned second, st2)
    /\ counters (result_collection_stats first) = (1, 2, 0, 7200, [91; 85; 85])
    /\ counters (result_collection_stats second)
       = (1, 4, 0, 14400, [91; 85; 85; 91; 85; 85])
    /\ reported (massive_data second) (py "dados_sociais_completos")
                (py "total_posts_sociais") = PyInt 2
    /\ reported (massive_data second) (py "estatisticas_coleta")
                (py "total_fontes_sociais") = PyInt 4
    /\ reported (massive_data second) (py "conteudo_extraido_massivo")
                (py "total_paginas_extraidas") = PyInt 3
    /\ reported (massive_data second) (py "estatisticas_coleta")
                (py "total_caracteres_extraidos") = PyInt 14400.
Proof.
  do 4 eexists.
  split; [vm_compute; reflexivity |].
  split; [vm_compute; reflexivity |].
  repeat split; vm_compute; reflexivity.
Qed.

(** * Further properties of the collector *)

(** ** Loops in the monad *)

(** A loop invariant for [foldM]: it holds of what was iterated so far. *)
Lemma foldM_invariant {A B} (body : B -> A -> M B)
  (I : list A -> B -> collection_stats -> Prop) :
  (forall done x acc st acc' st',
     I done acc st -> body acc x st = (Returned acc', st') -> I (done ++ [x]) acc' st') ->
  forall l done acc st acc' st',
    I done acc st ->
    foldM body acc l st = (Returned acc', st') ->
    I (done ++ l) acc' st'.
Proof.
  intros Hstep l. induction l as [| x l IH]; intros done acc st acc' st' Hinv Hrun.
  - cbn in Hrun. cbv [ret] in Hrun. injection Hrun as <- <-. now rewrite app_nil_r.
  - cbn [foldM] in Hrun. apply bind_inv in Hrun.
    destruct Hrun as (acc1 & st1 & Hbody & Hrest).
    replace (done ++ x :: l) with ((done ++ [x]) ++ l) by now rewrite <- app_assoc.
    eapply IH; [| exact Hrest]. eapply Hstep; eassumption.
Qed.

(** A loop whose body always returns, returns. *)
Lemma foldM_returns {A B} (body : B -> A -> M B) :
  (forall acc x st, exists acc' st', body acc x st = (Returned acc', st')) ->
  forall l acc st, exists acc' st', foldM body acc l st = (Returned acc', st').
Proof.
  intros Hbody l. induction l as [| x l IH]; intros acc st; cbn [foldM].
  - now exists acc, st.
  - destruct (Hbody acc x st) as (acc1 & st1 & H1).
    destruct (IH acc1 st1) as (acc2 & st2 & H2).
    exists acc2, st2. unfold bind. now rewrite H1.
Qed.

(** [mapM] of a function that leaves the state alone leaves it alone, and
    what it returns satisfies what each result satisfies. *)
Lemma mapM_pure {A B} (f : A -> M B) (P : B -> Prop) :
  (forall x st, snd (f x st) = st) ->
  (forall x st y st', f x st = (Returned y, st') -> P y) ->
  forall l st,
    exists o, mapM f l st = (o, st) /\ (forall ys, o = Returned ys -> Forall P ys).
Proof.
  intros Hstate HP l. induction l as [| x l IH]; intros st; cbn [mapM].
  - eexists. split; [reflexivity |]. intros ys H. injection H as <-. constructor.
  - unfold bind at 1.
    pose proof (Hstate x st) as Hs.
    destruct (f x st) as [[y | e] st1] eqn:Ef; cbn [snd] in Hs; subst st1.
    + unfold bind at 1. destruct (IH st) as (o & Ho & Hys). rewrite Ho.
      destruct o as [ys | e].
      * eexists. split; [reflexivity |]. intros zs H. injection H as <-.
        constructor; [eapply HP; exact Ef | now apply Hys].
      * eexists. split; [reflexivity | discriminate].
    + eexists. split; [reflexivity | discriminate].
Qed.

(** ** Web search wrappers *)

Section WebSearches.
Variable W : World.

(** What a hit built by [_search_exa_massive] looks like. *)
Definition exa_tagged (hit : pyval) : Prop :=
  py_get hit (py "source") PyNone = Returned (PyStr (py "exa"))
  /\ exists snippet,
       py_get hit (py "snippet") PyNone = Returned snippet
       /\ forall n, py_len snippet = Returned n -> n <= 300.

Lemma exa_hit_pure (item : pyval) st : snd (exa_hit item st) = st.
Proof.
  unfold exa_hit, bind, lift, ret.
  repeat match goal with
         | |- context [match ?o with Returned _ => _ | Raised _ => _ end] => destruct o
         end; reflexivity.
Qed.

Lemma slice_len (v : pyval) (k : nat) (snippet : pyval) (n : Z) :
  py_slice_to v k = Returned snippet -> py_len snippet = Returned n -> n <= Z.of_nat k.
Proof.
  destruct v; cbn; intros H; try discriminate H; injection H as <-; cbn;
    intros Hn; injection Hn as <-; rewrite length_firstn; lia.
Qed.

Lemma exa_hit_tagged (item : pyval) st hit st' :
  exa_hit item st = (Returned hit, st') -> exa_tagged hit.
Proof.
  unfold exa_hit. intros H.
  do 3 lift_step H. lift_step H. rename E2 into Hslice. do 3 lift_step H.
  cbv [ret] in H. injection H as <- <-.
  split; [reflexivity |]. eexists. split; [reflexivity |].
  intros n Hn. apply (slice_len _ _ Hslice Hn).
Qed.

(** X1: the Exa search never raises and never touches the statistics; it
    returns a list; every hit of the list is tagged [exa] and carries a
    snippet of at most 300 characters; and when the Exa client raises, or
    answers nothing, the list is empty. *)
Theorem search_exa_isolated (query : pystr) (st : collection_stats) :
  exists hits,
    _search_exa_massive W query st = (Returned (PyList hits), st)
    /\ Forall exa_tagged hits
    /\ (forall response,
          exa_search W (query ++ py " Brasil 2024 mercado tend" ++ [234%N]
                              ++ py "ncias oportunidades") = response ->
          match response with
          | Raised _ => hits = []
          | Returned v => truthy v = false -> hits = []
          end).
Proof.
  unfold _search_exa_massive, try_except, bind at 1, lift at 1.
  destruct (exa_search W _) as [response | e].
  2:{ exists []. split; [reflexivity |]. split; [constructor |]. now intros ? <-. }
  unfold bind at 1. destruct (truthy response) eqn:Htruthy.
  2:{ exists []. split; [reflexivity |]. split; [constructor |]. now intros ? <-. }
  unfold lift at 1. destruct (py_contains response (py "results")) as [[|] | e].
  - unfold bind at 1, lift at 1.
    destruct (py_getitem response (py "results")) as [results | e].
    2:{ exists []. split; [reflexivity |]. split; [constructor |].
        intros ? <-. congruence. }
    unfold bind at 1, lift at 1.
    destruct (py_iter results) as [items | e].
    2:{ exists []. split; [reflexivity |]. split; [constructor |].
        intros ? <-. congruence. }
    unfold bind at 1.
    destruct (mapM_pure exa_hit exa_tagged exa_hit_pure exa_hit_tagged items st)
      as (o & Ho & Hhits).
    rewrite Ho. destruct o as [hits | e].
    + exists hits. split; [reflexivity |]. split; [now apply Hhits |].
      intros ? <-. congruence.
    + exists []. split; [reflexivity |]. split; [constructor |]. intros ? <-. congruence.
  - exists []. split; [reflexivity |]. split; [constructor |]. intros ? <-. congruence.
  - exists []. split; [reflexivity |]. split; [constructor |]. intros ? <-. congruence.
Qed.

(** X2: the Google, Serper and Bing searches never raise and never touch the
    statistics: they hand over what the search manager returned for the query
    followed by [" Brasil 2024"] and 30 results, and the empty list when it
    raises; the DuckDuckGo search always returns the empty list. *)
Theorem web_searches_isolated (query : pystr) (st : collection_stats) :
  let isolated (answer : outcome pyval) : outcome pyval * collection_stats :=
    (Returned (match answer with Returned v => v | Raised _ => PyList [] end), st) in
  _search_google_massive W query st = isolated (search_google W (query ++ py " Brasil 2024") 30)
  /\ _search_serper_massive W query st
     = isolated (search_serper W (query ++ py " Brasil 2024") 30)
  /\ _search_bing_massive W query st = isolated (search_bing W (query ++ py " Brasil 2024") 30)
  /\ _search_duckduckgo_massive query st = (Returned (PyList []), st).
Proof.
  cbv zeta.
  unfold _search_google_massive, _search_serper_massive, _search_bing_massive,
    _search_duckduckgo_massive, try_except, lift, ret.
  repeat split;
    match goal with
    | |- context [search_google W ?q ?n] => destruct (search_google W q n)
    | |- context [search_serper W ?q ?n] => destruct (search_serper W q n)
    | |- context [search_bing W ?q ?n] => destruct (search_bing W q n)
    | |- _ => idtac
    end; reflexivity.
Qed.

End WebSearches.

(** A loop invariant that knows where the loop is in its list. *)
Lemma foldM_invariant_split {A B} (body : B -> A -> M B)
  (I : list A -> B -> collection_stats -> Prop) (l0 : list A) :
  (forall done x rest acc st acc' st',
     l0 = done ++ x :: rest ->
     I done acc st -> body acc x st = (Returned acc', st') -> I (done ++ [x]) acc' st') ->
  forall acc st acc' st',
    I [] acc st ->
    foldM body acc l0 st = (Returned acc', st') ->
    I l0 acc' st'.
Proof.
  intros Hstep.
  assert (forall l done acc st acc' st',
            l0 = done ++ l -> I done acc st ->
            foldM body acc l st = (Returned acc', st') -> I (done ++ l) acc' st') as Hgen.
  { induction l as [| x l IH]; intros done acc st acc' st' Hl Hinv Hrun.
    - cbn in Hrun. cbv [ret] in Hrun. injection Hrun as <- <-. now rewrite app_nil_r.
    - cbn [foldM] in Hrun. apply bind_inv in Hrun.
      destruct Hrun as (acc1 & st1 & Hbody & Hrest).
      replace (done ++ x :: l) with ((done ++ [x]) ++ l) by now rewrite <- app_assoc.
      eapply IH; [now rewrite <- app_assoc | | exact Hrest].
      eapply Hstep; eassumption. }
  intros acc st acc' st' Hinv Hrun. apply (Hgen l0 [] acc st acc' st' eq_refl Hinv Hrun).
Qed.

(** ** Counts per provider *)

(** [d.get(k, 0)] on [sources_by_provider]. *)
Fixpoint assoc_get (d : list (pystr * Z)) (k : pystr) : Z :=
  match d with
  | [] => 0
  | (k', v) :: d' => if pystr_eqb k' k then v else assoc_get d' k
  end.

Lemma assoc_get_set_same (d : list (pystr * Z)) (k : pystr) (v : Z) :
  assoc_get (assoc_set d k v) k = v.
Proof.
  induction d as [| [k' v'] d IH]; cbn [assoc_set assoc_get].
  - now rewrite pystr_eqb_refl.
  - destruct (pystr_eqb k' k) eqn:E; cbn [assoc_get]; rewrite E; [reflexivity | exact IH].
Qed.

Lemma assoc_get_set_other (d : list (pystr * Z)) (k k' : pystr) (v : Z) :
  k' <> k -> assoc_get (assoc_set d k v) k' = assoc_get d k'.
Proof.
  intros Hne. induction d as [| [k0 v0] d IH]; cbn [assoc_set assoc_get].
  - destruct (pystr_eqb k k') eqn:E; [apply pystr_eqb_eq in E; congruence | reflexivity].
  - destruct (pystr_eqb k0 k) eqn:E; cbn [assoc_get].
    + apply pystr_eqb_eq in E. subst k0.
      destruct (pystr_eqb k k') eqn:E'; [apply pystr_eqb_eq in E'; congruence | reflexivity].
    + now rewrite IH.
Qed.

Definition sum_Z (l : list Z) : Z := fold_right Z.add 0 l.

Lemma sum_Z_app (a b : list Z) : sum_Z (a ++ b) = sum_Z a + sum_Z b.
Proof.
  induction a as [| x a IH]; [reflexivity |].
  cbn [app]. unfold sum_Z in *. cbn [fold_right]. rewrite IH. lia.
Qed.

(** The counters of the statistics that the web collection does not touch. *)
Definition same_social_and_content (st st' : collection_stats) : Prop :=
  social_sources st' = social_sources st
  /\ youtube_sources st' = youtube_sources st
  /\ total_content_chars st' = total_content_chars st
  /\ quality_scores st' = quality_scores st.

(** ** The web collection *)

Section WebCollection.
Variable W : World.

(** The body of the collecting loop of [_collect_massive_web_data] and the
    dictionary it starts from. *)
Definition collect_provider (acc : pydict * Z) (pf : pystr * (bool * M pyval))
  : M (pydict * Z) :=
  let '(web_results, total) := acc in
  let '(provider, (late, task)) := pf in
  try_except
    (results <- future_result late task ;;
     n <- lift (py_len results) ;;
     modify (set_source_by_provider provider n) ;;;
     ret (dict_set (dict_set web_results (provider ++ py "_results") results)
                   (py "total_web_sources") (PyInt (total + n)),
          total + n))
    (fun _ =>
       modify (set_source_by_provider provider 0) ;;;
       ret (dict_set web_results (provider ++ py "_results") (PyList []), total)).

Definition empty_web_results : pydict :=
  [(py "exa_results", PyList []);
   (py "google_results", PyList []);
   (py "serper_results", PyList []);
   (py "bing_results", PyList []);
   (py "duckduckgo_results", PyList []);
   (py "total_web_sources", PyInt 0)].

Lemma collect_massive_web_data_loop (query : pystr) (context : pyval) (session_id : pystr) :
  _collect_massive_web_data W query context session_id
  = (available <- lift (exa_is_available W) ;;
     r <- foldM collect_provider (empty_web_results, 0)
                (web_futures W query (truthy available)) ;;
     let '(web_results, total) := r in
     modify (set_web_sources total) ;;;
     call (salvar_etapa W (py "web_data_massive")) ;;;
     ret (PyDict web_results)).
Proof. reflexivity. Qed.

(** A task settles when it returns in every state and leaves the state alone. *)
Definition settles (task : M pyval) : Prop :=
  forall st, exists v, task st = (Returned v, st).

Lemma search_exa_settles (query : pystr) : settles (_search_exa_massive W query).
Proof.
  intros st. unfold _search_exa_massive, try_except, bind at 1, lift at 1.
  destruct (exa_search W _) as [response | e]; [| eexists; reflexivity].
  unfold bind at 1. destruct (truthy response); [| eexists; reflexivity].
  unfold lift at 1.
  destruct (py_contains response (py "results")) as [[|] | e]; try (eexists; reflexivity).
  unfold bind at 1, lift at 1.
  destruct (py_getitem response (py "results")) as [results | e]; [| eexists; reflexivity].
  unfold bind at 1, lift at 1.
  destruct (py_iter results) as [items | e]; [| eexists; reflexivity].
  unfold bind at 1.
  destruct (mapM_pure exa_hit (fun _ => True) exa_hit_pure (fun _ _ _ _ _ => I) items st)
    as (o & -> & _).
  destruct o; eexists; reflexivity.
Qed.

Lemma web_futures_settle (query : pystr) (exa_available : bool) :
  Forall (fun pf => settles (snd (snd pf))) (web_futures W query exa_available).
Proof.
  unfold web_futures.
  apply Forall_app. split.
  - destruct exa_available; repeat constructor. cbn [snd]. apply search_exa_settles.
  - repeat constructor; cbn [snd]; intros st;
      unfold _search_google_massive, _search_serper_massive, _search_bing_massive,
        _search_duckduckgo_massive, try_except, lift, ret;
      match goal with
      | |- context [search_google W ?q ?n] => destruct (search_google W q n)
      | |- context [search_serper W ?q ?n] => destruct (search_serper W q n)
      | |- context [search_bing W ?q ?n] => destruct (search_bing W q n)
      | |- _ => idtac
      end; eexists; reflexivity.
Qed.

(** One turn of the loop: the provider's count [n] is recorded, its entry
    holds results of that length, and the total grows by [n]. *)
Lemma collect_provider_step (d : pydict) (total : Z) (provider : pystr) (late : bool)
  (task : M pyval) st :
  settles task ->
  provider ++ py "_results" <> py "total_web_sources" ->
  dict_lookup d (py "total_web_sources") = Some (PyInt total) ->
  exists d' n results,
    collect_provider (d, total) (provider, (late, task)) st
    = (Returned (d', total + n), set_source_by_provider provider n st)
    /\ py_len results = Returned n
    /\ dict_lookup d' (provider ++ py "_results") = Some results
    /\ dict_lookup d' (py "total_web_sources") = Some (PyInt (total + n))
    /\ (forall k, k <> provider ++ py "_results" -> k <> py "total_web_sources" ->
                  dict_lookup d' k = dict_lookup d k).
Proof.
  intros Hsettles Hkey Htotal.
  assert (exists d',
            (Returned (dict_set d (provider ++ py "_results") (PyList []), total),
             set_source_by_provider provider 0 st)
            = (Returned (d', total + 0), set_source_by_provider provider 0 st)
            /\ py_len (PyList []) = Returned 0
            /\ dict_lookup d' (provider ++ py "_results") = Some (PyList [])
            /\ dict_lookup d' (py "total_web_sources") = Some (PyInt (total + 0))
            /\ (forall k, k <> provider ++ py "_results" -> k <> py "total_web_sources" ->
                          dict_lookup d' k = dict_lookup d k)) as Hfail.
  { eexists. rewrite Z.add_0_r. split; [reflexivity |]. split; [reflexivity |].
    split; [apply dict_lookup_set_same |]. split.
    - rewrite dict_lookup_set_other by congruence. exact Htotal.
    - intros k Hk _. now apply dict_lookup_set_other. }
  unfold collect_provider, try_except, bind at 1, future_result.
  destruct (Hsettles st) as (v & ->).
  destruct late.
  { destruct Hfail as (d' & H). exists d', 0, (PyList []). exact H. }
  unfold bind at 1, lift at 1.
  destruct (py_len v) as [n | e] eqn:Hlen.
  2:{ destruct Hfail as (d' & H). exists d', 0, (PyList []). exact H. }
  eexists _, n, v. split; [reflexivity |]. split; [exact Hlen |]. split.
  - rewrite dict_lookup_set_other by exact Hkey. apply dict_lookup_set_same.
  - split; [apply dict_lookup_set_same |].
    intros k Hk Hk'. rewrite !dict_lookup_set_other by assumption. reflexivity.
Qed.

End WebCollection.

Section WebCollectionTotals.
Variable W : World.

Definition web_providers (with_exa : bool) : list pystr :=
  (if with_exa then [py "exa"] else [])
  ++ [py "google"; py "serper"; py "bing"; py "duckduckgo"].

Lemma web_futures_providers (query : pystr) (with_exa : bool) :
  map fst (web_futures W query with_exa) = web_providers with_exa.
Proof. destruct with_exa; reflexivity. Qed.

Lemma web_providers_distinct (with_exa : bool) :
  NoDup (web_providers with_exa)
  /\ Forall (fun p => p ++ py "_results" <> py "total_web_sources") (web_providers with_exa).
Proof.
  split.
  - destruct with_exa; cbn [web_providers app];
      repeat (constructor; [cbn [In]; intros H; vm_compute in H; intuition discriminate |]);
      constructor.
  - destruct with_exa; cbn [web_providers app];
      repeat (constructor; [intros H; vm_compute in H; discriminate H |]); constructor.
Qed.

(** What holds after the providers in [done] were collected, starting from
    the state [st0]. *)
Definition web_invariant (st0 : collection_stats)
  (done : list (pystr * (bool * M pyval))) (acc : pydict * Z) (st : collection_stats)
  : Prop :=
  let '(d, total) := acc in
  dict_lookup d (py "total_web_sources") = Some (PyInt total)
  /\ total = sum_Z (map (fun pf => assoc_get (sources_by_provider st) (fst pf)) done)
  /\ (forall pf, In pf done ->
        exists results,
          dict_lookup d (fst pf ++ py "_results") = Some results
          /\ py_len results = Returned (assoc_get (sources_by_provider st) (fst pf)))
  /\ same_social_and_content st0 st.

Lemma web_invariant_step (query : pystr) (with_exa : bool) st0
  done x rest acc st acc' st' :
  web_futures W query with_exa = done ++ x :: rest ->
  web_invariant st0 done acc st ->
  collect_provider acc x st = (Returned acc', st') ->
  web_invariant st0 (done ++ [x]) acc' st'.
Proof.
  intros Hsplit Hinv Hrun.
  destruct acc as [d total]. destruct x as [provider [late task]].
  destruct Hinv as (Htotal & Hsum & Hentries & Hframe).
  pose proof (web_futures_settle W query with_exa) as Hsettle.
  pose proof (web_providers_distinct with_exa) as [Hnodup Hkeys].
  rewrite <- (web_futures_providers query with_exa) in Hnodup, Hkeys.
  rewrite Hsplit in Hsettle, Hnodup, Hkeys.
  rewrite map_app in Hnodup, Hkeys. cbn [map fst] in Hnodup, Hkeys.
  apply Forall_app in Hsettle. destruct Hsettle as [_ Hsettle].
  apply Forall_inv in Hsettle. cbn [snd] in Hsettle.
  pose proof (NoDup_remove_2 _ _ _ Hnodup) as Hfresh.
  assert (~ In provider (map fst done)) as Hnew by (intros H; apply Hfresh, in_or_app; now left).
  apply Forall_app in Hkeys. destruct Hkeys as [Hkeys_done Hkey].
  apply Forall_inv in Hkey.
  destruct (@collect_provider_step d total provider late task st Hsettle Hkey Htotal)
    as (d' & n & results & Hstep & Hlen & Hentry & Htotal' & Hkeep).
  rewrite Hstep in Hrun. injection Hrun as <- <-.
  assert (forall pf, In pf done ->
            assoc_get (sources_by_provider (set_source_by_provider provider n st)) (fst pf)
            = assoc_get (sources_by_provider st) (fst pf)) as Hcounts.
  { intros pf Hin. cbn [set_source_by_provider sources_by_provider].
    apply assoc_get_set_other. intros Heq. apply Hnew. rewrite <- Heq.
    apply in_map, Hin. }
  unfold web_invariant. split; [exact Htotal' |]. split; [| split].
  - rewrite map_app, sum_Z_app. cbn [map fst sum_Z fold_right].
    rewrite (map_ext_in _ _ _ Hcounts), <- Hsum.
    cbn [set_source_by_provider sources_by_provider]. rewrite assoc_get_set_same. lia.
  - intros pf Hin. apply in_app_or in Hin. destruct Hin as [Hin | [<- | []]].
    + destruct (Hentries pf Hin) as (r & Hr & Hrlen).
      exists r. rewrite (Hcounts pf Hin). split; [| exact Hrlen].
      rewrite Hkeep; [exact Hr | |].
      * intros Heq. apply app_inv_tail in Heq. apply Hnew. rewrite <- Heq.
        apply in_map, Hin.
      * rewrite Forall_forall in Hkeys_done. apply Hkeys_done, in_map, Hin.
    + exists results. cbn [fst set_source_by_provider sources_by_provider].
      rewrite assoc_get_set_same. now split.
  - exact Hframe.
Qed.

(** What the web collection leaves in its result and in the statistics. *)
Lemma web_collection_outcome
  (query : pystr) (context : pyval) (session_id : pystr)
  (st st' : collection_stats) (web_data : pyval) :
  _collect_massive_web_data W query context session_id st = (Returned web_data, st') ->
  exists d total available,
    exa_is_available W = Returned available
    /\ web_data = PyDict d
    /\ dict_lookup d (py "total_web_sources") = Some (PyInt total)
    /\ web_sources st' = total
    /\ total = sum_Z (map (assoc_get (sources_by_provider st'))
                          (web_providers (truthy available)))
    /\ (forall provider, In provider (web_providers (truthy available)) ->
          exists results,
            dict_lookup d (provider ++ py "_results") = Some results
            /\ py_len results = Returned (assoc_get (sources_by_provider st') provider))
    /\ same_social_and_content st st'.
Proof.
  rewrite collect_massive_web_data_loop. intros H.
  lift_step H. bind_step H. destruct v0 as [d total].
  bind_step H. cbv [modify] in E1. injection E1 as <- <-.
  bind_step H. unfold call in E1.
  destruct (salvar_etapa W (py "web_data_massive")); [discriminate E1 |].
  cbv [ret] in E1, H. injection E1 as <- <-. injection H as <- <-.
  pose proof (@foldM_invariant_split _ _ collect_provider (web_invariant st)
                (web_futures W query (truthy v))
                (fun done x rest acc s acc' s' =>
                   @web_invariant_step query (truthy v) st done x rest acc s acc' s')
                (empty_web_results, 0) st (d, total) s) as Hloop.
  destruct Hloop as (Htotal & Hsum & Hentries & Hframe); [| exact E0 |].
  { unfold web_invariant. split; [reflexivity |]. split; [reflexivity |].
    split; [intros pf [] |]. repeat split. }
  exists d, total, v. split; [exact E |]. split; [reflexivity |]. split; [exact Htotal |].
  split; [reflexivity |]. split; [| split].
  - cbn [set_web_sources sources_by_provider].
    rewrite <- (web_futures_providers query (truthy v)), map_map. exact Hsum.
  - intros provider Hin. rewrite <- (web_futures_providers query (truthy v)) in Hin.
    apply in_map_iff in Hin. destruct Hin as (pf & <- & Hin).
    exact (Hentries pf Hin).
  - exact Hframe.
Qed.

(** X3: when the web collection returns, the availability check of Exa has
    returned, and the providers that ran are Google, Serper, Bing and
    DuckDuckGo, preceded by Exa exactly when the check returned a true value.
    The total the collection reports and stores in [web_sources] is the sum
    of the counts it recorded for these providers, each provider's entry holds
    results of the recorded length (the empty list and 0 for a provider that
    failed or was late), and the social, YouTube and content statistics are
    as before. *)
Theorem web_collection_totals
  (query : pystr) (context : pyval) (session_id : pystr)
  (st st' : collection_stats) (web_data : pyval) :
  _collect_massive_web_data W query context session_id st = (Returned web_data, st') ->
  exists d total available,
    exa_is_available W = Returned available
    /\ web_data = PyDict d
    /\ dict_lookup d (py "total_web_sources") = Some (PyInt total)
    /\ web_sources st' = total
    /\ total = sum_Z (map (assoc_get (sources_by_provider st'))
                          (web_providers (truthy available)))
    /\ (forall provider, In provider (web_providers (truthy available)) ->
          exists results,
            dict_lookup d (provider ++ py "_results") = Some results
            /\ py_len results = Returned (assoc_get (sources_by_provider st') provider))
    /\ same_social_and_content st st'.
Proof. apply web_collection_outcome. Qed.

End WebCollectionTotals.

Lemma web_collection_totals_witness :
  exists web_data st',
    _collect_massive_web_data busy_world (py "mercado de cursos") (PyDict [])
                              (py "sessao-0001") __init__
    = (Returned web_data, st')
    /\ exists d total available,
         exa_is_available busy_world = Returned available
         /\ web_data = PyDict d
         /\ dict_lookup d (py "total_web_sources") = Some (PyInt total)
         /\ web_sources st' = total
         /\ total = sum_Z (map (assoc_get (sources_by_provider st'))
                               (web_providers (truthy available)))
         /\ (forall provider, In provider (web_providers (truthy available)) ->
               exists results,
                 dict_lookup d (provider ++ py "_results") = Some results
                 /\ py_len results = Returned (assoc_get (sources_by_provider st') provider))
         /\ same_social_and_content __init__ st'.
Proof.
  destruct (_collect_massive_web_data busy_world (py "mercado de cursos") (PyDict [])
                                      (py "sessao-0001") __init__)
    as [[web_data | e] st'] eqn:E.
  - exists web_data, st'. split; [reflexivity |].
    exact (@web_collection_totals busy_world _ _ _ _ _ _ E).
  - vm_compute in E. discriminate E.
Defined.

(** ** The social collection *)

Definition same_web_and_content (st st' : collection_stats) : Prop :=
  web_sources st' = web_sources st
  /\ total_content_chars st' = total_content_chars st
  /\ extraction_time st' = extraction_time st
  /\ sources_by_provider st' = sources_by_provider st
  /\ quality_scores st' = quality_scores st.

(** No platform name makes [<platform>_data] the key of the total. *)
Lemma platform_key_not_total (platform : pystr) :
  py "total_social_sources" <> platform ++ py "_data".
Proof.
  intros H. apply (f_equal (@rev N)) in H. rewrite rev_app_distr in H.
  vm_compute in H. discriminate H.
Qed.

Section SocialTotals.
Variable W : World.

(** One turn of the collecting loop: the number of items counted, and where
    it was added. *)
Lemma collect_platform_counts (query : pystr) (d : pydict) (t : Z) (platform : pystr) st :
  dict_lookup d (py "total_social_sources") = Some (PyInt t) ->
  exists d' c st',
    collect_platform W query (d, t) platform st = (Returned (d', t + c), st')
    /\ 0 <= c
    /\ dict_lookup d' (py "total_social_sources") = Some (PyInt (t + c))
    /\ social_sources st'
       = social_sources st + (if pystr_eqb platform (py "youtube") then 0 else c)
    /\ youtube_sources st'
       = youtube_sources st + (if pystr_eqb platform (py "youtube") then c else 0)
    /\ same_web_and_content st st'.
Proof.
  intros Htotal.
  pose proof (platform_key_not_total platform) as Hkey.
  assert (forall v, exists d' c st',
            (Returned (dict_set d (platform ++ py "_data") v, t), st)
            = (Returned (d', t + c), st')
            /\ 0 <= c
            /\ dict_lookup d' (py "total_social_sources") = Some (PyInt (t + c))
            /\ social_sources st'
               = social_sources st + (if pystr_eqb platform (py "youtube") then 0 else c)
            /\ youtube_sources st'
               = youtube_sources st + (if pystr_eqb platform (py "youtube") then c else 0)
            /\ same_web_and_content st st') as Hnone.
  { intros v. exists (dict_set d (platform ++ py "_data") v), 0, st.
    rewrite Z.add_0_r. split; [reflexivity |]. split; [lia |].
    split; [rewrite dict_lookup_set_other by exact Hkey; exact Htotal |].
    split; [destruct (pystr_eqb platform (py "youtube")); lia |].
    split; [destruct (pystr_eqb platform (py "youtube")); lia |].
    repeat split. }
  unfold collect_platform, try_except, bind at 1, future_result.
  destruct (search_social_platform_returns W platform query st) as (results & ->).
  destruct (calls_adapter platform && late_social W platform); [apply Hnone |].
  unfold bind at 1, lift at 1.
  destruct (py_get results (py "results") PyNone) as [found | e]; [| apply Hnone].
  destruct (truthy found); [| apply Hnone].
  unfold bind at 1, lift at 1.
  destruct (py_getitem results (py "results")) as [items | e]; [| apply Hnone].
  unfold bind at 1, lift at 1.
  assert (forall count, py_len items = Returned count -> 0 <= count) as Hcount.
  { destruct items; cbn; intros count Hc; try discriminate; injection Hc as <-; lia. }
  destruct (py_len items) as [count | e]; [| apply Hnone].
  specialize (Hcount count eq_refl).
  destruct (pystr_eqb platform (py "youtube"));
    (eexists; exists count; eexists; split; [reflexivity |]; split; [exact Hcount |];
     split; [apply dict_lookup_set_same |];
     split; [cbn; lia |]; split; [cbn; lia |]; repeat split).
Qed.

Definition social_invariant (st0 : collection_stats)
  (acc : pydict * Z) (st : collection_stats) : Prop :=
  let '(d, total) := acc in
  dict_lookup d (py "total_social_sources") = Some (PyInt total)
  /\ 0 <= total
  /\ social_sources st0 <= social_sources st
  /\ youtube_sources st0 <= youtube_sources st
  /\ social_sources st + youtube_sources st
     = social_sources st0 + youtube_sources st0 + total
  /\ same_web_and_content st0 st.

(** How the social collection ends, and what it leaves in the statistics. *)
Lemma social_collection_outcome
  (query : pystr) (context : pyval) (session_id : pystr) (st : collection_stats) :
  exists d total st',
    _collect_massive_social_data W query context session_id st
    = (match salvar_etapa W (py "social_data_massive") with
       | None => Returned (PyDict d)
       | Some e => Raised e
       end, st')
    /\ dict_lookup d (py "total_social_sources") = Some (PyInt total)
    /\ 0 <= total
    /\ social_sources st <= social_sources st'
    /\ youtube_sources st <= youtube_sources st'
    /\ social_sources st' + youtube_sources st'
       = social_sources st + youtube_sources st + total
    /\ same_web_and_content st st'.
Proof.
  destruct (@foldM_returns _ _ (collect_platform W query)) with
    (l := platforms) (acc := (empty_social_results, 0)) (st := st)
    as ([d total] & st' & Hloop).
  { intros [d0 t0] platform s.
    destruct (collect_platform_step W query d0 t0 platform s) as (d' & t' & s' & H & _).
    now exists (d', t'), s'. }
  assert (social_invariant st (d, total) st') as Hinv.
  { apply (@foldM_invariant _ _ (collect_platform W query)
             (fun _ => social_invariant st)) with
      (l := platforms) (done := []) (acc := (empty_social_results, 0)) (st := st).
    - intros _ platform [d0 t0] s [d1 t1] s1 (Ht & Hpos & Hs & Hy & Hsum & Hframe) Hrun.
      destruct (@collect_platform_counts query d0 t0 platform s Ht)
        as (d' & c & s' & Hstep & Hc & Ht' & Hs' & Hy' & Hframe').
      rewrite Hstep in Hrun. injection Hrun as <- <- <-.
      unfold social_invariant. split; [exact Ht' |]. split; [lia |].
      destruct Hframe as (F1 & F2 & F3 & F4 & F5).
      destruct Hframe' as (G1 & G2 & G3 & G4 & G5).
      destruct (pystr_eqb platform (py "youtube"));
        (split; [lia |]; split; [lia |]; split; [lia |];
         repeat split; congruence).
    - unfold social_invariant. split; [reflexivity |]. repeat split; lia.
    - exact Hloop. }
  destruct Hinv as (Ht & Hpos & Hs & Hy & Hsum & Hframe).
  exists d, total, st'. split.
  - unfold _collect_massive_social_data, bind at 1. rewrite Hloop.
    unfold bind, call. destruct (salvar_etapa W (py "social_data_massive")); reflexivity.
  - repeat split; try assumption; apply Hframe.
Qed.

(** X4: the social collection raises only what the intermediate save raises.
    In either case the statistics hold this: the two counters of social and
    YouTube sources have grown, together, by exactly the total the collection
    reports under [total_social_sources]; neither has decreased; the web,
    character, provider and quality statistics are as before. *)
Theorem social_collection_totals
  (query : pystr) (context : pyval) (session_id : pystr) (st : collection_stats) :
  exists d total st',
    _collect_massive_social_data W query context session_id st
    = (match salvar_etapa W (py "social_data_massive") with
       | None => Returned (PyDict d)
       | Some e => Raised e
       end, st')
    /\ dict_lookup d (py "total_social_sources") = Some (PyInt total)
    /\ 0 <= total
    /\ social_sources st <= social_sources st'
    /\ youtube_sources st <= youtube_sources st'
    /\ social_sources st' + youtube_sources st'
       = social_sources st + youtube_sources st + total
    /\ same_web_and_content st st'.
Proof. apply social_collection_outcome. Qed.

End SocialTotals.

(** ** The deep navigation *)

Section WebSailor.
Variable W : World.

(** X5: the deep navigation never raises and never changes the statistics.
    It returns what the navigator returned (asked for 50 pages, 3 levels) only
    when the intermediate save succeeds too; when the navigator or the save
    raises it returns the empty dictionary, and the empty dictionary adds no
    URL to the extraction pool. *)
Theorem websailor_failure_contributes_nothing
  (query : pystr) (context : pyval) (session_id : pystr) (st : collection_stats) :
  _collect_websailor_deep_data W query context session_id st
  = (Returned
       match navigate_and_research_deep W query context 50 3 session_id,
             salvar_etapa W (py "websailor_data_massive") with
       | Returned websailor_results, None => websailor_results
       | _, _ => PyDict []
       end, st)
  /\ (forall all_urls st0,
        harvest_websailor (PyDict []) all_urls st0 = (Returned all_urls, st0)).
Proof.
  split.
  - unfold _collect_websailor_deep_data, try_except, bind, lift, call.
    destruct (navigate_and_research_deep W query context 50 3 session_id);
      [destruct (salvar_etapa W (py "websailor_data_massive")) |]; reflexivity.
  - reflexivity.
Qed.

End WebSailor.

(** ** One extraction task, on any input *)

Section SingleExtractionTotal.
Context {R : Runtime}.
Variable W : World.

Lemma capped_sum_bounds (text : pystr) (tag : pyval) :
  10 <= Z.min (size_component (Z.of_nat (length text))
               + density_component (word_count text)
               + evidence_component (numeric_tokens text) (currency_tokens text)
               + trust_component tag) 100 <= 95.
Proof.
  pose proof (size_component_bounds (Z.of_nat (length text))).
  pose proof (density_component_bounds (word_count text)).
  pose proof (@evidence_component_bounds (numeric_tokens text) (currency_tokens text)
                (Nat2Z.is_nonneg _) (Nat2Z.is_nonneg _)).
  pose proof (trust_component_bounds tag).
  lia.
Qed.

(** What one extraction task does, on any input. *)
Lemma extract_single_content_outcome
  (url_data : pyval) (index : nat) (st : collection_stats) :
  _extract_single_content W url_data index st = (Returned PyNone, st)
  \/ exists task url text document q,
       url_data = PyDict task
       /\ dict_lookup task (py "url") = Some url
       /\ extract_content W url = Returned (PyStr text)
       /\ 200 < Z.of_nat (length text)
       /\ _extract_single_content W url_data index st
          = (Returned (PyDict document), append_quality_score q st)
       /\ 10 <= q <= 95
       /\ dict_lookup document (py "success") = Some (PyBool true)
       /\ dict_lookup document (py "url") = Some url
       /\ dict_lookup document (py "content") = Some (PyStr text)
       /\ dict_lookup document (py "content_length")
          = Some (PyInt (Z.of_nat (length text)))
       /\ dict_lookup document (py "quality_score") = Some (PyFloat (inject_Z q)).
Proof.
  destruct url_data as [| b | z | q | s | l | task]; try (left; reflexivity).
  remember (_extract_single_content W (PyDict task) index st) as run eqn:Hrun.
  unfold _extract_single_content, try_except, bind at 1, lift at 1 in Hrun.
  cbn [py_getitem] in Hrun.
  destruct (dict_lookup task (py "url")) as [url |] eqn:Hurl; [| left; exact Hrun].
  unfold bind at 1, lift at 1 in Hrun.
  destruct (extract_content W url) as [content | e] eqn:Hfetch; [| left; exact Hrun].
  unfold bind at 1 in Hrun.
  destruct content as [| b | z | q | text | l | d].
  - left; exact Hrun.
  - destruct b; left; exact Hrun.
  - destruct (truthy (PyInt z)); left; exact Hrun.
  - destruct (truthy (PyFloat q)); left; exact Hrun.
  - destruct (truthy (PyStr text)); [| left; exact Hrun].
    unfold bind at 1, lift at 1 in Hrun. cbn [py_len] in Hrun. unfold ret at 1 in Hrun.
    destruct (200 <? Z.of_nat (length text)) eqn:Hlong; [| left; exact Hrun].
    apply Z.ltb_lt in Hlong. right.
    unfold bind at 1 in Hrun. rewrite calculate_content_quality_eq in Hrun.
    exists task, url, text. do 2 eexists.
    split; [reflexivity |]. split; [exact Hurl |]. split; [exact Hfetch |].
    split; [exact Hlong |]. split; [exact Hrun |].
    split; [apply capped_sum_bounds |].
    repeat split; reflexivity.
  - destruct (truthy (PyList l)); [| left; exact Hrun].
    unfold bind at 1, lift at 1 in Hrun. cbn [py_len] in Hrun. unfold ret at 1 in Hrun.
    destruct (200 <? Z.of_nat (length l)); left; exact Hrun.
  - destruct (truthy (PyDict d)); [| left; exact Hrun].
    unfold bind at 1, lift at 1 in Hrun. cbn [py_len] in Hrun. unfold ret at 1 in Hrun.
    destruct (200 <? Z.of_nat (length d)); left; exact Hrun.
Qed.

(** X6: an extraction task never raises, whatever it is given (a task that is
    not a dictionary or has no [url], an extractor that raises or returns
    something that is not a text).  Either it yields [None] and leaves the
    statistics alone, or the extractor returned a text of more than 200
    characters for the task's URL and it yields a document flagged
    [success] that holds this URL, the text and its length, while exactly one
    quality score, between 10 and 95 and equal to the document's
    [quality_score], is appended to the statistics. *)
Theorem extract_single_content_total
  (url_data : pyval) (index : nat) (st : collection_stats) :
  _extract_single_content W url_data index st = (Returned PyNone, st)
  \/ exists task url text document q,
       url_data = PyDict task
       /\ dict_lookup task (py "url") = Some url
       /\ extract_content W url = Returned (PyStr text)
       /\ 200 < Z.of_nat (length text)
       /\ _extract_single_content W url_data index st
          = (Returned (PyDict document), append_quality_score q st)
       /\ 10 <= q <= 95
       /\ dict_lookup document (py "success") = Some (PyBool true)
       /\ dict_lookup document (py "url") = Some url
       /\ dict_lookup document (py "content") = Some (PyStr text)
       /\ dict_lookup document (py "content_length")
          = Some (PyInt (Z.of_nat (length text)))
       /\ dict_lookup document (py "quality_score") = Some (PyFloat (inject_Z q)).
Proof. apply extract_single_content_outcome. Qed.

End SingleExtractionTotal.

(** ** Documents by source *)









Section Categories.






End Categories.



(** ** Computations that leave the statistics alone *)

Definition stateless {A} (m : M A) : Prop := forall st, snd (m st) = st.

Lemma stateless_inv {A} (m : M A) st o st' : stateless m -> m st = (o, st') -> st' = st.
Proof. intros Hm H. specialize (Hm st). rewrite H in Hm. exact Hm. Qed.

Lemma stateless_ret {A} (a : A) : stateless (ret a).
Proof. intros st. reflexivity. Qed.

Lemma stateless_lift {A} (o : outcome A) : stateless (lift o).
Proof. intros st. reflexivity. Qed.

Lemma stateless_raise {A} (e : exn) : stateless (@raise A e).
Proof. intros st. reflexivity. Qed.

Lemma stateless_bind {A B} (m : M A) (k : A -> M B) :
  stateless m -> (forall a, stateless (k a)) -> stateless (bind m k).
Proof.
  intros Hm Hk st. unfold bind. specialize (Hm st).
  destruct (m st) as [[a | e] st1]; cbn [snd] in Hm; subst st1; [apply Hk | reflexivity].
Qed.

Lemma stateless_foldM {A B} (body : B -> A -> M B) :
  (forall acc x, stateless (body acc x)) -> forall l acc, stateless (foldM body acc l).
Proof.
  intros Hbody l. induction l as [| x l IH]; intros acc; cbn [foldM].
  - apply stateless_ret.
  - apply stateless_bind; [apply Hbody | intros acc'; apply IH].
Qed.

Ltac stateless :=
  repeat first
    [ apply stateless_ret
    | apply stateless_lift
    | apply stateless_raise
    | apply stateless_bind; [| intros ?]
    | apply stateless_foldM; intros ? ?
    | match goal with
      | |- stateless (match ?v with _ => _ end) => destruct v
      end ].

Lemma harvest_web_stateless (web_data : pyval) : stateless (harvest_web web_data).
Proof. unfold harvest_web, py_values. stateless. Qed.

Lemma harvest_social_stateless (social_data : pyval) (all_urls : list pyval) :
  stateless (harvest_social social_data all_urls).
Proof. unfold harvest_social, py_values. stateless. Qed.

Lemma harvest_websailor_stateless (websailor_data : pyval) (all_urls : list pyval) :
  stateless (harvest_websailor websailor_data all_urls).
Proof. unfold harvest_websailor. stateless. Qed.

Lemma categorize_sources_stateless (extracted_content : list pyval) :
  stateless (_categorize_sources extracted_content).
Proof. unfold _categorize_sources. stateless. Qed.

(** ** The extraction pool *)

(** A document as the extraction tasks build it. *)
Definition is_document (v : pyval) : Prop :=
  exists document text,
    v = PyDict document
    /\ dict_lookup document (py "success") = Some (PyBool true)
    /\ dict_lookup document (py "content") = Some (PyStr text)
    /\ 200 < Z.of_nat (length text).

(** [len(content_data.get('content', ''))], 0 where it is not defined. *)
Definition doc_chars (v : pyval) : Z :=
  match py_get v (py "content") (PyStr []) with
  | Returned content => match py_len content with
                        | Returned n => n
                        | Raised _ => 0
                        end
  | Raised _ => 0
  end.

Definition same_sources (st st' : collection_stats) : Prop :=
  web_sources st' = web_sources st
  /\ social_sources st' = social_sources st
  /\ youtube_sources st' = youtube_sources st
  /\ extraction_time st' = extraction_time st
  /\ sources_by_provider st' = sources_by_provider st.

Section ExtractionPool.
Context {R : Runtime}.
Variable W : World.

(** One turn of the collecting loop of [_extract_massive_content]. *)
Definition collect_extraction (extracted_content : list pyval) (task : nat * pyval)
  : M (list pyval) :=
  let '(i, url_data) := task in
  kept <- try_except
            (content_data <- future_result (late_extraction W i)
                               (_extract_single_content W url_data i) ;;
             if truthy content_data
             then success <- lift (py_get content_data (py "success") PyNone) ;;
                  ret (if truthy success then Some content_data else None)
             else ret None)
            (fun _ => ret None) ;;
  match kept with
  | Some content_data =>
      try_except
        (content <- lift (py_get content_data (py "content") (PyStr [])) ;;
         n <- lift (py_len content) ;;
         modify (add_total_content_chars n) ;;;
         call (salvar_etapa W (py "extracao_" ++ str_int (Z.of_nat i))))
        (fun _ => ret tt) ;;;
      ret (extracted_content ++ [content_data])
  | None => ret extracted_content
  end.

Lemma extract_massive_content_loop (web_data social_data websailor_data : pyval)
  (session_id : pystr) :
  _extract_massive_content W web_data social_data websailor_data session_id
  = (all_urls <- harvest_web web_data ;;
     all_urls <- harvest_social social_data all_urls ;;
     all_urls <- harvest_websailor websailor_data all_urls ;;
     extracted_content <-
       foldM collect_extraction [] (enumerate_from 0 (firstn 100 all_urls)) ;;
     rate <- lift (extraction_success_rate all_urls extracted_content) ;;
     st <- get_stats ;;
     avg <- lift (avg_content_length (total_content_chars st) extracted_content) ;;
     sources_by_type <- _categorize_sources extracted_content ;;
     call (salvar_etapa W (py "extracao_massiva_completa")) ;;;
     ret (PyDict
            [(py "total_urls_found", PyInt (Z.of_nat (length all_urls)));
             (py "total_content_extracted", PyInt (Z.of_nat (length extracted_content)));
             (py "extraction_success_rate", rate);
             (py "extracted_content", PyList extracted_content);
             (py "extraction_stats",
              PyDict [(py "total_chars", PyInt (total_content_chars st));
                      (py "avg_content_length", avg);
                      (py "sources_by_type", sources_by_type)])])).
Proof. reflexivity. Qed.

(** A turn never raises.  It drops the task and changes nothing; or drops it
    after its score was recorded (the wait on the task expired); or keeps its
    document, with the score recorded and the length of the content added to
    the character total. *)
Lemma collect_extraction_step (extracted_content : list pyval) (i : nat)
  (url_data : pyval) (st : collection_stats) :
  collect_extraction extracted_content (i, url_data) st = (Returned extracted_content, st)
  \/ (exists q,
        10 <= q <= 95
        /\ collect_extraction extracted_content (i, url_data) st
           = (Returned extracted_content, append_quality_score q st))
  \/ (exists q document,
        10 <= q <= 95
        /\ is_document document
        /\ 0 <= doc_chars document
        /\ collect_extraction extracted_content (i, url_data) st
           = (Returned (extracted_content ++ [document]),
              add_total_content_chars (doc_chars document) (append_quality_score q st))).
Proof.
  unfold collect_extraction.
  match goal with
  | |- bind ?m ?k st = _ \/ _ => remember m as keep eqn:Hkeep; remember k as rest eqn:Hrest
  end.
  destruct (extract_single_content_outcome W url_data i st)
    as [Hnone | (task & url & text & document & q & _ & _ & _ & Hlong & Hrun & Hq
                 & Hsuccess & _ & Hcontent & _)].
  - left.
    assert (keep st = (Returned None, st)) as Hkept.
    { subst keep. unfold try_except, bind, future_result. rewrite Hnone.
      destruct (late_extraction W i); reflexivity. }
    unfold bind. rewrite Hkept. subst rest. reflexivity.
  - right. destruct (late_extraction W i) eqn:Hlate.
    + left. exists q. split; [exact Hq |].
      assert (keep st = (Returned None, append_quality_score q st)) as Hkept.
      { subst keep. unfold try_except, bind, future_result. rewrite Hrun, ?Hlate.
        reflexivity. }
      unfold bind. rewrite Hkept. subst rest. reflexivity.
    + right. exists q, (PyDict document).
      assert (doc_chars (PyDict document) = Z.of_nat (length text)) as Hchars.
      { unfold doc_chars. cbn [py_get]. rewrite Hcontent. reflexivity. }
      split; [exact Hq |]. split; [now exists document, text |].
      split; [rewrite Hchars; lia |].
      assert (truthy (PyDict document) = true) as Htruthy.
      { destruct document; [discriminate Hsuccess | reflexivity]. }
      assert (keep st = (Returned (Some (PyDict document)), append_quality_score q st))
        as Hkept.
      { subst keep. unfold try_except, bind at 1, future_result. rewrite Hrun, ?Hlate.
        rewrite Htruthy. unfold bind, lift, ret. cbn [py_get]. rewrite Hsuccess.
        reflexivity. }
      unfold bind at 1. rewrite Hkept. subst rest.
      unfold try_except, bind at 2, lift at 1. cbn [py_get]. rewrite Hcontent.
      unfold bind at 2, lift at 1. cbn [py_len].
      unfold bind at 2, modify. rewrite Hchars.
      unfold bind, call.
      destruct (salvar_etapa W (py "extracao_" ++ str_int (Z.of_nat i))); reflexivity.
Qed.

End ExtractionPool.

Lemma enumerate_from_length {A} (l : list A) (i : nat) :
  length (enumerate_from i l) = length l.
Proof. revert i. induction l as [| x l IH]; intros i; cbn; [reflexivity | now rewrite IH]. Qed.

Section ExtractionTotals.
Context {R : Runtime}.
Variable W : World.

(** What holds after the tasks in [done] were waited for, starting from the
    state [st0]. *)
Definition pool_invariant (st0 : collection_stats) (done : list (nat * pyval))
  (acc : list pyval) (st : collection_stats) : Prop :=
  Forall is_document acc
  /\ total_content_chars st = total_content_chars st0 + sum_Z (map doc_chars acc)
  /\ (exists new_scores,
        quality_scores st = quality_scores st0 ++ new_scores
        /\ (length acc <= length new_scores <= length done)%nat
        /\ Forall (fun q => 10 <= q <= 95) new_scores)
  /\ same_sources st0 st.

Lemma pool_invariant_step (st0 : collection_stats) done task acc st acc' st' :
  pool_invariant st0 done acc st ->
  collect_extraction W acc task st = (Returned acc', st') ->
  pool_invariant st0 (done ++ [task]) acc' st'.
Proof.
  intros (Hdocs & Hchars & (new_scores & Hscores & Hlen & Hrange) & Hframe) Hrun.
  destruct task as [i url_data].
  destruct (collect_extraction_step W acc i url_data st)
    as [Hstep | [(q & Hq & Hstep) | (q & document & Hq & Hdoc & Hpos & Hstep)]];
    rewrite Hstep in Hrun; injection Hrun as <- <-.
  - split; [exact Hdocs |]. split; [exact Hchars |]. split; [| exact Hframe].
    exists new_scores. split; [exact Hscores |]. split; [| exact Hrange].
    rewrite length_app. cbn [length]. lia.
  - split; [exact Hdocs |]. split; [exact Hchars |]. split; [| exact Hframe].
    exists (new_scores ++ [q]). cbn [append_quality_score quality_scores].
    split; [now rewrite Hscores, app_assoc |]. split.
    + rewrite !length_app. cbn [length]. lia.
    + apply Forall_app. split; [exact Hrange | now constructor].
  - split; [apply Forall_app; split; [exact Hdocs | now constructor] |].
    split.
    { cbn [add_total_content_chars append_quality_score total_content_chars].
      rewrite map_app, sum_Z_app, Hchars. cbn [map sum_Z fold_right]. lia. }
    split; [| exact Hframe].
    exists (new_scores ++ [q]).
    cbn [add_total_content_chars append_quality_score quality_scores].
    split; [now rewrite Hscores, app_assoc |]. split.
    + rewrite !length_app. cbn [length]. lia.
    + apply Forall_app. split; [exact Hrange | now constructor].
Qed.

(** What the extraction phase leaves in its result and in the statistics. *)
Lemma extraction_pool_outcome
  (web_data social_data websailor_data : pyval) (session_id : pystr)
  (st st' : collection_stats) (result : pyval) :
  _extract_massive_content W web_data social_data websailor_data session_id st
  = (Returned result, st') ->
  exists d found documents new_scores,
    result = PyDict d
    /\ dict_lookup d (py "total_urls_found") = Some (PyInt (Z.of_nat found))
    /\ dict_lookup d (py "total_content_extracted")
       = Some (PyInt (Z.of_nat (length documents)))
    /\ dict_lookup d (py "extracted_content") = Some (PyList documents)
    /\ (length documents <= Nat.min 100 found)%nat
    /\ Forall is_document documents
    /\ total_content_chars st'
       = total_content_chars st + sum_Z (map doc_chars documents)
    /\ quality_scores st' = quality_scores st ++ new_scores
    /\ (length documents <= length new_scores <= Nat.min 100 found)%nat
    /\ Forall (fun q => 10 <= q <= 95) new_scores
    /\ same_sources st st'.
Proof.
  rewrite extract_massive_content_loop. intros H.
  apply bind_inv in H. destruct H as (urls1 & s1 & Hweb & H).
  pose proof (@stateless_inv _ _ _ _ _ (harvest_web_stateless web_data) Hweb) as ->.
  apply bind_inv in H. destruct H as (urls2 & s2 & Hsocial & H).
  pose proof (@stateless_inv _ _ _ _ _ (harvest_social_stateless social_data urls1) Hsocial) as ->.
  apply bind_inv in H. destruct H as (all_urls & s3 & Hsailor & H).
  pose proof (@stateless_inv _ _ _ _ _ (harvest_websailor_stateless websailor_data urls2) Hsailor) as ->.
  apply bind_inv in H. destruct H as (documents & s4 & Hloop & H).
  apply bind_inv in H. destruct H as (rate & s5 & Hrate & H).
  apply lift_inv in Hrate. destruct Hrate as [_ ->].
  apply bind_inv in H. destruct H as (stats & s6 & Hstats & H).
  cbv [get_stats] in Hstats. injection Hstats as <- <-.
  apply bind_inv in H. destruct H as (avg & s7 & Havg & H).
  apply lift_inv in Havg. destruct Havg as [_ ->].
  apply bind_inv in H. destruct H as (sources_by_type & s8 & Hsources & H).
  pose proof (@stateless_inv _ _ _ _ _ (categorize_sources_stateless documents) Hsources) as ->.
  apply bind_inv in H. destruct H as (u & s9 & Hsave & H).
  unfold call in Hsave.
  destruct (salvar_etapa W (py "extracao_massiva_completa")); [discriminate Hsave |].
  cbv [ret] in Hsave, H. injection Hsave as _ <-. injection H as <- <-.
  assert (pool_invariant st (enumerate_from 0 (firstn 100 all_urls)) documents s4) as Hinv.
  { apply (@foldM_invariant _ _ (collect_extraction W) (pool_invariant st)) with
      (l := enumerate_from 0 (firstn 100 all_urls)) (done := [])
      (acc := @nil pyval) (st := st).
    - intros done task acc s acc' s'. apply pool_invariant_step.
    - split; [constructor |]. split; [cbn; lia |]. split; [| repeat split].
      exists []. rewrite app_nil_r. split; [reflexivity |]. split; [cbn; lia | constructor].
    - exact Hloop. }
  destruct Hinv as (Hdocs & Hchars & (new_scores & Hscores & Hlen & Hrange) & Hframe).
  rewrite enumerate_from_length, length_firstn in Hlen.
  eexists. exists (length all_urls), documents, new_scores.
  split; [reflexivity |]. split; [reflexivity |]. split; [reflexivity |].
  split; [reflexivity |]. split; [lia |]. split; [exact Hdocs |].
  split; [exact Hchars |]. split; [exact Hscores |]. split; [lia |].
  split; [exact Hrange | exact Hframe].
Qed.

(** X7: when the extraction phase returns, at most 100 documents were
    extracted, and no more than URLs were found; the result reports the number
    of URLs found and the documents with their number; each document is
    flagged [success] and holds a text of more than 200 characters.  The
    character total has grown by exactly the lengths of these texts; at least
    one quality score per document, and at most 100 scores, all between 10
    and 95, were appended; the source counters are unchanged. *)
Theorem extraction_pool_bounds
  (web_data social_data websailor_data : pyval) (session_id : pystr)
  (st st' : collection_stats) (result : pyval) :
  _extract_massive_content W web_data social_data websailor_data session_id st
  = (Returned result, st') ->
  exists d found documents new_scores,
    result = PyDict d
    /\ dict_lookup d (py "total_urls_found") = Some (PyInt (Z.of_nat found))
    /\ dict_lookup d (py "total_content_extracted")
       = Some (PyInt (Z.of_nat (length documents)))
    /\ dict_lookup d (py "extracted_content") = Some (PyList documents)
    /\ (length documents <= Nat.min 100 found)%nat
    /\ Forall is_document documents
    /\ total_content_chars st'
       = total_content_chars st + sum_Z (map doc_chars documents)
    /\ quality_scores st' = quality_scores st ++ new_scores
    /\ (length documents <= length new_scores <= Nat.min 100 found)%nat
    /\ Forall (fun q => 10 <= q <= 95) new_scores
    /\ same_sources st st'.
Proof. apply extraction_pool_outcome. Qed.

End ExtractionTotals.

Lemma extraction_pool_bounds_witness :
  exists result st',
    @_extract_massive_content ascii_runtime busy_world
      (PyDict [(py "google_results", one_google_hit); (py "total_web_sources", PyInt 1)])
      (PyDict []) (PyDict []) (py "sessao-0001") __init__
    = (Returned result, st')
    /\ exists d found documents new_scores,
         result = PyDict d
         /\ dict_lookup d (py "total_urls_found") = Some (PyInt (Z.of_nat found))
         /\ dict_lookup d (py "total_content_extracted")
            = Some (PyInt (Z.of_nat (length documents)))
         /\ dict_lookup d (py "extracted_content") = Some (PyList documents)
         /\ (length documents <= Nat.min 100 found)%nat
         /\ Forall is_document documents
         /\ total_content_chars st'
            = total_content_chars __init__ + sum_Z (map doc_chars documents)
         /\ quality_scores st' = quality_scores __init__ ++ new_scores
         /\ (length documents <= length new_scores <= Nat.min 100 found)%nat
         /\ Forall (fun q => 10 <= q <= 95) new_scores
         /\ same_sources __init__ st'.
Proof.
  destruct (@_extract_massive_content ascii_runtime busy_world
              (PyDict [(py "google_results", one_google_hit);
                       (py "total_web_sources", PyInt 1)])
              (PyDict []) (PyDict []) (py "sessao-0001") __init__)
    as [[result | e] st'] eqn:E.
  - exists result, st'. split; [reflexivity |].
    exact (@extraction_pool_bounds ascii_runtime busy_world _ _ _ _ _ _ _ E).
  - vm_compute in E. discriminate E.
Defined.

(** ** The statistics of the extraction phase *)

(** How an exception can leave the harvest of the URLs: through [get] on a
    value that is not a dictionary, a missing key, or a value that cannot be
    indexed, iterated or sliced. *)
Definition lookup_error (e : exn) : Prop :=
  In (exn_class e) [py "AttributeError"; py "TypeError"; py "KeyError"].

Definition raises_only (P : exn -> Prop) {A} (m : M A) : Prop :=
  forall st e st', m st = (Raised e, st') -> P e.

(** The URLs gathered from the three collections (lines 273-308). *)
Definition harvest_urls (web_data social_data websailor_data : pyval) : M (list pyval) :=
  all_urls <- harvest_web web_data ;;
  all_urls <- harvest_social social_data all_urls ;;
  harvest_websailor websailor_data all_urls.



Lemma raises_only_ret (P : exn -> Prop) {A} (a : A) : raises_only P (ret a).
Proof. intros st e st' H. discriminate H. Qed.

Lemma raises_only_raise (P : exn -> Prop) {A} (e : exn) : P e -> raises_only P (@raise A e).
Proof. intros He st e' st' H. injection H as <- _. exact He. Qed.

Lemma raises_only_lift (P : exn -> Prop) {A} (o : outcome A) :
  (forall e, o = Raised e -> P e) -> raises_only P (lift o).
Proof. intros Ho st e st' H. unfold lift in H. injection H as -> _. now apply Ho. Qed.

Lemma raises_only_bind (P : exn -> Prop) {A B} (m : M A) (k : A -> M B) :
  raises_only P m -> (forall a, raises_only P (k a)) -> raises_only P (bind m k).
Proof.
  intros Hm Hk st e st' H. unfold bind in H.
  destruct (m st) as [[a | e0] st1] eqn:E.
  - exact (Hk a _ _ _ H).
  - injection H as <- _. exact (Hm _ _ _ E).
Qed.

Lemma raises_only_foldM (P : exn -> Prop) {A B} (body : B -> A -> M B) :
  (forall acc x, raises_only P (body acc x)) ->
  forall l acc, raises_only P (foldM body acc l).
Proof.
  intros Hbody l. induction l as [| x l IH]; intros acc; cbn [foldM].
  - apply raises_only_ret.
  - apply raises_only_bind; [apply Hbody | intros acc'; apply IH].
Qed.

Lemma py_get_error (v : pyval) (k : pystr) (default : pyval) (e : exn) :
  py_get v k default = Raised e -> lookup_error e.
Proof. destruct v; intros H; try discriminate H; injection H as <-; cbn; tauto. Qed.

Lemma py_getitem_error (v : pyval) (k : pystr) (e : exn) :
  py_getitem v k = Raised e -> lookup_error e.
Proof.
  destruct v; cbn [py_getitem]; try (intros H; injection H as <-; cbn; tauto).
  destruct (dict_lookup d k); intros H; [discriminate H |].
  injection H as <-. cbn. tauto.
Qed.

Lemma py_iter_error (v : pyval) (e : exn) : py_iter v = Raised e -> lookup_error e.
Proof. destruct v; intros H; try discriminate H; injection H as <-; cbn; tauto. Qed.

Lemma py_slice_to_error (v : pyval) (n : nat) (e : exn) :
  py_slice_to v n = Raised e -> lookup_error e.
Proof. destruct v; intros H; try discriminate H; injection H as <-; cbn; tauto. Qed.

Ltac raises_only :=
  repeat first
    [ apply raises_only_ret
    | apply raises_only_raise; cbn; tauto
    | apply raises_only_lift;
      first [ apply py_get_error | apply py_getitem_error | apply py_iter_error
            | apply py_slice_to_error ]
    | apply raises_only_bind; [| intros ?]
    | apply raises_only_foldM; intros ? ?
    | match goal with
      | |- raises_only _ (match ?v with _ => _ end) => destruct v
      end ].


Lemma harvest_urls_stateless (web_data social_data websailor_data : pyval) :
  stateless (harvest_urls web_data social_data websailor_data).
Proof.
  unfold harvest_urls. apply stateless_bind; [apply harvest_web_stateless | intros urls1].
  apply stateless_bind; [apply harvest_social_stateless | intros urls2].
  apply harvest_websailor_stateless.
Qed.

(** *** Rounding to binary64 *)











Section ExtractionStatistics.
Context {R : Runtime}.
Variable W : World.






End ExtractionStatistics.

(** Google finds three pages; the extractor reads two of them. *)
Definition google_hit (url : string) : pyval :=
  PyDict [(py "title", PyStr (py "Cursos online"));
          (py "url", PyStr (py url));
          (py "snippet", PyStr (py "O mercado cresce"));
          (py "source", PyStr (py "google"))].

Definition three_google_hits : pyval :=
  PyDict [(py "google_results",
           PyList [google_hit "https://example.org/cursos";
                   google_hit "https://example.org/vazio";
                   google_hit "https://example.org/precos"]);
          (py "total_web_sources", PyInt 3)].

Definition selective_world : World := {|
  salvar_etapa := salvar_etapa quiet_world;
  salvar_erro := salvar_erro quiet_world;
  exa_is_available := exa_is_available quiet_world;
  exa_search := exa_search quiet_world;
  search_google := search_google quiet_world;
  search_serper := search_serper quiet_world;
  search_bing := search_bing quiet_world;
  supadata_search := supadata_search quiet_world;
  navigate_and_research_deep := navigate_and_research_deep quiet_world;
  extract_content url :=
    match url with
    | PyStr s => if pystr_eqb s (py "https://example.org/vazio")
                 then Returned PyNone
                 else Returned (PyStr text_with_figures)
    | _ => Returned PyNone
    end;
  late_web := late_web quiet_world;
  late_social := late_social quiet_world;
  late_extraction := late_extraction quiet_world;
  os_makedirs := os_makedirs quiet_world;
  json_dump_to := json_dump_to quiet_world;
  os_getsize := os_getsize quiet_world;
  now_isoformat := now_isoformat quiet_world;
  now_strftime := now_strftime quiet_world;
  elapsed_seconds := elapsed_seconds quiet_world
|}.

(** What an extraction result reports under [key], and under [key] of its
    statistics. *)
Definition reported_by (result : outcome pyval) (key : pystr) : option pyval :=
  match result with
  | Returned (PyDict d) => dict_lookup d key
  | _ => None
  end.

Definition reported_statistic (result : outcome pyval) (key : pystr) : option pyval :=
  match reported_by result (py "extraction_stats") with
  | Some (PyDict stats) => dict_lookup stats key
  | _ => None
  end.


(** Two of three URLs extracted: the rate is 66.66666666666666, the float
    [2345624805922133 / 2^45], and not the rational 200/3; the average of the
    2,400 characters of each document is 2400.0. *)
Example two_of_three_extracted :
  let result := fst (@_extract_massive_content ascii_runtime selective_world
                       three_google_hits (PyDict []) (PyDict []) (py "sessao-0001")
                       __init__) in
  reported_by result (py "total_urls_found") = Some (PyInt 3)
  /\ reported_by result (py "total_content_extracted") = Some (PyInt 2)
  /\ reported_by result (py "extraction_success_rate")
     = Some (PyFloat (2345624805922133 # 35184372088832))
  /\ ~ (2345624805922133 # 35184372088832 == 200 # 3)%Q
  /\ reported_statistic result (py "total_chars") = Some (PyInt 4800)
  /\ reported_statistic result (py "avg_content_length") = Some (PyFloat 2400).
Proof.
  cbv zeta. repeat split; try (vm_compute; reflexivity).
  intros H. vm_compute in H. discriminate H.
Qed.

(** 100 of 150 gives the same rate, 66.66666666666666. *)
Example hundred_of_hundred_fifty :
  extraction_success_rate (repeat PyNone 150) (repeat PyNone 100)
  = Returned (PyFloat (2345624805922133 # 35184372088832)).
Proof. vm_compute. reflexivity. Qed.

(** A character total too large for a float makes the average overflow. *)
Example average_too_large_for_a_float :
  avg_content_length (2 ^ 1024) [PyNone] = Raised OverflowError.
Proof. vm_compute. reflexivity. Qed.

(** ** The validator outside the snapshot data model *)

Section ValidatorErrors.
Context {R : Runtime}.

(** X9: the validator never changes the statistics, and it returns a report
    exactly on the snapshots of the shape [well_shaped].  On any other
    dictionary it raises, and the first defect it meets decides the
    exception: [AttributeError] when [estatisticas_coleta] is present and not
    a dictionary; otherwise [TypeError] when one of the two figures it
    compares is present and not a number; otherwise
    [preparacao_para_analises] is present and not a dictionary, and it raises
    [AttributeError]. *)
Theorem validator_returns_iff_well_shaped (d : pydict) (st : collection_stats) :
  exists o,
    _validate_massive_data (PyDict d) st = (o, st)
    /\ match o with
       | Returned report => well_shaped d = true
       | Raised e =>
           well_shaped d = false
           /\ (is_dict (section_of d (py "estatisticas_coleta")) = false ->
               exn_class e = py "AttributeError")
           /\ (is_dict (section_of d (py "estatisticas_coleta")) = true ->
               is_number (figure_of d (py "total_caracteres_extraidos"))
               && is_number (figure_of d (py "qualidade_media_conteudo")) = false ->
               exn_class e = py "TypeError")
           /\ (is_dict (section_of d (py "estatisticas_coleta")) = true ->
               is_number (figure_of d (py "total_caracteres_extraidos"))
               && is_number (figure_of d (py "qualidade_media_conteudo")) = true ->
               is_dict (section_of d (py "preparacao_para_analises")) = false
               /\ exn_class e = py "AttributeError")
       end.
Proof.
  remember (_validate_massive_data (PyDict d) st) as run eqn:Hdef.
  pose proof Hdef as Hrun.
  unfold _validate_massive_data, bind, lift, py_ge in Hrun. cbn [py_get] in Hrun.
  unfold well_shaped, figure_of, section_of, is_number.
  destruct (match dict_lookup d (py "estatisticas_coleta") with
            | Some v => v
            | None => PyDict []
            end) as [| | | | | | estatisticas] eqn:He;
    try (eexists; split; [exact Hrun |]; cbn [is_dict andb];
         split; [reflexivity |];
         split; [intros _; reflexivity |];
         split; intros Hx; discriminate Hx).
  cbn [py_get] in Hrun. cbv beta iota. cbn [is_dict].
  destruct (as_number match dict_lookup estatisticas (py "total_caracteres_extraidos") with
                      | Some v => v
                      | None => PyInt 0
                      end) as [total |] eqn:Ht.
  2:{ eexists. split; [exact Hrun |]. cbn [andb].
      split; [now rewrite andb_false_r |].
      split; [intros Hx; discriminate Hx |].
      split; [intros _ _; reflexivity |].
      intros _ Hx. discriminate Hx. }
  destruct (as_number match dict_lookup estatisticas (py "qualidade_media_conteudo") with
                      | Some v => v
                      | None => PyInt 0
                      end) as [avg |] eqn:Ha.
  2:{ eexists. split; [exact Hrun |]. cbn [andb].
      split; [now rewrite andb_false_r |].
      split; [intros Hx; discriminate Hx |].
      split; [intros _ _; reflexivity |].
      intros _ Hx. discriminate Hx. }
  destruct (match dict_lookup d (py "preparacao_para_analises") with
            | Some v => v
            | None => PyDict []
            end) as [| | | | | | preparacao] eqn:Hp;
    try (eexists; split; [exact Hrun |]; cbn [is_dict andb];
         split; [reflexivity |];
         split; [intros Hx; discriminate Hx |];
         split; [intros _ Hx; discriminate Hx |];
         intros _ _; split; reflexivity).
  exists (Returned (report_of d)).
  assert (well_shaped d = true) as Hshape.
  { unfold well_shaped, figure_of, section_of, is_number.
    rewrite He, Hp. cbv beta iota. rewrite Ht, Ha. reflexivity. }
  split; [| reflexivity].
  rewrite Hdef. now apply validate_well_shaped.
Qed.

End ValidatorErrors.

(** ** Modules and recommendations of a report *)

Definition recomendacao_volume : pystr :=
  py "Execute nova coleta com mais APIs configuradas".

Definition recomendacao_qualidade : pystr :=
  py "Configure APIs premium para melhor qualidade".

Definition recomendacao_modulos : pystr :=
  py "Dados insuficientes para alguns m" ++ [243%N] ++ py "dulos - configure mais fontes".

Lemma recomendacoes_distinct :
  recomendacao_volume <> recomendacao_qualidade
  /\ recomendacao_volume <> recomendacao_modulos
  /\ recomendacao_qualidade <> recomendacao_modulos.
Proof. repeat split; intros H; vm_compute in H; discriminate H. Qed.

Section ValidatorReport.
Context {R : Runtime}.

(** X10: on a well-shaped snapshot the report lists a module exactly when it
    is in the catalogue and the readiness map holds a true value under
    [dados_prontos_para_] followed by the first word of the module's name; it
    recommends more sources exactly when fewer than 6 modules are listed, a
    new collection exactly when the volume is insufficient, and premium APIs
    exactly when the quality is not approved; it lists one problem for each
    of the two thresholds that is missed. *)
Theorem validator_modules_and_recommendations (d : pydict) (st : collection_stats) :
  well_shaped d = true ->
  exists report,
    _validate_massive_data (PyDict d) st = (Returned report, st)
    /\ (forall modulo,
          In modulo (modulos_viabilizados report)
          <-> In modulo modulos_possiveis
              /\ truthy (match py_get (section_of d (py "preparacao_para_analises"))
                                      (py "dados_prontos_para_" ++ first_segment 95 modulo)
                                      (PyBool false) with
                         | Returned v => v
                         | Raised _ => PyNone
                         end) = true)
    /\ (length (modulos_viabilizados report) <= 8)%nat
    /\ (In recomendacao_modulos (recomendacoes report)
        <-> (length (modulos_viabilizados report) < 6)%nat)
    /\ (In recomendacao_volume (recomendacoes report)
        <-> dados_suficientes_para_analise report = false)
    /\ (In recomendacao_qualidade (recomendacoes report)
        <-> qualidade_aprovada report = false)
    /\ length (problemas_identificados report)
       = ((if dados_suficientes_para_analise report then 0 else 1)
          + (if qualidade_aprovada report then 0 else 1))%nat.
Proof.
  intros Hshape. exists (report_of d). split; [now apply validate_well_shaped |].
  destruct recomendacoes_distinct as (Hvq & Hvm & Hqm).
  unfold report_of.
  cbn [modulos_viabilizados recomendacoes dados_suficientes_para_analise
       qualidade_aprovada problemas_identificados].
  fold recomendacao_volume recomendacao_qualidade.
  change (py "Dados insuficientes para alguns m" ++ [243%N]
          ++ py "dulos - configure mais fontes") with recomendacao_modulos.
  split.
  { intros modulo. rewrite filter_In. unfold ready, chave_do_modulo.
    unfold well_shaped in Hshape. rewrite !andb_true_iff in Hshape.
    destruct Hshape as [[[_ Hp] _] _].
    destruct (section_of d (py "preparacao_para_analises")); try discriminate Hp.
    cbn [py_get]. reflexivity. }
  split.
  { pose proof (filter_length_le (ready d) modulos_possiveis) as Hle.
    cbn [length modulos_possiveis] in Hle. exact Hle. }
  assert ((Z.of_nat (length (filter (ready d) modulos_possiveis)) <? 6) = true
          <-> (length (filter (ready d) modulos_possiveis) < 6)%nat) as Hsix.
  { rewrite Z.ltb_lt. lia. }
  destruct (Qle_bool 50000 (total_caracteres d)), (Qle_bool 60 (qualidade_media d)),
    (Z.of_nat (length (filter (ready d) modulos_possiveis)) <? 6);
    cbn [app In length Nat.add];
    (split; [| split; [| split; [| reflexivity]]]);
    split; intros H;
    repeat match goal with
           | H : _ \/ _ |- _ => destruct H as [H | H]
           | H : False |- _ => destruct H
           end;
    try reflexivity; try discriminate; try congruence; try tauto;
    try (apply Hsix; reflexivity);
    try (apply Hsix in H; discriminate H);
    try (symmetry in H; contradiction).
Qed.

End ValidatorReport.

Lemma validator_modules_and_recommendations_witness :
  well_shaped thin_snapshot = true
  /\ exists report,
       @_validate_massive_data ascii_runtime (PyDict thin_snapshot) __init__
       = (Returned report, __init__)
       /\ (length (modulos_viabilizados report) <= 8)%nat
       /\ (In recomendacao_modulos (recomendacoes report)
           <-> (length (modulos_viabilizados report) < 6)%nat)
       /\ (In recomendacao_volume (recomendacoes report)
           <-> dados_suficientes_para_analise report = false).
Proof.
  split; [reflexivity |].
  destruct (@validator_modules_and_recommendations ascii_runtime thin_snapshot __init__
              eq_refl)
    as (report & Hrun & _ & Hlen & Hmod & Hvol & _).
  exists report. split; [exact Hrun |]. split; [exact Hlen |]. split; assumption.
Defined.

(** ** The result of the pipeline *)

Lemma stateless_call (o : option exn) : stateless (call o).
Proof. intros st. destruct o; reflexivity. Qed.

Lemma stateless_get_stats : stateless get_stats.
Proof. intros st. reflexivity. Qed.

Lemma stateless_progress (progress_callback : option (Z -> option exn)) (step : Z) :
  stateless (progress progress_callback step).
Proof. destruct progress_callback; [apply stateless_call | apply stateless_ret]. Qed.

Section PipelineResult.
Context {R : Runtime}.
Variable W : World.

Lemma generate_automatic_insights_stateless
  (web_data social_data websailor_data extracted_content : pyval) :
  stateless (_generate_automatic_insights web_data social_data websailor_data
                                          extracted_content).
Proof.
  unfold _generate_automatic_insights.
  repeat (apply stateless_bind; [apply stateless_lift | intros ?]).
  apply stateless_bind; [apply stateless_get_stats | intros ?].
  apply stateless_ret.
Qed.

Lemma sum_numbers_stateless (f : pyval -> outcome pyval) (l : list pyval) :
  stateless (sum_numbers f l).
Proof. unfold sum_numbers. stateless. Qed.

Lemma assess_data_quality_stateless (extracted_content : pyval) :
  stateless (_assess_data_quality_for_analysis extracted_content).
Proof.
  unfold _assess_data_quality_for_analysis.
  repeat (apply stateless_bind; [apply stateless_lift | intros ?]).
  destruct (_ <? 10); [apply stateless_ret |].
  apply stateless_bind; [apply stateless_lift | intros ?].
  apply stateless_bind; [apply sum_numbers_stateless | intros ?].
  destruct (Qle_bool _ _); [| apply stateless_ret].
  apply stateless_bind; [apply sum_numbers_stateless | intros ?].
  apply stateless_ret.
Qed.

Lemma consolidate_massive_json_stateless
  (web_data social_data websailor_data extracted_content : pyval)
  (query : pystr) (context : pyval) (session_id : pystr) :
  stateless (_consolidate_massive_json W web_data social_data websailor_data
                                       extracted_content query context session_id).
Proof.
  unfold _consolidate_massive_json. cbv zeta.
  apply stateless_bind; [apply stateless_get_stats | intros ?].
  repeat (apply stateless_bind; [apply stateless_lift | intros ?]).
  apply stateless_bind; [apply generate_automatic_insights_stateless | intros ?].
  apply stateless_bind; [apply assess_data_quality_stateless | intros ?].
  apply stateless_ret.
Qed.

(** The save returns the path it wrote to, and only when the directory was
    made, the snapshot was written there and its size could be read. *)
Lemma save_massive_json_returns (massive_json : pyval) (session_id : pystr)
  st path st' :
  _save_massive_json W massive_json session_id st = (Returned path, st') ->
  st' = st
  /\ path = py "analyses_data/massive_data/massive_data_" ++ firstn 8 session_id
            ++ py "_" ++ now_strftime W ++ py ".json"
  /\ os_makedirs W (py "analyses_data/massive_data") = None
  /\ json_dump_to W path massive_json = None
  /\ exists size, os_getsize W path = Returned size.
Proof.
  unfold _save_massive_json, try_except, bind, call, lift, ret, raise. cbv zeta.
  destruct (os_makedirs W (py "analyses_data/massive_data")); [discriminate |].
  destruct (json_dump_to W _ massive_json) eqn:Hdump; [discriminate |].
  destruct (os_getsize W _) as [size | e] eqn:Hsize; [| discriminate].
  intros H. injection H as <- <-.
  split; [reflexivity |]. split; [reflexivity |]. split; [reflexivity |].
  split; [exact Hdump |]. exists size. exact Hsize.
Qed.

End PipelineResult.

Section PipelineOutcome.
Context {R : Runtime}.
Variable W : World.

Ltac skip_step H :=
  apply bind_inv in H; destruct H as (? & ? & _ & H).

(** The phases before the save end with the consolidation: the snapshot is
    the Consolidator's, built in the state the phases end in. *)
Lemma phases_before_save_returns (query : pystr) (context : pyval) (session_id : pystr)
  (progress_callback : option (Z -> option exn)) st massive_json st' :
  phases_before_save W query context session_id progress_callback st
  = (Returned massive_json, st') ->
  exists web_data social_data websailor_data extracted_content,
    _consolidate_massive_json W web_data social_data websailor_data extracted_content
                              query context session_id st'
    = (Returned massive_json, st').
Proof.
  unfold phases_before_save. intros H.
  do 3 skip_step H.
  apply bind_inv in H. destruct H as (web_data & ? & _ & H). skip_step H.
  apply bind_inv in H. destruct H as (social_data & ? & _ & H). skip_step H.
  apply bind_inv in H. destruct H as (websailor_data & ? & _ & H). skip_step H.
  apply bind_inv in H. destruct H as (extracted_content & ? & _ & H).
  apply bind_inv in H. destruct H as (? & s_c & _ & H).
  apply bind_inv in H. destruct H as (snapshot & s_c' & Hcons & H).
  apply bind_inv in H. destruct H as (? & s_p & Hprogress & H).
  cbv [ret] in H. injection H as <- <-.
  pose proof (@stateless_inv _ _ _ _ _ (stateless_progress progress_callback 11) Hprogress)
    as ->.
  pose proof (@stateless_inv _ _ _ _ _
                (consolidate_massive_json_stateless W web_data social_data websailor_data
                   extracted_content query context session_id) Hcons) as Hsame.
  subst s_c'.
  now exists web_data, social_data, websailor_data, extracted_content.
Qed.

(** What a returned result is made of. *)
Lemma collect_massive_data_returns
  (query : pystr) (context : pyval) (session_id : pystr)
  (progress_callback : option (Z -> option exn))
  (st st' : collection_stats) (result : collection_result) :
  collect_massive_data W query context session_id progress_callback st
  = (Returned result, st') ->
  exists web_data social_data websailor_data extracted_content d path,
    phases_before_save W query context session_id progress_callback st
    = (Returned (PyDict d), st')
    /\ _consolidate_massive_json W web_data social_data websailor_data extracted_content
                                 query context session_id st'
       = (Returned (PyDict d), st')
    /\ well_shaped d = true
    /\ _save_massive_json W (PyDict d) session_id st' = (Returned path, st')
    /\ result
       = mkResult true session_id query context path (PyDict d) st' (elapsed_seconds W)
           (str_int (Qfloor (elapsed_seconds W / 60)) ++ py "m "
            ++ str_int (Qfloor (elapsed_seconds W
                                - inject_Z (60 * Qfloor (elapsed_seconds W / 60))))
            ++ py "s")
           (report_of d) (now_isoformat W).
Proof.
  rewrite collect_massive_data_phases. unfold try_except. intros H.
  match type of H with
  | (let (o, s) := ?body st in _) = _ => destruct (body st) as [[r | e] s1] eqn:Hbody
  end.
  2:{ unfold on_error, bind, call, raise in H.
      destruct (salvar_erro W _ e _); discriminate H. }
  injection H as <- <-.
  apply bind_inv in Hbody. destruct Hbody as (massive_json & s_a & Hbefore & Hbody).
  apply bind_inv in Hbody. destruct Hbody as (path & s_b & Hsave & Hafter).
  pose proof Hbefore as Hcons. apply phases_before_save_returns in Hcons.
  destruct Hcons as (web_data & social_data & websailor_data & extracted_content & Hcons).
  pose proof Hcons as Hshape. apply consolidated_snapshot_well_shaped in Hshape.
  destruct Hshape as (d & -> & Hshape).
  pose proof Hsave as Hsaved. apply save_massive_json_returns in Hsaved.
  destruct Hsaved as (-> & _).
  unfold phases_after_save in Hafter.
  apply bind_inv in Hafter. destruct Hafter as (? & s_p & Hprogress & Hafter).
  pose proof (@stateless_inv _ _ _ _ _ (stateless_progress progress_callback 12) Hprogress)
    as ->.
  apply bind_inv in Hafter. destruct Hafter as (report & s_v & Hvalidate & Hafter).
  rewrite (validate_well_shaped d s_a Hshape) in Hvalidate. injection Hvalidate as <- <-.
  apply bind_inv in Hafter. destruct Hafter as (stats & s_g & Hstats & Hafter).
  cbv [get_stats] in Hstats. injection Hstats as <- <-.
  apply bind_inv in Hafter. destruct Hafter as (? & s_e & Hend & Hafter).
  pose proof (@stateless_inv _ _ _ _ _
                (stateless_call (salvar_etapa W (py "coleta_massiva_completa"))) Hend) as ->.
  cbv [ret] in Hafter. injection Hafter as <- <-.
  exists web_data, social_data, websailor_data, extracted_content, d, path.
  repeat split; assumption.
Qed.

(** X12: a result returned by [collect_massive_data] is always flagged
    [success], whatever its validation says.  It echoes the session, the
    query and the context; its path is
    [analyses_data/massive_data/massive_data_<first 8 characters of the
    session>_<timestamp>.json], and the snapshot of the result was written
    there; its statistics are the collector's final statistics, and the
    snapshot reports the same character total and mean quality; its
    validation is what the validator returns on its snapshot. *)
Theorem pipeline_result_consistent
  (query : pystr) (context : pyval) (session_id : pystr)
  (progress_callback : option (Z -> option exn))
  (st st' : collection_stats) (result : collection_result) :
  collect_massive_data W query context session_id progress_callback st
  = (Returned result, st') ->
  success result = true
  /\ result_session_id result = session_id
  /\ result_query result = query
  /\ result_context result = context
  /\ massive_json_path result
     = py "analyses_data/massive_data/massive_data_" ++ firstn 8 session_id
       ++ py "_" ++ now_strftime W ++ py ".json"
  /\ json_dump_to W (massive_json_path result) (massive_data result) = None
  /\ result_collection_stats result = st'
  /\ exists d,
       massive_data result = PyDict d
       /\ figure_of d (py "total_caracteres_extraidos") = PyInt (total_content_chars st')
       /\ figure_of d (py "qualidade_media_conteudo") = mean_quality (quality_scores st')
       /\ _validate_massive_data (PyDict d) st' = (Returned (validation_results result), st').
Proof.
  intros H. apply collect_massive_data_returns in H.
  destruct H as (web_data & social_data & websailor_data & extracted_content & d & path
                 & _ & Hcons & Hshape & Hsave & ->).
  apply save_massive_json_returns in Hsave. destruct Hsave as (_ & Hpath & _ & Hdump & _).
  apply consolidated_snapshot in Hcons.
  destruct Hcons as (d' & b & metadata & Hd' & _ & _ & _ & _ & Hchars & Hquality & _).
  injection Hd' as <-.
  cbn [success result_session_id result_query result_context massive_json_path
       massive_data result_collection_stats validation_results].
  split; [reflexivity |]. split; [reflexivity |]. split; [reflexivity |].
  split; [reflexivity |]. split; [exact Hpath |]. split; [exact Hdump |].
  split; [reflexivity |].
  exists d. split; [reflexivity |]. split; [exact Hchars |]. split; [exact Hquality |].
  now apply validate_well_shaped.
Qed.

End PipelineOutcome.


Lemma pipeline_result_consistent_witness :
  exists result st',
    @collect_massive_data ascii_runtime busy_world (py "mercado de cursos") (PyDict [])
      (py "sessao-0001") None __init__
    = (Returned result, st')
    /\ success result = true
    /\ result_session_id result = py "sessao-0001"
    /\ massive_json_path result
       = py "analyses_data/massive_data/massive_data_sessao-0_20240501_100000.json"
    /\ result_collection_stats result = st'.
Proof.
  destruct (@collect_massive_data ascii_runtime busy_world (py "mercado de cursos")
              (PyDict []) (py "sessao-0001") None __init__)
    as [[result | e] st'] eqn:E.
  - exists result, st'. split; [reflexivity |].
    destruct (@pipeline_result_consistent ascii_runtime busy_world _ _ _ _ _ _ _ E)
      as (Hsuccess & Hsession & _ & _ & Hpath & _ & Hstats & _).
    split; [exact Hsuccess |]. split; [exact Hsession |]. split; [exact Hpath |].
    exact Hstats.
  - vm_compute in E. discriminate E.
Defined.

(** ** The collection time in the statistics *)

(** Computations that never write [extraction_time], whether they return or
    raise. *)
Definition keeps_time {A} (m : M A) : Prop :=
  forall st, extraction_time (snd (m st)) = extraction_time st.

Lemma stateless_keeps_time {A} (m : M A) : stateless m -> keeps_time m.
Proof. intros H st. now rewrite H. Qed.

Lemma keeps_time_ret {A} (a : A) : keeps_time (ret a).
Proof. intros st. reflexivity. Qed.

Lemma keeps_time_lift {A} (o : outcome A) : keeps_time (lift o).
Proof. intros st. reflexivity. Qed.

Lemma keeps_time_raise {A} (e : exn) : keeps_time (@raise A e).
Proof. intros st. reflexivity. Qed.

Lemma keeps_time_call (o : option exn) : keeps_time (call o).
Proof. apply stateless_keeps_time, stateless_call. Qed.

Lemma keeps_time_get_stats : keeps_time get_stats.
Proof. intros st. reflexivity. Qed.

Lemma keeps_time_progress (progress_callback : option (Z -> option exn)) (step : Z) :
  keeps_time (progress progress_callback step).
Proof. apply stateless_keeps_time, stateless_progress. Qed.

Lemma keeps_time_modify (f : collection_stats -> collection_stats) :
  (forall st, extraction_time (f st) = extraction_time st) -> keeps_time (modify f).
Proof. intros H st. apply H. Qed.

Lemma keeps_time_bind {A B} (m : M A) (k : A -> M B) :
  keeps_time m -> (forall a, keeps_time (k a)) -> keeps_time (bind m k).
Proof.
  intros Hm Hk st. unfold bind. specialize (Hm st).
  destruct (m st) as [[a | e] st1]; cbn [snd] in *; [now rewrite Hk | exact Hm].
Qed.

Lemma keeps_time_try_except {A} (m : M A) (h : exn -> M A) :
  keeps_time m -> (forall e, keeps_time (h e)) -> keeps_time (try_except m h).
Proof.
  intros Hm Hh st. unfold try_except. specialize (Hm st).
  destruct (m st) as [[a | e] st1]; cbn [snd] in *; [exact Hm | now rewrite Hh].
Qed.

Lemma keeps_time_future_result {A} (late : bool) (task : M A) :
  keeps_time task -> keeps_time (future_result late task).
Proof.
  intros Hm st. unfold future_result. specialize (Hm st).
  destruct (task st) as [r st1]. destruct late; exact Hm.
Qed.

Lemma keeps_time_foldM {A B} (body : B -> A -> M B) (l : list A) :
  (forall acc x, In x l -> keeps_time (body acc x)) ->
  forall acc, keeps_time (foldM body acc l).
Proof.
  induction l as [| x l IH]; intros Hbody acc; cbn [foldM].
  - apply keeps_time_ret.
  - apply keeps_time_bind; [apply Hbody; now left |].
    intros acc'. apply IH. intros acc0 y Hin. apply Hbody. now right.
Qed.

Ltac keeps_time :=
  repeat first
    [ apply keeps_time_ret
    | apply keeps_time_lift
    | apply keeps_time_raise
    | apply keeps_time_call
    | apply keeps_time_get_stats
    | apply keeps_time_progress
    | apply keeps_time_modify; intros ?; reflexivity
    | apply keeps_time_bind; [| intros ?]
    | apply keeps_time_try_except; [| intros ?]
    | match goal with
      | |- keeps_time (match ?v with _ => _ end) => destruct v
      end ].

Section CollectionTime.
Context {R : Runtime}.
Variable W : World.

Lemma collect_massive_web_data_keeps_time (query : pystr) (context : pyval)
  (session_id : pystr) :
  keeps_time (_collect_massive_web_data W query context session_id).
Proof.
  rewrite collect_massive_web_data_loop.
  apply keeps_time_bind; [apply keeps_time_lift | intros available].
  apply keeps_time_bind.
  - apply keeps_time_foldM. intros [d total] [provider [late task]] Hin.
    pose proof (web_futures_settle W query (truthy available)) as Hsettle.
    rewrite Forall_forall in Hsettle. specialize (Hsettle _ Hin). cbn [snd] in Hsettle.
    assert (keeps_time task) as Htask.
    { intros st. destruct (Hsettle st) as (v & ->). reflexivity. }
    unfold collect_provider.
    apply keeps_time_try_except; [| intros e; keeps_time].
    apply keeps_time_bind; [now apply keeps_time_future_result | intros results].
    keeps_time.
  - intros [d total]. keeps_time.
Qed.

Lemma collect_massive_social_data_keeps_time (query : pystr) (context : pyval)
  (session_id : pystr) :
  keeps_time (_collect_massive_social_data W query context session_id).
Proof.
  unfold _collect_massive_social_data. cbv zeta.
  apply keeps_time_bind.
  - apply keeps_time_foldM. intros [d total] platform _.
    unfold collect_platform.
    apply keeps_time_try_except; [| intros e; keeps_time].
    apply keeps_time_bind.
    + apply keeps_time_future_result. intros st.
      destruct (search_social_platform_returns W platform query st) as (results & ->).
      reflexivity.
    + intros results. keeps_time.
  - intros [d total]. keeps_time.
Qed.

Lemma collect_websailor_deep_data_keeps_time (query : pystr) (context : pyval)
  (session_id : pystr) :
  keeps_time (_collect_websailor_deep_data W query context session_id).
Proof. unfold _collect_websailor_deep_data. keeps_time. Qed.

Lemma extract_massive_content_keeps_time
  (web_data social_data websailor_data : pyval) (session_id : pystr) :
  keeps_time (_extract_massive_content W web_data social_data websailor_data session_id).
Proof.
  rewrite extract_massive_content_loop.
  apply keeps_time_bind;
    [apply stateless_keeps_time, harvest_web_stateless | intros urls1].
  apply keeps_time_bind;
    [apply stateless_keeps_time, harvest_social_stateless | intros urls2].
  apply keeps_time_bind;
    [apply stateless_keeps_time, harvest_websailor_stateless | intros all_urls].
  apply keeps_time_bind.
  - apply keeps_time_foldM. intros acc [i url_data] _ st.
    destruct (collect_extraction_step W acc i url_data st)
      as [-> | [(q & _ & ->) | (q & document & _ & _ & _ & ->)]]; reflexivity.
  - intros documents.
    apply keeps_time_bind; [apply keeps_time_lift | intros rate].
    apply keeps_time_bind; [apply keeps_time_get_stats | intros stats].
    apply keeps_time_bind; [apply keeps_time_lift | intros avg].
    apply keeps_time_bind;
      [apply stateless_keeps_time, categorize_sources_stateless | intros sources].
    keeps_time.
Qed.

Lemma save_massive_json_keeps_time (massive_json : pyval) (session_id : pystr) :
  keeps_time (_save_massive_json W massive_json session_id).
Proof. unfold _save_massive_json. cbv zeta. keeps_time. Qed.

Lemma validate_massive_data_keeps_time (massive_json : pyval) :
  keeps_time (_validate_massive_data massive_json).
Proof.
  unfold _validate_massive_data.
  repeat (apply keeps_time_bind; [apply keeps_time_lift | intros ?]).
  apply keeps_time_bind; [| intros ?; apply keeps_time_ret].
  apply keeps_time_foldM. intros acc modulo _. keeps_time.
Qed.

Lemma collect_massive_data_keeps_time (query : pystr) (context : pyval)
  (session_id : pystr) (progress_callback : option (Z -> option exn)) :
  keeps_time (collect_massive_data W query context session_id progress_callback).
Proof.
  unfold collect_massive_data.
  apply keeps_time_try_except; [| intros e; keeps_time].
  repeat first
    [ apply keeps_time_ret
    | apply keeps_time_call
    | apply keeps_time_progress
    | apply keeps_time_get_stats
    | apply collect_massive_web_data_keeps_time
    | apply collect_massive_social_data_keeps_time
    | apply collect_websailor_deep_data_keeps_time
    | apply extract_massive_content_keeps_time
    | apply stateless_keeps_time, consolidate_massive_json_stateless
    | apply save_massive_json_keeps_time
    | apply validate_massive_data_keeps_time
    | apply keeps_time_bind; [| intros ?] ].
Qed.

End CollectionTime.

Section CollectionTimeReported.
Context {R : Runtime}.
Variable W : World.

(** The time a snapshot reports is the [extraction_time] of the statistics. *)
Lemma consolidated_snapshot_time
  (web_data social_data websailor_data extracted_content : pyval)
  (query : pystr) (context : pyval) (session_id : pystr) st snapshot st' :
  _consolidate_massive_json W web_data social_data websailor_data extracted_content
                            query context session_id st
  = (Returned snapshot, st') ->
  exists d estatisticas,
    snapshot = PyDict d
    /\ dict_lookup d (py "estatisticas_coleta") = Some (PyDict estatisticas)
    /\ dict_lookup estatisticas (py "tempo_coleta_segundos")
       = Some (PyInt (extraction_time st)).
Proof.
  unfold _consolidate_massive_json. intros H.
  bind_step H. cbv [get_stats] in E. injection E as <- <-.
  do 23 lift_step H.
  do 2 bind_step H.
  cbv [ret] in H. injection H as <- <-.
  do 2 eexists. repeat split; reflexivity.
Qed.

(** X11: no phase of the pipeline ever writes [extraction_time]: however
    [collect_massive_data] ends, the field is what it was before the call.
    So the [tempo_coleta_segundos] of the snapshot of a returned result is the
    value the field had before the run (0 on a fresh collector), whatever time
    the run took; the measured time is only in the result's
    [collection_time]. *)
Theorem extraction_time_never_written
  (query : pystr) (context : pyval) (session_id : pystr)
  (progress_callback : option (Z -> option exn)) :
  (forall st,
     extraction_time
       (snd (collect_massive_data W query context session_id progress_callback st))
     = extraction_time st)
  /\ (forall st result st',
        collect_massive_data W query context session_id progress_callback st
        = (Returned result, st') ->
        exists d estatisticas,
          massive_data result = PyDict d
          /\ dict_lookup d (py "estatisticas_coleta") = Some (PyDict estatisticas)
          /\ dict_lookup estatisticas (py "tempo_coleta_segundos")
             = Some (PyInt (extraction_time st))
          /\ extraction_time (result_collection_stats result) = extraction_time st
          /\ collection_time result = elapsed_seconds W).
Proof.
  split; [apply collect_massive_data_keeps_time |].
  intros st result st' H.
  pose proof (collect_massive_data_keeps_time W query context session_id
                progress_callback st) as Htime.
  rewrite H in Htime. cbn [snd] in Htime.
  apply collect_massive_data_returns in H.
  destruct H as (web_data & social_data & websailor_data & extracted_content & d & path
                 & _ & Hcons & _ & _ & ->).
  apply consolidated_snapshot_time in Hcons.
  destruct Hcons as (d' & estatisticas & Hd' & Hsection & Hfigure).
  injection Hd' as <-.
  exists d, estatisticas.
  cbn [massive_data result_collection_stats collection_time].
  rewrite <- Htime. repeat split; assumption.
Qed.

End CollectionTimeReported.

Lemma extraction_time_never_written_witness :
  exists result st',
    @collect_massive_data ascii_runtime busy_world (py "mercado de cursos") (PyDict [])
      (py "sessao-0001") None __init__
    = (Returned result, st')
    /\ exists d estatisticas,
         massive_data result = PyDict d
         /\ dict_lookup d (py "estatisticas_coleta") = Some (PyDict estatisticas)
         /\ dict_lookup estatisticas (py "tempo_coleta_segundos") = Some (PyInt 0)
         /\ extraction_time (result_collection_stats result) = 0.
Proof.
  destruct (@collect_massive_data ascii_runtime busy_world (py "mercado de cursos")
              (PyDict []) (py "sessao-0001") None __init__)
    as [[result | e] st'] eqn:E.
  - exists result, st'. split; [reflexivity |].
    destruct (proj2 (@extraction_time_never_written ascii_runtime busy_world
                       (py "mercado de cursos") (PyDict []) (py "sessao-0001") None)
                    __init__ result st' E)
      as (d & estatisticas & Hd & Hsection & Hfigure & Hstats & _).
    exists d, estatisticas. repeat split; assumption.
  - vm_compute in E. discriminate E.
Defined.

(** ** The tasks handed to the extraction pool *)

(** A task built from a web or social result: the four keys, in this order,
    and a URL that is not empty. *)
Definition task_with_url (v : pyval) : Prop :=
  exists url title source snippet,
    v = PyDict [(py "url", url); (py "title", title); (py "source", source);
                (py "snippet", snippet)]
    /\ truthy url = true.

(** A task built from a WebSailor source. *)
Definition websailor_task (v : pyval) : Prop :=
  exists url title,
    v = PyDict [(py "url", url); (py "title", title);
                (py "source", PyStr (py "websailor")); (py "snippet", PyStr [])].

(** A loop whose turns only append entries that satisfy [P] appends only
    such entries. *)
Lemma foldM_appends {A} (P : pyval -> Prop) (body : list pyval -> A -> M (list pyval)) :
  (forall acc x st acc' st',
     body acc x st = (Returned acc', st') ->
     exists extra, acc' = acc ++ extra /\ Forall P extra) ->
  forall l acc st acc' st',
    foldM body acc l st = (Returned acc', st') ->
    exists extra, acc' = acc ++ extra /\ Forall P extra.
Proof.
  intros Hbody l. induction l as [| x l IH]; intros acc st acc' st' H; cbn [foldM] in H.
  - cbv [ret] in H. injection H as <- <-. exists []. split; [now rewrite app_nil_r | constructor].
  - apply bind_inv in H. destruct H as (acc1 & st1 & Hx & Hrest).
    destruct (Hbody _ _ _ _ _ Hx) as (extra1 & -> & HP1).
    destruct (IH _ _ _ _ Hrest) as (extra2 & -> & HP2).
    exists (extra1 ++ extra2). split; [now rewrite app_assoc | now apply Forall_app].
Qed.

Lemma harvest_web_tasks (web_data : pyval) st all_urls st' :
  harvest_web web_data st = (Returned all_urls, st') ->
  Forall task_with_url all_urls.
Proof.
  unfold harvest_web. intros H.
  apply bind_inv in H. destruct H as (values & s & _ & H).
  apply foldM_appends with (P := task_with_url) in H.
  { destruct H as (extra & -> & HP). exact HP. }
  clear. intros acc provider_results st acc' st' H.
  destruct provider_results as [| | | | | l |];
    try (cbv [ret] in H; injection H as <- <-; exists [];
         split; [now rewrite app_nil_r | constructor]).
  apply foldM_appends with (P := task_with_url) in H; [exact H |].
  clear. intros acc result st acc' st' H.
  lift_step H. destruct (truthy v) eqn:Hurl.
  - do 4 lift_step H. cbv [ret] in H. injection H as <- <-.
    eexists. split; [reflexivity |]. constructor; [| constructor].
    exists v0, v1, v2, v3. split; [reflexivity |].
    destruct result as [| | | | | | task]; try discriminate E.
    cbn [py_get py_getitem] in E, E0.
    destruct (dict_lookup task (py "url")); [| discriminate E0].
    injection E as <-. injection E0 as <-. exact Hurl.
  - cbv [ret] in H. injection H as <- <-. exists [].
    split; [now rewrite app_nil_r | constructor].
Qed.

Lemma harvest_social_tasks (social_data : pyval) (all_urls : list pyval) st all_urls' st' :
  harvest_social social_data all_urls st = (Returned all_urls', st') ->
  exists from_social, all_urls' = all_urls ++ from_social /\ Forall task_with_url from_social.
Proof.
  unfold harvest_social. intros H.
  apply bind_inv in H. destruct H as (values & s & _ & H).
  apply foldM_appends with (P := task_with_url) in H; [exact H |].
  clear. intros acc platform_data st acc' st' H.
  destruct platform_data as [| | | | | | d];
    try (cbv [ret] in H; injection H as <- <-; exists [];
         split; [now rewrite app_nil_r | constructor]).
  lift_step H. destruct (truthy v).
  2:{ cbv [ret] in H. injection H as <- <-. exists [].
      split; [now rewrite app_nil_r | constructor]. }
  do 2 lift_step H.
  apply foldM_appends with (P := task_with_url) in H; [exact H |].
  clear. intros acc result st acc' st' H.
  lift_step H. destruct (truthy v) eqn:Hurl.
  - do 6 lift_step H. cbv [ret] in H. injection H as <- <-.
    eexists. split; [reflexivity |]. constructor; [| constructor].
    exists v0, v1, v2, v5. split; [reflexivity |].
    destruct result as [| | | | | | task]; try discriminate E.
    cbn [py_get py_getitem] in E, E0.
    destruct (dict_lookup task (py "url")); [| discriminate E0].
    injection E as <-. injection E0 as <-. exact Hurl.
  - cbv [ret] in H. injection H as <- <-. exists [].
    split; [now rewrite app_nil_r | constructor].
Qed.

Lemma harvest_websailor_tasks (websailor_data : pyval) (all_urls : list pyval)
  st all_urls' st' :
  harvest_websailor websailor_data all_urls st = (Returned all_urls', st') ->
  exists from_websailor,
    all_urls' = all_urls ++ from_websailor /\ Forall websailor_task from_websailor.
Proof.
  unfold harvest_websailor. intros H.
  do 2 lift_step H. destruct (truthy v0).
  2:{ cbv [ret] in H. injection H as <- <-. exists [].
      split; [now rewrite app_nil_r | constructor]. }
  do 3 lift_step H.
  apply foldM_appends with (P := websailor_task) in H; [exact H |].
  clear. intros acc fonte st acc' st' H.
  do 2 lift_step H. cbv [ret] in H. injection H as <- <-.
  eexists. split; [reflexivity |]. constructor; [| constructor].
  now exists v, v0.
Qed.

(** X13: the pool's task list holds the tasks from the web results first,
    then those from the social results, then those from WebSailor, so the cap
    of 100 drops WebSailor's sources first.  Every task has the four keys
    [url], [title], [source] and [snippet]; a task from a web or social result
    has a URL that is not empty; a task from WebSailor is tagged [websailor]
    and has an empty snippet.  Building the list changes no statistic. *)
Theorem harvested_tasks
  (web_data social_data websailor_data : pyval)
  (st s1 s2 s3 : collection_stats) (urls1 urls2 all_urls : list pyval) :
  harvest_web web_data st = (Returned urls1, s1) ->
  harvest_social social_data urls1 s1 = (Returned urls2, s2) ->
  harvest_websailor websailor_data urls2 s2 = (Returned all_urls, s3) ->
  s3 = st
  /\ exists from_social from_websailor,
       all_urls = urls1 ++ from_social ++ from_websailor
       /\ Forall task_with_url urls1
       /\ Forall task_with_url from_social
       /\ Forall websailor_task from_websailor.
Proof.
  intros Hweb Hsocial Hsailor.
  pose proof (@stateless_inv _ _ _ _ _ (harvest_web_stateless web_data) Hweb) as ->.
  pose proof (@stateless_inv _ _ _ _ _ (harvest_social_stateless social_data urls1) Hsocial)
    as ->.
  pose proof (@stateless_inv _ _ _ _ _ (harvest_websailor_stateless websailor_data urls2)
                Hsailor) as ->.
  split; [reflexivity |].
  apply harvest_web_tasks in Hweb.
  apply harvest_social_tasks in Hsocial. destruct Hsocial as (from_social & -> & Hs).
  apply harvest_websailor_tasks in Hsailor. destruct Hsailor as (from_websailor & -> & Hw).
  exists from_social, from_websailor. rewrite <- app_assoc. repeat split; assumption.
Qed.

Definition google_task : pyval :=
  PyDict [(py "url", PyStr (py "https://example.org/cursos"));
          (py "title", PyStr (py "Cursos online"));
          (py "source", PyStr (py "google"));
          (py "snippet", PyStr (py "O mercado cresce"))].

Definition one_websailor_source : pyval :=
  PyDict [(py "conteudo_consolidado",
           PyDict [(py "fontes_detalhadas",
                    PyList [PyDict [(py "url", PyStr (py "https://example.org/fonte"));
                                    (py "title", PyStr (py "Fonte"))]])])].

Definition websailor_source_task : pyval :=
  PyDict [(py "url", PyStr (py "https://example.org/fonte"));
          (py "title", PyStr (py "Fonte"));
          (py "source", PyStr (py "websailor"));
          (py "snippet", PyStr [])].

Lemma harvested_tasks_witness :
  harvest_web (PyDict [(py "google_results", one_google_hit);
                       (py "total_web_sources", PyInt 1)]) __init__
  = (Returned [google_task], __init__)
  /\ harvest_social (PyDict []) [google_task] __init__ = (Returned [google_task], __init__)
  /\ harvest_websailor one_websailor_source [google_task] __init__
     = (Returned [google_task; websailor_source_task], __init__)
  /\ exists from_social from_websailor,
       [google_task; websailor_source_task] = [google_task] ++ from_social ++ from_websailor
       /\ Forall task_with_url [google_task]
       /\ Forall task_with_url from_social
       /\ Forall websailor_task from_websailor.
Proof.
  assert (harvest_web (PyDict [(py "google_results", one_google_hit);
                               (py "total_web_sources", PyInt 1)]) __init__
          = (Returned [google_task], __init__)) as Hweb by (vm_compute; reflexivity).
  assert (harvest_social (PyDict []) [google_task] __init__
          = (Returned [google_task], __init__)) as Hsocial by (vm_compute; reflexivity).
  assert (harvest_websailor one_websailor_source [google_task] __init__
          = (Returned [google_task; websailor_source_task], __init__)) as Hsailor
    by (vm_compute; reflexivity).
  split; [exact Hweb |]. split; [exact Hsocial |]. split; [exact Hsailor |].
  exact (proj2 (@harvested_tasks _ _ _ _ _ _ _ _ _ _ Hweb Hsocial Hsailor)).
Defined.

(** ** Failing providers *)

Section WebCollectionOutcome.
Variable W : World.

(** A turn of the collecting loop returns, whatever the task does. *)
Lemma collect_provider_returns (acc : pydict * Z) (pf : pystr * (bool * M pyval)) st :
  exists acc' st', collect_provider acc pf st = (Returned acc', st').
Proof.
  destruct acc as [d total]. destruct pf as [provider [late task]].
  unfold collect_provider, try_except.
  match goal with
  | |- exists _ _, (let (o, s) := ?m st in _) = _ => destruct (m st) as [[r | e] s1]
  end; do 2 eexists; reflexivity.
Qed.

(** X14: no search provider can make the web collection raise, whether it
    raises, times out or returns something that has no length: the collection
    raises only what the Exa availability check raises or, after all
    providers were collected, what the intermediate save raises; otherwise it
    returns a dictionary. *)
Theorem web_collection_isolates_providers
  (query : pystr) (context : pyval) (session_id : pystr) (st : collection_stats) :
  exists o st',
    _collect_massive_web_data W query context session_id st = (o, st')
    /\ match exa_is_available W with
       | Raised e => o = Raised e /\ st' = st
       | Returned _ =>
           match salvar_etapa W (py "web_data_massive") with
           | Some e => o = Raised e
           | None => exists d, o = Returned (PyDict d)
           end
       end.
Proof.
  rewrite collect_massive_web_data_loop. unfold bind at 1, lift at 1.
  destruct (exa_is_available W) as [available | e].
  2:{ exists (Raised e), st. now split. }
  destruct (foldM_returns collect_provider collect_provider_returns
              (web_futures W query (truthy available)) (empty_web_results, 0) st)
    as ([d total] & s1 & Hloop).
  unfold bind at 1. rewrite Hloop. unfold bind, modify, call.
  destruct (salvar_etapa W (py "web_data_massive")) as [e |].
  - do 2 eexists. split; reflexivity.
  - do 2 eexists. split; [reflexivity |]. now exists d.
Qed.

End WebCollectionOutcome.

(** ** What the validator reads *)

Section ValidatorReads.
Context {R : Runtime}.

(** X15: the report depends on nothing but the two figures and the readiness
    of the catalogue's modules: two well-shaped snapshots that agree on them
    get the same report, whatever else they hold (metadata, collected data,
    the verdict [qualidade_suficiente_para_analises]). *)
Theorem validator_reads_only_figures_and_flags (d d' : pydict) (st : collection_stats) :
  well_shaped d = true ->
  well_shaped d' = true ->
  figure_of d (py "total_caracteres_extraidos")
  = figure_of d' (py "total_caracteres_extraidos") ->
  figure_of d (py "qualidade_media_conteudo")
  = figure_of d' (py "qualidade_media_conteudo") ->
  (forall modulo, In modulo modulos_possiveis -> ready d modulo = ready d' modulo) ->
  _validate_massive_data (PyDict d) st = _validate_massive_data (PyDict d') st.
Proof.
  intros Hd Hd' Htotal Havg Hready.
  rewrite (validate_well_shaped d st Hd), (validate_well_shaped d' st Hd').
  unfold report_of, total_caracteres, qualidade_media.
  rewrite Htotal, Havg, (filter_ext_in _ _ _ Hready). reflexivity.
Qed.

End ValidatorReads.

(** [thin_snapshot] with metadata and a readiness map that only holds the
    verdict of the quality assessment. *)
Definition thin_snapshot_with_verdict : pydict :=
  [(py "metadata_coleta_massiva", PyDict [(py "session_id", PyStr (py "sessao-0001"))]);
   (py "estatisticas_coleta",
    PyDict [(py "total_caracteres_extraidos", PyInt 49999);
            (py "qualidade_media_conteudo", PyFloat (125 # 2));
            (py "total_fontes_web", PyInt 7)]);
   (py "preparacao_para_analises",
    PyDict [(py "qualidade_suficiente_para_analises", PyBool true)])].

Lemma validator_reads_only_figures_and_flags_witness :
  well_shaped thin_snapshot = true
  /\ well_shaped thin_snapshot_with_verdict = true
  /\ @_validate_massive_data ascii_runtime (PyDict thin_snapshot) __init__
     = @_validate_massive_data ascii_runtime (PyDict thin_snapshot_with_verdict) __init__.
Proof.
  split; [reflexivity |]. split; [reflexivity |].
  apply (@validator_reads_only_figures_and_flags ascii_runtime thin_snapshot
           thin_snapshot_with_verdict __init__);
    reflexivity.
Defined.

(** ** The totals of a snapshot and the statistics *)

Section SnapshotTotals.
Context {R : Runtime}.
Variable W : World.

Lemma collect_websailor_deep_data_stateless (query : pystr) (context : pyval)
  (session_id : pystr) :
  stateless (_collect_websailor_deep_data W query context session_id).
Proof.
  intros st. unfold _collect_websailor_deep_data, try_except, bind, lift, call.
  destruct (navigate_and_research_deep W query context 50 3 session_id);
    [destruct (salvar_etapa W (py "websailor_data_massive")) |]; reflexivity.
Qed.

Ltac pure_step H lemma :=
  apply bind_inv in H;
  let Hp := fresh "Hp" in
  destruct H as (? & ? & Hp & H);
  apply (@stateless_inv _ _ _ _ _ lemma) in Hp; subst.

(** The phases before the save, one after the other. *)
Lemma phases_before_save_steps (query : pystr) (context : pyval) (session_id : pystr)
  (progress_callback : option (Z -> option exn)) st massive_json st' :
  phases_before_save W query context session_id progress_callback st
  = (Returned massive_json, st') ->
  exists web_data social_data websailor_data extracted_content s1 s2,
    _collect_massive_web_data W query context session_id st = (Returned web_data, s1)
    /\ _collect_massive_social_data W query context session_id s1
       = (Returned social_data, s2)
    /\ _extract_massive_content W web_data social_data websailor_data session_id s2
       = (Returned extracted_content, st')
    /\ _consolidate_massive_json W web_data social_data websailor_data extracted_content
                                 query context session_id st'
       = (Returned massive_json, st').
Proof.
  unfold phases_before_save. intros H.
  pure_step H (stateless_call (salvar_etapa W (py "coleta_massiva_iniciada"))).
  pure_step H (stateless_progress progress_callback 1).
  pure_step H (stateless_progress progress_callback 2).
  apply bind_inv in H. destruct H as (web_data & s1 & Hweb & H).
  pure_step H (stateless_progress progress_callback 4).
  apply bind_inv in H. destruct H as (social_data & s2 & Hsocial & H).
  pure_step H (stateless_progress progress_callback 6).
  apply bind_inv in H. destruct H as (websailor_data & s3 & Hsailor & H).
  apply (@stateless_inv _ _ _ _ _
           (collect_websailor_deep_data_stateless query context session_id)) in Hsailor.
  subst s3.
  pure_step H (stateless_progress progress_callback 8).
  apply bind_inv in H. destruct H as (extracted_content & s4 & Hextract & H).
  pure_step H (stateless_progress progress_callback 10).
  apply bind_inv in H. destruct H as (snapshot & s5 & Hcons & H).
  pose proof (@stateless_inv _ _ _ _ _
                (consolidate_massive_json_stateless W web_data social_data websailor_data
                   extracted_content query context session_id) Hcons) as Hsame.
  subst s5.
  pure_step H (stateless_progress progress_callback 11).
  cbv [ret] in H. injection H as <- <-.
  exists web_data, social_data, websailor_data, extracted_content, s1, s2.
  repeat split; assumption.
Qed.

(** The totals a snapshot reports: those of the statistics, and those of the
    data it was built from. *)
Lemma consolidated_snapshot_totals
  (web_data social_data websailor_data extracted_content : pyval)
  (query : pystr) (context : pyval) (session_id : pystr) st snapshot st' :
  _consolidate_massive_json W web_data social_data websailor_data extracted_content
                            query context session_id st
  = (Returned snapshot, st') ->
  reported snapshot (py "estatisticas_coleta") (py "total_fontes_web")
  = PyInt (web_sources st)
  /\ reported snapshot (py "estatisticas_coleta") (py "total_fontes_sociais")
     = PyInt (social_sources st)
  /\ reported snapshot (py "estatisticas_coleta") (py "total_fontes_youtube")
     = PyInt (youtube_sources st)
  /\ py_get web_data (py "total_web_sources") (PyInt 0)
     = Returned (reported snapshot (py "dados_web_completos") (py "total_resultados_web"))
  /\ py_get social_data (py "total_social_sources") (PyInt 0)
     = Returned (reported snapshot (py "dados_sociais_completos")
                          (py "total_posts_sociais"))
  /\ py_get extracted_content (py "total_content_extracted") (PyInt 0)
     = Returned (reported snapshot (py "conteudo_extraido_massivo")
                          (py "total_paginas_extraidas")).
Proof.
  unfold _consolidate_massive_json. intros H.
  bind_step H. cbv [get_stats] in E. injection E as <- <-.
  do 23 lift_step H.
  do 2 bind_step H.
  cbv [ret] in H. injection H as <- <-.
  repeat split; try reflexivity; assumption.
Qed.

(** X16: in the snapshot of a returned result the web total of the data and
    the web total of the statistics agree: [web_sources] is assigned by each
    run.  The social and YouTube totals of the statistics are those of the
    collector, which the run has increased, together, by the number of posts
    the snapshot reports: they agree with it only when both counters were 0
    before the run.  The snapshot reports at most 100 extracted pages. *)
Theorem snapshot_totals_and_statistics
  (query : pystr) (context : pyval) (session_id : pystr)
  (progress_callback : option (Z -> option exn))
  (st st' : collection_stats) (result : collection_result) :
  collect_massive_data W query context session_id progress_callback st
  = (Returned result, st') ->
  exists web_total social_total pages,
    reported (massive_data result) (py "dados_web_completos") (py "total_resultados_web")
    = PyInt web_total
    /\ reported (massive_data result) (py "estatisticas_coleta") (py "total_fontes_web")
       = PyInt web_total
    /\ web_sources st' = web_total
    /\ reported (massive_data result) (py "dados_sociais_completos")
                (py "total_posts_sociais")
       = PyInt social_total
    /\ reported (massive_data result) (py "estatisticas_coleta")
                (py "total_fontes_sociais")
       = PyInt (social_sources st')
    /\ reported (massive_data result) (py "estatisticas_coleta")
                (py "total_fontes_youtube")
       = PyInt (youtube_sources st')
    /\ 0 <= social_total
    /\ social_sources st' + youtube_sources st'
       = social_sources st + youtube_sources st + social_total
    /\ reported (massive_data result) (py "conteudo_extraido_massivo")
                (py "total_paginas_extraidas")
       = PyInt pages
    /\ 0 <= pages <= 100.
Proof.
  intros H. apply collect_massive_data_returns in H.
  destruct H as (web_data & social_data & websailor_data & extracted_content & d & path
                 & Hbefore & _ & _ & _ & ->).
  cbn [massive_data].
  apply phases_before_save_steps in Hbefore.
  destruct Hbefore as (web & social & websailor & extracted & s1 & s2
                       & Hweb & Hsocial & Hextract & Hcons).
  apply web_collection_outcome in Hweb.
  destruct Hweb as (dw & web_total & available & _ & -> & Hwt & Hws & _ & _ & Hw).
  destruct (social_collection_outcome W query context session_id s1)
    as (ds & social_total & s2' & Hrun & Hst & Hpos & _ & _ & Hsum & Hs).
  rewrite Hsocial in Hrun.
  destruct (salvar_etapa W (py "social_data_massive")); [discriminate Hrun |].
  injection Hrun as -> ->.
  apply extraction_pool_outcome in Hextract.
  destruct Hextract as (de & found & documents & new_scores & -> & _ & Hpages & _ & Hcap
                        & _ & _ & _ & _ & _ & He).
  apply consolidated_snapshot_totals in Hcons.
  destruct Hcons as (Hfw & Hfs & Hfy & Hrw & Hrs & Hrp).
  cbn [py_get] in Hrw, Hrs, Hrp. rewrite Hwt in Hrw. rewrite Hst in Hrs.
  rewrite Hpages in Hrp.
  injection Hrw as Hrw. injection Hrs as Hrs. injection Hrp as Hrp.
  destruct Hw as (W1 & W2 & _ & _).
  destruct Hs as (S1 & _ & _ & _ & _).
  destruct He as (E1 & E2 & E3 & _ & _).
  exists web_total, social_total, (Z.of_nat (length documents)).
  split; [symmetry; exact Hrw |].
  split; [rewrite Hfw; f_equal; congruence |].
  split; [congruence |].
  split; [symmetry; exact Hrs |].
  split; [exact Hfs |]. split; [exact Hfy |]. split; [exact Hpos |].
  split; [rewrite E2, E3, Hsum, W1, W2; reflexivity |].
  split; [symmetry; exact Hrp |]. lia.
Qed.

End SnapshotTotals.

Lemma snapshot_totals_and_statistics_witness :
  exists result st',
    @collect_massive_data ascii_runtime busy_world (py "mercado de cursos") (PyDict [])
      (py "sessao-0001") None __init__
    = (Returned result, st')
    /\ exists web_total social_total pages,
         reported (massive_data result) (py "dados_web_completos")
                  (py "total_resultados_web")
         = PyInt web_total
         /\ reported (massive_data result) (py "estatisticas_coleta")
                     (py "total_fontes_web")
            = PyInt web_total
         /\ web_sources st' = web_total
         /\ reported (massive_data result) (py "dados_sociais_completos")
                     (py "total_posts_sociais")
            = PyInt social_total
         /\ reported (massive_data result) (py "estatisticas_coleta")
                     (py "total_fontes_sociais")
            = PyInt (social_sources st')
         /\ reported (massive_data result) (py "estatisticas_coleta")
                     (py "total_fontes_youtube")
            = PyInt (youtube_sources st')
         /\ 0 <= social_total
         /\ social_sources st' + youtube_sources st'
            = social_sources __init__ + youtube_sources __init__ + social_total
         /\ reported (massive_data result) (py "conteudo_extraido_massivo")
                     (py "total_paginas_extraidas")
            = PyInt pages
         /\ 0 <= pages <= 100.
Proof.
  destruct (@collect_massive_data ascii_runtime busy_world (py "mercado de cursos")
              (PyDict []) (py "sessao-0001") None __init__)
    as [[result | e] st'] eqn:E.
  - exists result, st'. split; [reflexivity |].
    exact (@snapshot_totals_and_statistics ascii_runtime busy_world _ _ _ _ _ _ _ E).
  - vm_compute in E. discriminate E.
Defined.

(** ** The quality assessment *)

Lemma py_len_iter (v : pyval) (n : Z) (items : list pyval) :
  py_len v = Returned n -> py_iter v = Returned items -> n = Z.of_nat (length items).
Proof.
  destruct v; cbn; intros Hn Hitems; try discriminate;
    injection Hn as <-; injection Hitems as <-; now rewrite ?length_map.
Qed.

(** The loop that adds the lengths of the contents adds [doc_chars]. *)
Lemma sum_numbers_doc_chars (items : list pyval) (acc : Q) st total st' :
  foldM (fun (acc : Q) (item : pyval) =>
           v <- lift (match py_get item (py "content") (PyStr []) with
                      | Returned c => match py_len c with
                                      | Returned k => Returned (PyInt k)
                                      | Raised e => Raised e
                                      end
                      | Raised e => Raised e
                      end) ;;
           match as_number v with
           | Some q => ret (acc + q)%Q
           | None => raise (TypeError "unsupported operand type(s) for +")
           end)
        acc items st
  = (Returned total, st') ->
  (total == acc + inject_Z (sum_Z (map doc_chars items)))%Q.
Proof.
  revert acc st. induction items as [| item items IH]; intros acc st H; cbn [foldM] in H.
  - cbv [ret] in H. injection H as <- <-. cbn. ring.
  - apply bind_inv in H. destruct H as (acc1 & s1 & Hitem & Hrest).
    apply IH in Hrest. rewrite Hrest. clear Hrest IH.
    lift_step Hitem.
    assert (v = PyInt (doc_chars item)) as ->.
    { unfold doc_chars.
      destruct (py_get item (py "content") (PyStr [])) as [c | e]; [| discriminate E].
      destruct (py_len c) as [k | e]; [| discriminate E]. now injection E as <-. }
    cbn [as_number] in Hitem. cbv [ret] in Hitem. injection Hitem as <- <-.
    cbn [map]. unfold sum_Z. cbn [fold_right]. rewrite inject_Z_plus. ring.
Qed.

(** X17: the quality assessment never changes the statistics, and it answers
    [True] only when the extraction result holds at least 10 documents whose
    contents add up to at least 30,000 characters (the validator asks for
    50,000). *)
Theorem assessment_passes_only_with_volume
  (extracted_content : pyval) (st st' : collection_stats) :
  _assess_data_quality_for_analysis extracted_content st = (Returned true, st') ->
  st' = st
  /\ exists content_list documents,
       py_get extracted_content (py "extracted_content") (PyList [])
       = Returned content_list
       /\ py_iter content_list = Returned documents
       /\ (10 <= length documents)%nat
       /\ 30000 <= sum_Z (map doc_chars documents).
Proof.
  intros H.
  pose proof (@stateless_inv _ _ _ _ _
                (assess_data_quality_stateless extracted_content) H) as ->.
  split; [reflexivity |].
  unfold _assess_data_quality_for_analysis in H.
  apply bind_inv in H. destruct H as (content_list & s0 & Hget & H).
  apply lift_inv in Hget. destruct Hget as [Hget ->].
  apply bind_inv in H. destruct H as (n & s0 & Hlen & H).
  apply lift_inv in Hlen. destruct Hlen as [Hlen ->].
  destruct (n <? 10) eqn:Hten; [cbv [ret] in H; discriminate H |].
  apply Z.ltb_ge in Hten.
  apply bind_inv in H. destruct H as (documents & s0 & Hiter & H).
  apply lift_inv in Hiter. destruct Hiter as [Hiter ->].
  apply bind_inv in H. destruct H as (total_chars & s0 & Hsum & H).
  unfold sum_numbers in Hsum. apply sum_numbers_doc_chars in Hsum.
  destruct (Qle_bool 30000 total_chars) eqn:Hvolume; [| cbv [ret] in H; discriminate H].
  apply Qle_bool_iff in Hvolume. rewrite Hsum, Qplus_0_l in Hvolume.
  change 30000%Q with (inject_Z 30000) in Hvolume. rewrite <- Zle_Qle in Hvolume.
  exists content_list, documents.
  pose proof (py_len_iter _ Hlen Hiter) as Hn.
  repeat split; try assumption. lia.
Qed.

(** An extraction result with ten documents of 3,000 characters and quality
    score 80. *)
Definition ten_documents : pyval :=
  PyDict [(py "extracted_content",
           PyList (repeat (PyDict [(py "content", PyStr (repeat 97%N 3000));
                                   (py "quality_score", PyFloat 80)]) 10))].

Lemma assessment_passes_only_with_volume_witness :
  _assess_data_quality_for_analysis ten_documents __init__ = (Returned true, __init__)
  /\ exists content_list documents,
       py_get ten_documents (py "extracted_content") (PyList []) = Returned content_list
       /\ py_iter content_list = Returned documents
       /\ (10 <= length documents)%nat
       /\ 30000 <= sum_Z (map doc_chars documents).
Proof.
  assert (_assess_data_quality_for_analysis ten_documents __init__
          = (Returned true, __init__)) as H by (vm_compute; reflexivity).
  split; [exact H |].
  exact (proj2 (@assessment_passes_only_with_volume ten_documents __init__ __init__ H)).
Defined.
